(** * SEDAPAL microzone ETL: a shallow embedding and its properties

    The development follows the Python sources:
    - [config/criterios.py]            (module [Criterios]),
    - [src/analytics/microzonas.py]    (module [Analitica]),
    - [src/limpieza_conexiones.py]     (modules [Ubigeo], [Conexiones]),
    - [src/limpieza_longitudes.py]     (module [Longitudes]),
    - [src/etl_sedapal.py]             (modules [Etl], [Guardar], [Descarga]),
    - [app/services/criticos.py]       (module [Servicio]),
    and the in-place/copy discipline of the stage functions (module [Marco]).
    The laws of the float comparisons that the properties use are the class
    [Orden].

    Tables are lists of typed rows; a column that the source tests for
    presence is carried with an explicit presence flag.  Python floats are
    IEEE binary64 numbers (instance [B64], on the kernel's primitive
    floats); the same code is also read over exact rationals with a NaN
    (instance [Exacto]) to state what the formulas guarantee when no
    rounding happens. *)

From Stdlib Require Import ZArith QArith Floats Lqa Lia Ascii String.
From Stdlib Require Import Decimal DecimalString DecimalPos DecimalFacts.
From stdpp Require Import base option list sorting gmap strings.

Local Open Scope Z_scope.

(** ** Arithmetic of Python floats *)

(** The operations the sources use on floats.  Comparisons are the Python
    ones: any comparison with NaN is [false]. *)
Class Num := {
  num : Type;
  nan : num;
  of_Z : Z -> num;                 (* float(int) *)
  nadd : num -> num -> num;
  nsub : num -> num -> num;
  nmul : num -> num -> num;
  ndiv : num -> num -> num;        (* IEEE division: never raises *)
  neqb : num -> num -> bool;       (* == *)
  nltb : num -> num -> bool;       (* <  *)
  nleb : num -> num -> bool;       (* <= *)
  is_nan : num -> bool;            (* pd.isna on a float *)
  rint : num -> num;               (* numpy.rint: nearest integer, ties to even *)
  is_nan_nan : is_nan nan = true;
  nltb_cero : nltb (of_Z 0) (of_Z 0) = false;
}.

(** A decimal literal [n/d] of the source text: the float nearest to it. *)
Definition lit `{Num} (n : Z) (d : positive) : num := ndiv (of_Z n) (of_Z (Zpos d)).

(** *** Binary64 *)

(** Nearest integer to [m/d], ties to the even one ([0 < d]). *)
Definition redondear_par (m d : Z) : Z :=
  let q := m / d in
  let r := m mod d in
  if 2 * r <? d then q
  else if d <? 2 * r then q + 1
  else if Z.even q then q else q + 1.

Definition SFrint (x : spec_float) : spec_float :=
  match x with
  | S754_finite s m e =>
      if 0 <=? e then x
      else
        let n := redondear_par (Zpos m) (2 ^ (- e)) in
        binary_normalize prec emax (if s then - n else n) 0 s
  | _ => x
  end.

Definition b64_of_Z (z : Z) : float := SF2Prim (binary_normalize prec emax z 0 false).

(** [int(x)] on a finite float: truncation towards zero. *)
Definition b64_truncar (x : float) : Z :=
  match Prim2SF x with
  | S754_finite s m e =>
      let v := if 0 <=? e then Zpos m * 2 ^ e else Zpos m / 2 ^ (- e) in
      if s then - v else v
  | _ => 0
  end.

#[export] Instance B64 : Num := {|
  num := float;
  nan := PrimFloat.nan;
  of_Z := b64_of_Z;
  nadd := PrimFloat.add;
  nsub := PrimFloat.sub;
  nmul := PrimFloat.mul;
  ndiv := PrimFloat.div;
  neqb := PrimFloat.eqb;
  nltb := PrimFloat.ltb;
  nleb := PrimFloat.leb;
  is_nan := PrimFloat.is_nan;
  rint := fun x => SF2Prim (SFrint (Prim2SF x));
  is_nan_nan := eq_refl;
  nltb_cero := eq_refl;
|}.

(** *** Exact rationals with a NaN *)

(** [None] is NaN; there are no infinities, so a division by zero gives
    NaN.  Every operation is exact. *)
Definition exacto : Type := option Q.

Definition ex_op2 (f : Q -> Q -> Q) (a b : exacto) : exacto :=
  match a, b with
  | Some x, Some y => Some (Qred (f x y))
  | _, _ => None
  end.

Definition ex_div (a b : exacto) : exacto :=
  match a, b with
  | Some x, Some y => if Qeq_bool y 0 then None else Some (Qred (x / y))
  | _, _ => None
  end.

Definition ex_cmp (f : Q -> Q -> bool) (a b : exacto) : bool :=
  match a, b with
  | Some x, Some y => f x y
  | _, _ => false
  end.

Definition Qlt_bool (x y : Q) : bool := negb (Qle_bool y x).

Definition ex_rint (a : exacto) : exacto :=
  match a with
  | Some x => Some (inject_Z (redondear_par (Qnum x) (Zpos (Qden x))))
  | None => None
  end.

#[export] Instance Exacto : Num := {|
  num := exacto;
  nan := None;
  of_Z := fun z => Some (inject_Z z);
  nadd := ex_op2 Qplus;
  nsub := ex_op2 Qminus;
  nmul := ex_op2 Qmult;
  ndiv := ex_div;
  neqb := ex_cmp Qeq_bool;
  nltb := ex_cmp Qlt_bool;
  nleb := ex_cmp Qle_bool;
  is_nan := fun a => match a with None => true | Some _ => false end;
  rint := ex_rint;
  is_nan_nan := eq_refl;
  nltb_cero := eq_refl;
|}.

(** *** Python built-ins on floats *)

Section Builtins.
Context `{N : Num}.

(** [max(a, b)]: the first argument unless the second is greater. *)
Definition py_max (a b : num) : num := if nltb a b then b else a.

(** [min(a, b)]: the first argument unless the second is smaller. *)
Definition py_min (a b : num) : num := if nltb b a then b else a.

(** [pd.notna] on a float. *)
Definition notna (x : num) : bool := negb (is_nan x).

(** [Series.fillna(v)] at one position. *)
Definition fillna (v x : num) : num := if is_nan x then v else x.

(** [Series.clip(upper=u)] at one position: NaN stays NaN. *)
Definition clip_upper (u x : num) : num := if nltb u x then u else x.

(** [Series.round(k)] at one position, as numpy does it:
    [rint(x * 10**k) / 10**k]. *)
Definition round_dec (k : nat) (x : num) : num :=
  let p := of_Z (10 ^ Z.of_nat k) in
  ndiv (rint (nmul x p)) p.

End Builtins.

(** ** Cells, exceptions *)

Inductive excepcion := ZeroDivisionError | TypeError | ValueError | KeyError.

Inductive resultado (A : Type) : Type :=
| Ok (a : A)
| Raise (e : excepcion).
Arguments Ok {A} a.
Arguments Raise {A} e.

#[export] Instance resultado_ret : MRet resultado := fun A a => Ok a.

#[export] Instance resultado_bind : MBind resultado := fun A B k m =>
  match m with
  | Ok a => k a
  | Raise e => Raise e
  end.

Section Celdas.
Context `{N : Num}.

(** A numeric cell as a row-wise function sees it: [pd.NA] (the null of
    the nullable Int64 columns), an integer, or a float (NaN included). *)
Inductive celda :=
| NA
| Entero (z : Z)
| Flotante (x : num).

(** [pd.isna(v)]. *)
Definition isna (c : celda) : bool :=
  match c with
  | NA => true
  | Entero _ => false
  | Flotante x => is_nan x
  end.

(** [pd.to_numeric(serie, errors="coerce")] at one position, read as a float. *)
Definition to_numeric (c : celda) : num :=
  match c with
  | NA => nan
  | Entero z => of_Z z
  | Flotante x => x
  end.

(** [float(v)]: [float(pd.NA)] raises [TypeError]. *)
Definition py_float (c : celda) : resultado num :=
  match c with
  | NA => Raise TypeError
  | Entero z => Ok (of_Z z)
  | Flotante x => Ok x
  end.

(** Truth value [bool(v)]: zero is false, NaN is true, and
    [bool(pd.NA)] raises [TypeError] ("boolean value of NA is ambiguous"). *)
Definition py_bool (c : celda) : resultado bool :=
  match c with
  | NA => Raise TypeError
  | Entero z => Ok (negb (z =? 0))
  | Flotante x => Ok (negb (neqb x (of_Z 0)))
  end.

(** [a / b] on Python floats: a zero divisor raises. *)
Definition py_div (a b : num) : resultado num :=
  if neqb b (of_Z 0) then Raise ZeroDivisionError else Ok (ndiv a b).

End Celdas.


(** ** src/limpieza_conexiones.py: the UBIGEO code *)

(** [_sanear_ubigeo] is the same function in the three cleaners
    ([limpieza_conexiones], [limpieza_longitudes], [limpieza_proyectos]).
    A Python string is a list of characters; [es_digito] is the regular
    expression class [\d] and [cero] the character ["0"]. *)
Module Ubigeo.
Section Def.
Variable caracter : Type.
Variable es_digito : caracter -> bool.
Variable cero : caracter.

(** [.fillna("").astype(str)] at one position; [None] is a missing value. *)
Definition fillna_cadena (v : option (list caracter)) : list caracter := default [] v.

(** [.str.replace(r"\D", "", regex=True)]. *)
Definition quitar_no_digitos (s : list caracter) : list caracter := List.filter es_digito s.

(** [.str.zfill(ancho)]; no sign is left in front once [\D] is removed. *)
Definition zfill (ancho : nat) (s : list caracter) : list caracter :=
  replicate (ancho - length s) cero ++ s.

(** [.str.fullmatch(r"\d{6}")]. *)
Definition fullmatch_d6 (s : list caracter) : bool :=
  Nat.eqb (length s) 6 && forallb es_digito s.

(** The new value of [df["ubigeo"]] at one position:
    [serie.where(mascara_valida, pd.NA)]. *)
Definition _sanear_ubigeo (v : option (list caracter)) : option (list caracter) :=
  let serie := zfill 6 (quitar_no_digitos (fillna_cadena v)) in
  if fullmatch_d6 serie then Some serie else None.

(** The digits of the input. *)
Definition digitos (v : option (list caracter)) : list caracter :=
  quitar_no_digitos (fillna_cadena v).

(** A string of exactly six digits. *)
Definition seis_digitos (s : list caracter) : Prop :=
  length s = 6%nat /\ Forall (fun c => es_digito c = true) s.

End Def.

(** ASCII text: the digits are the characters "0" to "9". *)
Definition es_digito_ascii (c : ascii) : bool :=
  (48 <=? nat_of_ascii c)%nat && (nat_of_ascii c <=? 57)%nat.

Definition sanear_ascii (v : option string) : option string :=
  string_of_list_ascii <$>
    _sanear_ubigeo ascii es_digito_ascii "0"%char (list_ascii_of_string <$> v).

End Ubigeo.

(** ** The microzone key and the table operations of pandas *)

Module Pandas.

(** [CLAVE_MICROZONA]: the six key columns of a row; [None] is a missing
    value ([pd.NA], NaN). *)
Record Clave := {
  ubigeo : option string;
  distrito : option string;
  gerencia_servicios : option string;
  equipo_comercial : option string;
  anio : option Z;
  mes : option Z;
}.

#[export] Instance clave_eq_dec : EqDecision Clave.
Proof. solve_decision. Defined.

Definition presente {A} (o : option A) : bool :=
  match o with Some _ => true | None => false end.

(** A key with a missing component. *)
Definition con_nulo (k : Clave) : bool :=
  negb (presente (ubigeo k) && presente (distrito k) && presente (gerencia_servicios k)
        && presente (equipo_comercial k) && presente (anio k) && presente (mes k)).

(** The order in which [groupby] (with [sort=True]) lists its groups:
    by column, left to right, a missing value after every value. *)
Definition cmp_nulo_al_final {A} (cmp : A -> A -> comparison) (a b : option A) : comparison :=
  match a, b with
  | Some x, Some y => cmp x y
  | Some _, None => Lt
  | None, Some _ => Gt
  | None, None => Eq
  end.

Definition lex (c1 c2 : comparison) : comparison :=
  match c1 with Eq => c2 | _ => c1 end.

Definition clave_cmp (k1 k2 : Clave) : comparison :=
  lex (cmp_nulo_al_final String.compare (ubigeo k1) (ubigeo k2))
  (lex (cmp_nulo_al_final String.compare (distrito k1) (distrito k2))
  (lex (cmp_nulo_al_final String.compare (gerencia_servicios k1) (gerencia_servicios k2))
  (lex (cmp_nulo_al_final String.compare (equipo_comercial k1) (equipo_comercial k2))
  (lex (cmp_nulo_al_final Z.compare (anio k1) (anio k2))
       (cmp_nulo_al_final Z.compare (mes k1) (mes k2)))))).

Definition clave_le (k1 k2 : Clave) : Prop := clave_cmp k1 k2 <> Gt.

#[export] Instance clave_le_dec : RelDecision clave_le.
Proof. intros k1 k2. unfold clave_le. apply _. Defined.

Definition cadena_le (a b : string) : Prop := String.compare a b <> Gt.

#[export] Instance cadena_le_dec : RelDecision cadena_le.
Proof. intros a b. unfold cadena_le. apply _. Defined.

Section Tablas.
Context {K : Type} `{EqDecision K}.
Variable le : relation K.
Context `{!RelDecision le}.
Variable nulo : K -> bool.

(** [df.groupby(claves, dropna=...)]: the groups in key order, each with
    its rows in table order.  With [dropna=True] (the default of pandas)
    the rows whose key has a missing component are left out first. *)
Definition groupby {A} (clave : A -> K) (dropna : bool) (df : list A) : list (K * list A) :=
  let filas := if dropna then List.filter (fun f => negb (nulo (clave f))) df else df in
  (fun k => (k, filter (fun f => clave f = k) filas))
    <$> merge_sort le (remove_dups (clave <$> filas)).

(** [izq.merge(der, on=claves, how="left")]: every row of [izq], in
    order, with each row of [der] that has the same key (a missing value
    matches a missing value), or with no row when there is none. *)
Definition merge_left {L R} (clave_izq : L -> K) (clave_der : R -> K)
    (izq : list L) (der : list R) : list (L * option R) :=
  izq ≫= fun l =>
    match filter (fun r => clave_der r = clave_izq l) der with
    | [] => [(l, None)]
    | coincidencias => (fun r => (l, Some r)) <$> coincidencias
    end.

End Tablas.

(** [resumen[columna] = serie]: the Series is aligned on the positions
    of the table; a position it lacks gets a missing value. *)
Definition asignar {A B C} (f : A -> option B -> C) (resumen : list A)
    (serie : list (option B)) : list C :=
  imap (fun i r => f r (mjoin (serie !! i))) resumen.

(** A sum of the nullable 64-bit integer type [Int64]: every addition
    wraps around. *)
Definition int64 (z : Z) : Z := (z + 2 ^ 63) mod 2 ^ 64 - 2 ^ 63.

Definition suma_int64 (l : list Z) : Z := foldl (fun acc z => int64 (acc + z)) 0 l.

(** The exact sum. *)
Definition suma (l : list Z) : Z := foldr Z.add 0 l.

End Pandas.

(** ** src/limpieza_conexiones.py: aggregation by microzone *)

Module Conexiones.
Import Pandas.

(** A row of the connections table after the column normalisations:
    text filled and upper-cased, counts in [Int64] without nulls
    ([fillna(0)]), [fecha_corte] a day number or missing (NaT). *)
Record FilaConexion := {
  clave : Clave;
  departamento : string;
  provincia : string;
  tarifa : string;
  conexiones_agua : Z;
  conexiones_alcantarillado : Z;
  fecha_corte : option Z;
}.

(** A row of the table aggregated by microzone. *)
Record Conexion := {
  clave_microzona : Clave;
  suma_conexiones_agua : Z;
  suma_conexiones_alcantarillado : Z;
  fecha_corte_maxima : option Z;
  moda_departamento : option string;
  moda_provincia : option string;
  tarifa_predominante : option string;
}.

(** The ["max"] aggregation on dates: missing dates are skipped. *)
Definition max_fecha (l : list (option Z)) : option Z :=
  foldl (fun acc d =>
           match acc, d with
           | None, _ => d
           | Some _, None => acc
           | Some a, Some b => Some (Z.max a b)
           end) None l.

(** [_obtener_moda]: the most frequent value that is not missing, the
    smallest of them on a tie ([Series.mode()] is sorted), or missing for
    an empty Series. *)
Definition _obtener_moda (serie : list (option string)) : option string :=
  let serie_filtrada := omap id serie in
  let frecuencia (v : string) := length (filter (fun x => x = v) serie_filtrada) in
  let maxima := max_list (frecuencia <$> serie_filtrada) in
  head (filter (fun v => frecuencia v = maxima)
          (merge_sort cadena_le (remove_dups serie_filtrada))).

Definition _agrupar_por_microzona (df : list FilaConexion) : list Conexion :=
  let grupos := groupby clave_le con_nulo clave false df in
  let resumen :=
    (fun g : Clave * list FilaConexion =>
       (fst g,
        suma_int64 (conexiones_agua <$> snd g),
        suma_int64 (conexiones_alcantarillado <$> snd g),
        max_fecha (fecha_corte <$> snd g))) <$> grupos in
  let moda_de (columna : FilaConexion -> string) :=
    (fun g : Clave * list FilaConexion => _obtener_moda ((Some ∘ columna) <$> snd g))
      <$> groupby clave_le con_nulo clave false df in
  let con_departamento := asignar (fun r m => (r, m)) resumen (moda_de departamento) in
  let con_provincia := asignar (fun r m => (r, m)) con_departamento (moda_de provincia) in
  asignar
    (fun r m =>
       let '(k, agua, alcantarillado, fecha, dep, prov) := r in
       {| clave_microzona := k;
          suma_conexiones_agua := agua;
          suma_conexiones_alcantarillado := alcantarillado;
          fecha_corte_maxima := fecha;
          moda_departamento := dep;
          moda_provincia := prov;
          tarifa_predominante := m |})
    con_provincia (moda_de tarifa).

End Conexiones.

(** ** src/limpieza_longitudes.py: the summary by microzone and class *)

Module Longitudes.
Import Pandas.

(** [CLASES_VALIDAS]. *)
Inductive Clase := AGUA | DESAGUE.

#[export] Instance clase_eq_dec : EqDecision Clase.
Proof. solve_decision. Defined.

(** "AGUA" comes before "DESAGUE". *)
Definition clase_cmp (a b : Clase) : comparison :=
  match a, b with
  | AGUA, AGUA | DESAGUE, DESAGUE => Eq
  | AGUA, DESAGUE => Lt
  | DESAGUE, AGUA => Gt
  end.

(** The grouping key [[*CLAVE_MICROZONA, "clase"]]. *)
Definition par_le (a b : Clave * option Clase) : Prop :=
  lex (clave_cmp (fst a) (fst b)) (cmp_nulo_al_final clase_cmp (snd a) (snd b)) <> Gt.

#[export] Instance par_le_dec : RelDecision par_le.
Proof. intros a b. unfold par_le. apply _. Defined.

Definition par_con_nulo (a : Clave * option Clase) : bool :=
  con_nulo (fst a) || negb (presente (snd a)).

Section Def.
Context `{N : Num}.

(** Library functions of pandas on float columns: the ["sum"] and
    ["mean"] aggregations of a group. *)
Variable suma_flotante : list num -> num.
Variable media : list num -> num.

(** A row of the lengths table after the column normalisations: an
    invalid class is missing, the two lengths are floats that are not
    NaN ([fillna(0.0)]). *)
Record FilaLongitud := {
  clave : Clave;
  clase : option Clase;
  red_primaria : num;
  red_secundaria : num;
}.

Definition clave_y_clase (f : FilaLongitud) : Clave * option Clase := (clave f, clase f).

(** A row of the summary.  The two [red_*] columns of a class exist only
    when the pivot has that class; they are [None] otherwise. *)
Record Resumen := {
  clave_microzona : Clave;
  red_agua : option (num * num);        (* red_primaria_agua, red_secundaria_agua *)
  red_desague : option (num * num);     (* red_primaria_desague, red_secundaria_desague *)
  longitud_total_agua : num;
  longitud_total_desague : num;
}.

(** [groupby([*CLAVE_MICROZONA, "clase"], dropna=False)[[...]].sum().reset_index()]. *)
Definition agrupar_con_clase (df : list FilaLongitud) : list FilaLongitud :=
  (fun g : (Clave * option Clase) * list FilaLongitud =>
     {| clave := fst (fst g);
        clase := snd (fst g);
        red_primaria := suma_flotante (red_primaria <$> snd g);
        red_secundaria := suma_flotante (red_secundaria <$> snd g) |})
    <$> groupby par_le par_con_nulo clave_y_clase false df.

(** The cells of [pivot_table(index=CLAVE_MICROZONA, columns="clase",
    values=[...], fill_value=0.0)]: it groups by the index and the
    [clase] columns with the defaults of pandas ([aggfunc="mean"],
    [dropna=True]), which leaves out every row with a missing value in one
    of these seven columns. *)
Definition celdas_pivot (agrupado : list FilaLongitud)
    : list ((Clave * option Clase) * (num * num)) :=
  (fun g : (Clave * option Clase) * list FilaLongitud =>
     (fst g, (media (red_primaria <$> snd g), media (red_secundaria <$> snd g))))
    <$> groupby par_le par_con_nulo clave_y_clase true agrupado.

(** The pivot has the columns of a class when one of its cells has it. *)
Definition tiene_clase (c : Clase) (celdas : list ((Clave * option Clase) * (num * num)))
    : bool :=
  bool_decide (Some c ∈ (snd ∘ fst) <$> celdas).

(** The value of the pivot at a key and a class: [fill_value] when the
    combination has no cell. *)
Definition valor_pivot (k : Clave) (c : Clase)
    (celdas : list ((Clave * option Clase) * (num * num))) : num * num :=
  match List.find (fun x => bool_decide (fst x = (k, Some c))) celdas with
  | Some x => snd x
  | None => (of_Z 0, of_Z 0)
  end.

Definition _construir_resumen (df : list FilaLongitud) : list Resumen :=
  let agrupado := agrupar_con_clase df in
  let celdas := celdas_pivot agrupado in
  let columnas (k : Clave) (c : Clase) : option (num * num) :=
    if tiene_clase c celdas then Some (valor_pivot k c celdas) else None in
  let total (o : option (num * num)) : num :=
    match o with
    | Some (primaria, secundaria) => nadd primaria secundaria
    | None => of_Z 0
    end in
  (fun k =>
     {| clave_microzona := k;
        red_agua := columnas k AGUA;
        red_desague := columnas k DESAGUE;
        longitud_total_agua := total (columnas k AGUA);
        longitud_total_desague := total (columnas k DESAGUE) |})
    <$> remove_dups ((fst ∘ fst) <$> celdas).

End Def.
End Longitudes.

(** ** src/etl_sedapal.py *)

Module Etl.
Import Pandas.

Section Def.
Context `{N : Num}.

(** Library functions: the ["mean"] aggregation of a group of floats,
    [str.upper()], and the cast of a float to an integer
    ([astype(int)]). *)
Variable media : list num -> num.
Variable str_upper : string -> string.
Variable astype_int : num -> Z.

(** The columns of a cleaned project row that the integrator reads. *)
Record FilaProyecto := {
  clave : Clave;
  etapa : option string;
  avance_fisico : num;
}.

Record ProyectosAgrupados := {
  clave_proyectos : Clave;
  conteo_activos : Z;
  avance_promedio : num;
  faltan_datos : option Z;
}.

(** [df_trabajo["etapa"].fillna("").astype(str).str.upper() != "CERRADO"]. *)
Definition es_proyecto_activo (f : FilaProyecto) : bool :=
  bool_decide (str_upper (default ""%string (etapa f)) <> "CERRADO"%string).

Definition _agrupar_proyectos (df_proyectos : list FilaProyecto) : list ProyectosAgrupados :=
  let resumen :=
    (fun g : Clave * list FilaProyecto =>
       (fst g,
        suma_int64 ((fun f => if es_proyecto_activo f then 1 else 0) <$> snd g),
        fillna (of_Z 0) (media (avance_fisico <$> snd g))))
      <$> groupby clave_le con_nulo clave false df_proyectos in
  let faltan :=
    (fun g : Clave * list FilaProyecto =>
       Some (if existsb (fun f => negb (presente (ubigeo (clave f)))) (snd g) then 1 else 0))
      <$> groupby clave_le con_nulo clave false df_proyectos in
  asignar
    (fun r m =>
       let '(k, conteo, avance) := r in
       {| clave_proyectos := k;
          conteo_activos := conteo;
          avance_promedio := avance;
          faltan_datos := m |})
    resumen faltan.

(** A row of the integrated table: the columns of the connections row,
    the columns of the lengths summary and the project columns. *)
Record Microzona := {
  clave_microzona : Clave;
  conexiones_agua : celda;
  conexiones_alcantarillado : celda;
  fecha_corte : option Z;
  departamento : option string;
  provincia : option string;
  tarifa_predominante : option string;
  red_agua : option (num * num);
  red_desague : option (num * num);
  longitud_total_agua : num;
  longitud_total_desague : num;
  conteo_proyectos_activos : celda;
  avance_promedio_proyectos : num;
  faltan_datos_proyectos : celda;
}.

(** The columns of the lengths table other than the key: the two totals,
    and the [red_*] columns that its rows have (a table without rows has
    only the totals). *)
Definition tiene_red (columna : Longitudes.Resumen -> option (num * num))
    (longitudes : list Longitudes.Resumen) : bool :=
  match longitudes with
  | r :: _ => presente (columna r)
  | [] => false
  end.

(** An integer column that went through a left merge: it stays an
    integer column when every row found a match, and becomes a float
    column, NaN where there was none, otherwise; then [fillna(0)]. *)
Definition columna_entera (todas_coinciden : bool) (v : option Z) : celda :=
  if todas_coinciden then
    match v with Some z => Entero z | None => NA end
  else
    match v with Some z => Flotante (of_Z z) | None => Flotante (of_Z 0) end.

Definition enriquecer_microzonas (conexiones : list Conexiones.Conexion)
    (longitudes : list Longitudes.Resumen) (proyectos : list FilaProyecto)
    : list Microzona :=
  let con_longitudes :=
    merge_left Conexiones.clave_microzona Longitudes.clave_microzona conexiones longitudes in
  let proyectos_agrupados := _agrupar_proyectos proyectos in
  let df_base :=
    merge_left (fun x => Conexiones.clave_microzona (fst x)) clave_proyectos
      con_longitudes proyectos_agrupados in
  let todas_coinciden := forallb (fun x => presente (snd x)) df_base in
  let rellenar_red (columna : Longitudes.Resumen -> option (num * num))
      (l : option Longitudes.Resumen) : option (num * num) :=
    if tiene_red columna longitudes then
      let v := default (nan, nan) (l ≫= columna) in
      Some (fillna (of_Z 0) (fst v), fillna (of_Z 0) (snd v))
    else None in
  (fun x : (Conexiones.Conexion * option Longitudes.Resumen) * option ProyectosAgrupados =>
     let '((c, l), p) := x in
     {| clave_microzona := Conexiones.clave_microzona c;
        conexiones_agua := Entero (Conexiones.suma_conexiones_agua c);
        conexiones_alcantarillado := Entero (Conexiones.suma_conexiones_alcantarillado c);
        fecha_corte := Conexiones.fecha_corte_maxima c;
        departamento := Conexiones.moda_departamento c;
        provincia := Conexiones.moda_provincia c;
        tarifa_predominante := Conexiones.tarifa_predominante c;
        red_agua := rellenar_red Longitudes.red_agua l;
        red_desague := rellenar_red Longitudes.red_desague l;
        longitud_total_agua :=
          fillna (of_Z 0) (from_option Longitudes.longitud_total_agua nan l);
        longitud_total_desague :=
          fillna (of_Z 0) (from_option Longitudes.longitud_total_desague nan l);
        conteo_proyectos_activos :=
          columna_entera todas_coinciden (conteo_activos <$> p);
        avance_promedio_proyectos :=
          fillna (of_Z 0) (from_option avance_promedio nan p);
        faltan_datos_proyectos :=
          columna_entera todas_coinciden (p ≫= faltan_datos) |})
    <$> df_base.

(** The row-wise function of the ratio column:
    [float(alc) / float(agua) if float(agua or 0) > 0 else 0.0]. *)
Definition ratio_fila (fila : Microzona) : resultado num :=
  verdadero ← py_bool (conexiones_agua fila);
  denominador ← py_float (if verdadero : bool then conexiones_agua fila else Entero 0);
  if nltb (of_Z 0) denominador then
    alcantarillado ← py_float (conexiones_alcantarillado fila);
    agua ← py_float (conexiones_agua fila);
    py_div alcantarillado agua
  else mret (of_Z 0).

(** [df["conexiones_agua"].replace({0: pd.NA})] at one position. *)
Definition reemplazar_cero (c : celda) : celda :=
  match c with
  | NA => NA
  | Entero z => if z =? 0 then NA else c
  | Flotante x => if neqb x (of_Z 0) then NA else c
  end.

(** [(suma_columna / conexiones).fillna(0.0)] at one position. *)
Definition densidad (suma_columna : num) (agua : celda) : num :=
  fillna (of_Z 0)
    (match reemplazar_cero agua with
     | NA => nan
     | c => ndiv suma_columna (to_numeric c)
     end).

(** [fillna(0).astype(int)] at one position. *)
Definition a_entero (c : celda) : Z :=
  match c with
  | NA => 0
  | Entero z => z
  | Flotante x => if is_nan x then 0 else astype_int x
  end.

(** [(agua.isna() | (agua < alcantarillado)).astype(int)] at one
    position; on the nullable columns a comparison with a missing value
    is missing, and a missing value cannot be cast to an integer. *)
Definition inconsistente (agua alcantarillado : celda) : resultado Z :=
  match agua, alcantarillado with
  | NA, _ => mret 1
  | Entero a, Entero b => mret (if a <? b then 1 else 0)
  | _, NA => Raise ValueError
  | _, _ => mret (if nltb (to_numeric agua) (to_numeric alcantarillado) then 1 else 0)
  end.

Record Indicadores := {
  microzona : Microzona;
  ratio_conexiones_alcantarillado : num;
  densidad_red_agua : num;
  densidad_red_desague : num;
  faltan_datos_longitud : Z;
  faltan_datos_proyectos_entero : Z;
  registros_inconsistentes : Z;
}.

Definition calcular_indicadores (tabla_microzonas : list Microzona)
    : resultado (list Indicadores) :=
  ratios ← mapM ratio_fila tabla_microzonas;
  inconsistentes ←
    mapM (fun f => inconsistente (conexiones_agua f) (conexiones_alcantarillado f))
      tabla_microzonas;
  mret (zip_with
          (fun (f : Microzona) (ri : num * Z) =>
             {| microzona := f;
                ratio_conexiones_alcantarillado := fst ri;
                densidad_red_agua := densidad (longitud_total_agua f) (conexiones_agua f);
                densidad_red_desague := densidad (longitud_total_desague f) (conexiones_agua f);
                faltan_datos_longitud :=
                  if is_nan (longitud_total_agua f) || is_nan (longitud_total_desague f)
                  then 1 else 0;
                faltan_datos_proyectos_entero := a_entero (faltan_datos_proyectos f);
                registros_inconsistentes := snd ri |})
          tabla_microzonas (zip ratios inconsistentes)).

End Def.
End Etl.
(** ** config/criterios.py *)

Module Criterios.
Section Def.
Context `{N : Num}.

Record CriteriosCriticidad := {
  peso_ratio : num;
  peso_conexiones : num;
  percentil_conexiones_critico : num;
  umbral_categoria_alerta : num;
  umbral_categoria_critica : num;
}.

(** [__post_init__].  In the [else] branch [pesos_validados] is not zero,
    so Python's [/] does not raise there and is the IEEE division. *)
Definition post_init (self : CriteriosCriticidad) : CriteriosCriticidad :=
  let pesos_validados :=
    nadd (py_max (peso_ratio self) (of_Z 0)) (py_max (peso_conexiones self) (of_Z 0)) in
  let pesos :=
    if neqb pesos_validados (of_Z 0) then (lit 1 2, lit 1 2)
    else (ndiv (py_max (peso_ratio self) (of_Z 0)) pesos_validados,
          ndiv (py_max (peso_conexiones self) (of_Z 0)) pesos_validados) in
  let percentil := py_max (percentil_conexiones_critico self) (of_Z 1) in
  let alerta_normalizada :=
    py_max (py_min (umbral_categoria_alerta self) (of_Z 1)) (of_Z 0) in
  let critica_normalizada :=
    py_max (py_min (umbral_categoria_critica self) (of_Z 1)) (of_Z 0) in
  let umbrales :=
    if nltb critica_normalizada alerta_normalizada
    then (critica_normalizada, alerta_normalizada)
    else (alerta_normalizada, critica_normalizada) in
  {| peso_ratio := fst pesos;
     peso_conexiones := snd pesos;
     percentil_conexiones_critico := percentil;
     umbral_categoria_alerta := fst umbrales;
     umbral_categoria_critica := snd umbrales |}.

(** The field defaults of the dataclass. *)
Definition campos_por_defecto : CriteriosCriticidad :=
  {| peso_ratio := lit 6 10;
     peso_conexiones := lit 4 10;
     percentil_conexiones_critico := of_Z 15162;
     umbral_categoria_alerta := lit 3 10;
     umbral_categoria_critica := lit 6 10 |}.

(** [CriteriosCriticidad(peso_ratio=a, peso_conexiones=b)]: the
    constructor stores its arguments and runs [__post_init__]. *)
Definition con_pesos (a b : num) : CriteriosCriticidad :=
  post_init
    {| peso_ratio := a;
       peso_conexiones := b;
       percentil_conexiones_critico := percentil_conexiones_critico campos_por_defecto;
       umbral_categoria_alerta := umbral_categoria_alerta campos_por_defecto;
       umbral_categoria_critica := umbral_categoria_critica campos_por_defecto |}.

(** [CriteriosCriticidad(percentil_conexiones_critico=p)]. *)
Definition con_referencia (p : num) : CriteriosCriticidad :=
  post_init
    {| peso_ratio := peso_ratio campos_por_defecto;
       peso_conexiones := peso_conexiones campos_por_defecto;
       percentil_conexiones_critico := p;
       umbral_categoria_alerta := umbral_categoria_alerta campos_por_defecto;
       umbral_categoria_critica := umbral_categoria_critica campos_por_defecto |}.

Definition criterios_por_defecto : CriteriosCriticidad := post_init campos_por_defecto.

End Def.
End Criterios.

(** ** src/analytics/microzonas.py *)

Module Analitica.
Section Def.
Context `{N : Num}.

(** Library functions of pandas on a non-empty Series without nulls:
    [Series.quantile(q, interpolation="linear")], [Series.median()] and
    [Series.max()]. *)
Variable quantile : list num -> num -> num.
Variable median : list num -> num.
Variable maximo : list num -> num.

(** The columns of the microzone table that the annotator reads. *)
Record Fila := {
  ratio_conexiones_alcantarillado : celda;
  conexiones_agua : celda;
  longitud_total_agua : celda;
  longitud_total_desague : celda;
  conteo_proyectos_activos : celda;
}.

(** Which of those columns the table has ([columna in microzonas.columns]). *)
Record Columnas := {
  tiene_ratio : bool;
  tiene_conexiones : bool;
  tiene_longitud_agua : bool;
  tiene_longitud_desague : bool;
  tiene_conteo : bool;
}.

(** A table with at least one column; the cells of an absent column are
    never read. *)
Record DataFrame := {
  columnas : Columnas;
  filas : list Fila;
}.

(** What the annotator reads of its criteria object: every attribute is
    fetched with [getattr(criterios, nombre, defecto)], so it may be absent. *)
Record ObjetoCriterios := {
  attr_peso_ratio : option num;
  attr_peso_conexiones : option num;
  attr_percentil_conexiones_critico : option num;
  attr_umbral_categoria_alerta : option num;
  attr_umbral_categoria_critica : option num;
}.

Definition getattr (a : option num) (defecto : num) : num := default defecto a.

(** A [CriteriosCriticidad] instance has all five attributes. *)
Definition de_criterios (c : Criterios.CriteriosCriticidad) : ObjetoCriterios :=
  {| attr_peso_ratio := Some (Criterios.peso_ratio c);
     attr_peso_conexiones := Some (Criterios.peso_conexiones c);
     attr_percentil_conexiones_critico := Some (Criterios.percentil_conexiones_critico c);
     attr_umbral_categoria_alerta := Some (Criterios.umbral_categoria_alerta c);
     attr_umbral_categoria_critica := Some (Criterios.umbral_categoria_critica c) |}.

(** [Series.dropna()]. *)
Definition dropna (s : list num) : list num := List.filter notna s.

Record Percentiles := {
  total_registros : nat;
  p10_conexiones : num;
  p25_conexiones : num;
  mediana_conexiones : num;
  p75_conexiones : num;
  mediana_ratio : num;
  maximo_ratio : num;
}.

Definition calcular_percentiles (microzonas : DataFrame) : Percentiles :=
  let serie_conexiones :=
    if tiene_conexiones (columnas microzonas)
    then dropna (map (fun f => to_numeric (conexiones_agua f)) (filas microzonas))
    else [] in
  let serie_ratio :=
    if tiene_ratio (columnas microzonas)
    then dropna (map (fun f => to_numeric (ratio_conexiones_alcantarillado f)) (filas microzonas))
    else [] in
  let vacia (s : list num) := match s with [] => true | _ => false end in
  let q (p : num) := if vacia serie_conexiones then nan else quantile serie_conexiones p in
  {| total_registros := length (filas microzonas);
     p10_conexiones := q (lit 10 100);
     p25_conexiones := q (lit 25 100);
     mediana_conexiones := q (lit 50 100);
     p75_conexiones := q (lit 75 100);
     mediana_ratio := if vacia serie_ratio then nan else median serie_ratio;
     maximo_ratio := if vacia serie_ratio then nan else maximo serie_ratio |}.

(** Arithmetic between two Series aligns them on the union of their
    indexes; a position that one operand lacks gives NaN. *)
Fixpoint alinear (f : num -> num -> num) (a b : list num) : list num :=
  match a, b with
  | x :: a', y :: b' => f x y :: alinear f a' b'
  | [], _ => map (fun _ => nan) b
  | _, [] => map (fun _ => nan) a
  end.

(** [df[columna] = serie]: the Series is reindexed on the [n] rows of the
    table, NaN where it has no value. *)
Fixpoint reindexar (n : nat) (s : list num) : list num :=
  match n with
  | O => []
  | S n' =>
      match s with
      | x :: s' => x :: reindexar n' s'
      | [] => nan :: reindexar n' []
      end
  end.

(** [serie_ratio.fillna(1.0).clip(upper=1.0)]. *)
Definition serie_ratio_normalizada (microzonas : DataFrame) : list num :=
  let serie_ratio :=
    if tiene_ratio (columnas microzonas)
    then map (fun f => to_numeric (ratio_conexiones_alcantarillado f)) (filas microzonas)
    else [] in
  map (fun x => clip_upper (of_Z 1) (fillna (of_Z 1) x)) serie_ratio.

(** The coverage denominator. *)
Definition percentil_referencia (microzonas : DataFrame) (criterios : ObjetoCriterios) : num :=
  let percentil := getattr (attr_percentil_conexiones_critico criterios) nan in
  if negb (notna percentil) || nleb percentil (of_Z 0) then
    let estimado := p75_conexiones (calcular_percentiles microzonas) in
    if negb (notna estimado) || nleb estimado (of_Z 0) then of_Z 1 else estimado
  else percentil.

(** [(serie_conexiones / percentil_referencia).fillna(1.0).clip(upper=1.0)]. *)
Definition serie_cobertura (microzonas : DataFrame) (criterios : ObjetoCriterios) : list num :=
  let referencia := percentil_referencia microzonas criterios in
  let serie_conexiones :=
    if tiene_conexiones (columnas microzonas)
    then map (fun f => to_numeric (conexiones_agua f)) (filas microzonas)
    else [] in
  map (fun x => clip_upper (of_Z 1) (fillna (of_Z 1) (ndiv x referencia))) serie_conexiones.

(** The weights, renormalised when their sum is not 1; the two divisions
    are Python's and raise on a zero sum. *)
Definition pesos (criterios : ObjetoCriterios) : resultado (num * num) :=
  let peso_ratio := getattr (attr_peso_ratio criterios) (lit 6 10) in
  let peso_conexiones := getattr (attr_peso_conexiones criterios) (lit 4 10) in
  let suma_pesos := nadd peso_ratio peso_conexiones in
  if notna suma_pesos && negb (neqb suma_pesos (of_Z 1)) then
    pr ← py_div peso_ratio suma_pesos;
    pc ← py_div peso_conexiones suma_pesos;
    mret (pr, pc)
  else mret (peso_ratio, peso_conexiones).

(** The two thresholds, swapped when [umbral_alerta > umbral_critica]. *)
Definition umbrales (criterios : ObjetoCriterios) : num * num :=
  let umbral_alerta := getattr (attr_umbral_categoria_alerta criterios) (lit 3 10) in
  let umbral_critica := getattr (attr_umbral_categoria_critica criterios) (lit 6 10) in
  if nltb umbral_critica umbral_alerta
  then (umbral_critica, umbral_alerta)
  else (umbral_alerta, umbral_critica).

Definition clasificar_microzona (umbral_alerta umbral_critica valor : num) : string :=
  if is_nan valor then "SIN_DATOS"
  else if nleb umbral_critica valor then "CRITICA"
  else if nleb umbral_alerta valor then "VIGILANCIA"
  else "ESTABLE".

(** [fila.get(columna)]: [None] when the table has no such column. *)
Definition get (presente : bool) (c : celda) : option celda :=
  if presente then Some c else None.

(** [pd.isna(v) or float(v) <= 0]; [float] is only reached on a cell that
    is not null, where it does not raise. *)
Definition nulo_o_no_positivo (v : option celda) : bool :=
  match v with
  | None => true
  | Some c => isna c || nleb (to_numeric c) (of_Z 0)
  end.

(** [pd.notna(v) and float(v) > 1]. *)
Definition mayor_que_uno (v : option celda) : bool :=
  match v with
  | None => false
  | Some c => negb (isna c) && nltb (of_Z 1) (to_numeric c)
  end.

Definition generar_advertencias (cols : Columnas) (fila : Fila) : list string :=
  (if nulo_o_no_positivo (get (tiene_longitud_agua cols) (longitud_total_agua fila))
   then ["Sin longitud de red de agua reportada."] else [])
  ++ (if nulo_o_no_positivo (get (tiene_longitud_desague cols) (longitud_total_desague fila))
      then ["Sin longitud de red de desagüe reportada."] else [])
  ++ (if nulo_o_no_positivo (get (tiene_conteo cols) (conteo_proyectos_activos fila))
      then ["Sin proyectos activos registrados para la microzona."] else [])
  ++ (if nulo_o_no_positivo (get (tiene_conexiones cols) (conexiones_agua fila))
      then ["Sin conexiones de agua registradas."] else [])
  ++ (if mayor_que_uno (get (tiene_ratio cols) (ratio_conexiones_alcantarillado fila))
      then ["El ratio de alcantarillado supera la unidad; revisar consistencia."] else []).

(** A row of the result: the input row and the three new columns. *)
Record FilaAnotada := {
  fila_base : Fila;
  indice_critico : num;
  categoria_microzona : string;
  advertencias_datos : list string;
}.

(** [indice.round(3)], before it is stored in the table. *)
Definition indice (microzonas : DataFrame) (criterios : ObjetoCriterios)
    (ps : num * num) : list num :=
  let termino_ratio :=
    map (fun r => nmul (fst ps) (nsub (of_Z 1) r)) (serie_ratio_normalizada microzonas) in
  let termino_conexiones :=
    map (fun c => nmul (snd ps) (nsub (of_Z 1) c)) (serie_cobertura microzonas criterios) in
  map (round_dec 3) (alinear nadd termino_ratio termino_conexiones).

(** [microzonas.empty]: a table that has a column is empty exactly when
    it has no row. *)
Definition anotar_indicadores (microzonas : DataFrame) (criterios : ObjetoCriterios)
    : resultado (list FilaAnotada) :=
  match filas microzonas with
  | [] => mret []
  | _ =>
      ps ← pesos criterios;
      let columna_indice :=
        reindexar (length (filas microzonas)) (indice microzonas criterios ps) in
      let '(umbral_alerta, umbral_critica) := umbrales criterios in
      mret (zip_with
              (fun fila valor =>
                 {| fila_base := fila;
                    indice_critico := valor;
                    categoria_microzona := clasificar_microzona umbral_alerta umbral_critica valor;
                    advertencias_datos := generar_advertencias (columnas microzonas) fila |})
              (filas microzonas) columna_indice)
  end.

End Def.
End Analitica.

(** ** The default scenario of the specification *)

Module Escenario.
Import Analitica.
Section Def.
Context `{N : Num}.

(** A table that has the five columns. *)
Definition todas_las_columnas : Columnas :=
  {| tiene_ratio := true;
     tiene_conexiones := true;
     tiene_longitud_agua := true;
     tiene_longitud_desague := true;
     tiene_conteo := true |}.

(** One microzone with 1000 water and 600 sewer connections (ratio
    600/1000), no network length and no active project. *)
Definition fila_escenario : Fila :=
  {| ratio_conexiones_alcantarillado := Flotante (ndiv (of_Z 600) (of_Z 1000));
     conexiones_agua := Entero 1000;
     longitud_total_agua := Flotante (of_Z 0);
     longitud_total_desague := Flotante (of_Z 0);
     conteo_proyectos_activos := Entero 0 |}.

Definition tabla_escenario : DataFrame :=
  {| columnas := todas_las_columnas; filas := [fila_escenario] |}.

(** On a Series of one element, its quantiles, median and maximum are
    that element. *)
Definition unico (s : list num) : num := hd nan s.
Definition cuantil_unico (s : list num) (q : num) : num := hd nan s.

(** The fallback of the coverage denominator: the 75th percentile of
    [conexiones_agua] over the table, or 1.0 when that is NaN or not
    positive. *)
Definition respaldo_p75 (quantile : list num -> num -> num)
    (median maximo : list num -> num) (microzonas : DataFrame) : num :=
  let estimado := p75_conexiones (calcular_percentiles quantile median maximo microzonas) in
  if negb (notna estimado) || nleb estimado (of_Z 0) then of_Z 1 else estimado.

(** A microzone key whose year is missing, as the cleaners leave it when
    the year of a row is out of range. *)
Definition clave_sin_anio : Pandas.Clave :=
  {| Pandas.ubigeo := Some "150101"%string;
     Pandas.distrito := Some "ATE"%string;
     Pandas.gerencia_servicios := Some "GERENCIA ESTE"%string;
     Pandas.equipo_comercial := Some "EC ATE"%string;
     Pandas.anio := None;
     Pandas.mes := Some 5 |}.

(** The same microzone with the year 2024. *)
Definition clave_con_anio : Pandas.Clave :=
  {| Pandas.ubigeo := Some "150101"%string;
     Pandas.distrito := Some "ATE"%string;
     Pandas.gerencia_servicios := Some "GERENCIA ESTE"%string;
     Pandas.equipo_comercial := Some "EC ATE"%string;
     Pandas.anio := Some 2024;
     Pandas.mes := Some 5 |}.

(** A lengths row of the water network with the complete key. *)
Definition longitud_con_anio : Longitudes.FilaLongitud :=
  {| Longitudes.clave := clave_con_anio;
     Longitudes.clase := Some Longitudes.AGUA;
     Longitudes.red_primaria := of_Z 20;
     Longitudes.red_secundaria := of_Z 8 |}.

(** A lengths row of the water network with the key without year. *)
Definition longitud_sin_anio : Longitudes.FilaLongitud :=
  {| Longitudes.clave := clave_sin_anio;
     Longitudes.clase := Some Longitudes.AGUA;
     Longitudes.red_primaria := of_Z 10;
     Longitudes.red_secundaria := of_Z 5 |}.


(** A row of the integrated table with no water connection. *)
Definition microzona_agua_cero : Etl.Microzona :=
  {| Etl.clave_microzona := clave_con_anio;
     Etl.conexiones_agua := Entero 0;
     Etl.conexiones_alcantarillado := Entero 0;
     Etl.fecha_corte := None;
     Etl.departamento := Some "LIMA"%string;
     Etl.provincia := Some "LIMA"%string;
     Etl.tarifa_predominante := Some "DOMESTICO"%string;
     Etl.red_agua := None;
     Etl.red_desague := None;
     Etl.longitud_total_agua := of_Z 10;
     Etl.longitud_total_desague := of_Z 4;
     Etl.conteo_proyectos_activos := Entero 0;
     Etl.avance_promedio_proyectos := of_Z 0;
     Etl.faltan_datos_proyectos := Entero 0 |}.

End Def.
End Escenario.

(** ** The stage functions as programs on DataFrame objects *)

(** A DataFrame is an object: a function that receives one may change it
    in place.  Here the objects live in a store, [copy] allocates a new
    object, and [df[columna] = serie] and [df.columns = nombres] update
    the object they are applied to.  What is computed for a column is a
    parameter; the pure tables above say what it is. *)
Module Marco.
Section Def.

(** The values of the cells. *)
Variable valor : Type.

Definition Serie : Type := list valor.

(** The columns of a table, in order, each with its Series. *)
Definition DataFrame : Type := list (string * Serie).

Definition ref : Type := nat.
Definition almacen : Type := gmap ref DataFrame.

(** A computation on the store; an exception leaves the store as it was
    when it was raised. *)
Definition M (A : Type) : Type := almacen -> resultado A * almacen.

Definition retornar {A} (a : A) : M A := fun s => (Ok a, s).

Definition ligar {A B} (m : M A) (k : A -> M B) : M B :=
  fun s =>
    match m s with
    | (Ok a, s') => k a s'
    | (Raise e, s') => (Raise e, s')
    end.

Definition lanzar {A} (e : excepcion) : M A := fun s => (Raise e, s).

#[export] Instance M_ret : MRet M := @retornar.
#[export] Instance M_bind : MBind M := fun A B k m => ligar m k.

(** The table that a reference denotes. *)
Definition leer (r : ref) : M DataFrame :=
  fun s =>
    match s !! r with
    | Some df => (Ok df, s)
    | None => (Raise KeyError, s)
    end.

(** A new object. *)
Definition nuevo (df : DataFrame) : M ref :=
  fun s => let r := fresh (dom s) in (Ok r, <[r := df]> s).

(** [df.copy()]. *)
Definition copy (r : ref) : M ref := df ← leer r; nuevo df.

(** An update in place of the object [r]. *)
Definition modificar (r : ref) (f : DataFrame -> DataFrame) : M unit :=
  fun s =>
    match s !! r with
    | Some df => (Ok (), <[r := f df]> s)
    | None => (Raise KeyError, s)
    end.

Definition tiene (df : DataFrame) (columna : string) : bool :=
  bool_decide (columna ∈ df.*1).

(** The table with [serie] as its column [columna]. *)
Fixpoint con_columna (columna : string) (serie : Serie) (df : DataFrame) : DataFrame :=
  match df with
  | [] => [(columna, serie)]
  | (c, s) :: df' =>
      if decide (c = columna) then (c, serie) :: df'
      else (c, s) :: con_columna columna serie df'
  end.

(** [df[columna] = serie]. *)
Definition setitem (r : ref) (columna : string) (serie : Serie) : M unit :=
  modificar r (con_columna columna serie).

(** [df[columna]]. *)
Definition getitem (r : ref) (columna : string) : M Serie :=
  df ← leer r;
  match List.find (fun c => bool_decide (fst c = columna)) df with
  | Some c => mret (snd c)
  | None => lanzar KeyError
  end.

(** [df.columns = [f(columna) for columna in df.columns]]. *)
Definition renombrar (r : ref) (f : string -> string) : M unit :=
  modificar r (fmap (prod_map f id)).

(** [columna in df]. *)
Definition contiene (r : ref) (columna : string) : M bool :=
  df ← leer r; mret (tiene df columna).

(** A [for] loop. *)
Fixpoint para_cada {A} (l : list A) (cuerpo : A -> M unit) : M unit :=
  match l with
  | [] => mret ()
  | x :: l' => cuerpo x;; para_cada l' cuerpo
  end.

(** [df[columna] = f(df[columna])]. *)
Definition transformar (r : ref) (columna : string) (f : Serie -> Serie) : M unit :=
  serie ← getitem r columna; setitem r columna (f serie).

(** [if columna not in df: continue] followed by the transformation of
    the column, for each column. *)
Definition transformar_presentes (r : ref) (columnas : list string) (f : Serie -> Serie)
    : M unit :=
  para_cada columnas (fun columna =>
    presente ← contiene r columna;
    if presente : bool then transformar r columna f else mret ()).

(** [faltantes = OBLIGATORIAS.difference(columnas); if faltantes: raise
    ValueError]. *)
Definition validar_columnas (r : ref) (obligatorias : list string) : M unit :=
  df ← leer r;
  if forallb (tiene df) obligatorias then mret () else lanzar ValueError.

(** What the stage functions compute for their columns, as functions of
    the current Series or table. *)
Record Calculos := {
  normalizar_nombre : string -> string;  (* columna.strip().lower() *)
  texto_recortado : Serie -> Serie;  (* .str.strip().str.upper() *)
  texto_sin_espacios : Serie -> Serie;  (* .str.upper().str.replace(r"\s+", " ") *)
  tarifa_normalizada : Serie -> Serie;
  ubigeo_saneado : Serie -> Serie;
  entero_normalizado : Serie -> Serie;
  fecha_aaaammdd : Serie -> Serie;
  columna_nula : DataFrame -> Serie;  (* pd.NA on every row *)
  anio_completado : Serie -> Serie -> Serie;  (* anio, fecha_corte *)
  mes_completado : Serie -> Serie -> Serie;  (* mes, fecha_corte *)
  agrupar_por_microzona : DataFrame -> DataFrame;
  texto_normalizado : Serie -> Serie;
  distrito_mayusculas : Serie -> Serie;
  distrito_separado : Serie -> Serie;  (* .str.replace(" Y ", "/") *)
  dividir_distritos : DataFrame -> DataFrame;  (* df.assign(distrito=...split("/")) *)
  explode : DataFrame -> DataFrame;
  reset_index : DataFrame -> DataFrame;
  nombre_normalizado : Serie -> Serie;
  contratista_normalizado : Serie -> Serie;
  etapa_mayusculas : Serie -> Serie;
  etapa_canonica : Serie -> Serie;
  avance_normalizado : Serie -> Serie;
  costo_normalizado : Serie -> Serie;
  fecha_iso : Serie -> Serie;
  ratio_por_fila : DataFrame -> resultado Serie;  (* df.apply(lambda ..., axis=1) *)
  densidad_de : string -> DataFrame -> resultado Serie;
  rellenar_ceros : Serie -> Serie;  (* .fillna(0.0) *)
  faltan_longitudes : DataFrame -> Serie;
  a_enteros : Serie -> resultado Serie;  (* .fillna(0).astype(int) *)
  inconsistentes : DataFrame -> resultado Serie;
  esta_vacia : DataFrame -> bool;  (* microzonas.empty *)
  serie_vacia : Serie;  (* pd.Series(dtype=...) reindexed *)
  indice_redondeado : DataFrame -> resultado Serie;  (* indice.round(3) *)
  categorias : Serie -> Serie;  (* .apply(clasificar_microzona) *)
  advertencias : DataFrame -> Serie;  (* .apply(generar_advertencias, axis=1) *)
}.

Variable calculos : Calculos.

(** *** limpieza_conexiones.py *)

Definition COLUMNAS_OBLIGATORIAS : list string :=
  ["gerencia_servicios"; "equipo_comercial"; "departamento"; "provincia"; "distrito";
   "ubigeo"; "tarifa"; "conexiones_agua"; "conexiones_alcantarillado"; "fecha_corte"]%string.

Definition _normalizar_cadenas (df : ref) (columnas : list string) (preservar_espacios : bool)
    : M unit :=
  transformar_presentes df columnas
    (if preservar_espacios then texto_sin_espacios calculos else texto_recortado calculos).

Definition _normalizar_tarifa (df : ref) : M unit :=
  presente ← contiene df "tarifa"%string;
  if presente : bool
  then transformar df "tarifa"%string (tarifa_normalizada calculos)
  else mret ().

Definition _sanear_ubigeo (df : ref) : M unit :=
  transformar df "ubigeo"%string (ubigeo_saneado calculos).

Definition _normalizar_valores_enteros (df : ref) (columnas : list string) : M unit :=
  transformar_presentes df columnas (entero_normalizado calculos).

Definition _parsear_fecha_corte (df : ref) : M unit :=
  transformar df "fecha_corte"%string (fecha_aaaammdd calculos).

(** Also [_completar_componentes_temporales] of the projects cleaner. *)
Definition _normalizar_componentes_temporales (df : ref) : M unit :=
  para_cada ["anio"; "mes"]%string (fun columna =>
    presente ← contiene df columna;
    if presente : bool then mret ()
    else tabla ← leer df; setitem df columna (columna_nula calculos tabla));;
  anio ← getitem df "anio"%string;
  mes ← getitem df "mes"%string;
  fecha ← getitem df "fecha_corte"%string;
  setitem df "anio"%string (anio_completado calculos anio fecha);;
  fecha' ← getitem df "fecha_corte"%string;
  setitem df "mes"%string (mes_completado calculos mes fecha').

Definition _agrupar_por_microzona (df : ref) : M ref :=
  tabla ← leer df; nuevo (agrupar_por_microzona calculos tabla).

Definition limpiar_conexiones (tabla_conexiones : ref) : M ref :=
  df_conexiones ← copy tabla_conexiones;
  renombrar df_conexiones (normalizar_nombre calculos);;
  validar_columnas df_conexiones COLUMNAS_OBLIGATORIAS;;
  _normalizar_cadenas df_conexiones ["gerencia_servicios"; "equipo_comercial"]%string false;;
  _normalizar_cadenas df_conexiones ["departamento"; "provincia"; "distrito"]%string false;;
  _normalizar_tarifa df_conexiones;;
  _sanear_ubigeo df_conexiones;;
  _normalizar_valores_enteros df_conexiones
    ["conexiones_agua"; "conexiones_alcantarillado"]%string;;
  _parsear_fecha_corte df_conexiones;;
  _normalizar_componentes_temporales df_conexiones;;
  _agrupar_por_microzona df_conexiones.

(** *** limpieza_proyectos.py *)

Definition COLUMNAS_OBLIGATORIAS_PROYECTO : list string :=
  ["gerencia_servicios"; "equipo_comercial"; "departamento"; "provincia"; "distrito";
   "ubigeo"; "nombre_proyecto"; "etapa"; "avance_fisico"; "fecha_inicio"; "fecha_fin";
   "fecha_corte"; "costo_total"; "contratista_consultor"]%string.

Definition _normalizar_texto (df : ref) (columnas : list string) : M unit :=
  transformar_presentes df columnas (texto_normalizado calculos).

(** The two first assignments change the object received; [assign] and
    [explode] build new ones. *)
Definition _normalizar_distritos (df : ref) : M ref :=
  presente ← contiene df "distrito"%string;
  if presente : bool then
    transformar df "distrito"%string (distrito_mayusculas calculos);;
    transformar df "distrito"%string (distrito_separado calculos);;
    tabla ← leer df;
    asignado ← nuevo (dividir_distritos calculos tabla);
    tabla' ← leer asignado;
    expandido ← nuevo (explode calculos tabla');
    transformar expandido "distrito"%string (texto_recortado calculos);;
    modificar expandido (reset_index calculos);;
    mret expandido
  else mret df.

Definition _normalizar_columna (df : ref) (columna : string) (f : Serie -> Serie) : M unit :=
  presente ← contiene df columna;
  if presente : bool then transformar df columna f else mret ().

Definition _normalizar_etapas (df : ref) : M unit :=
  presente ← contiene df "etapa"%string;
  if presente : bool then
    transformar df "etapa"%string (etapa_mayusculas calculos);;
    transformar df "etapa"%string (etapa_canonica calculos)
  else mret ().

Definition _parsear_fechas (df : ref) (columnas : list string) : M unit :=
  transformar_presentes df columnas (fecha_iso calculos).

Definition limpiar_proyectos (tabla_proyectos : ref) : M ref :=
  df_proyectos ← copy tabla_proyectos;
  renombrar df_proyectos (normalizar_nombre calculos);;
  para_cada ["gerencia_servicios"; "equipo_comercial"]%string (fun columna =>
    presente ← contiene df_proyectos columna;
    if presente : bool then mret ()
    else
      tabla ← leer df_proyectos;
      setitem df_proyectos columna (columna_nula calculos tabla));;
  validar_columnas df_proyectos COLUMNAS_OBLIGATORIAS_PROYECTO;;
  _normalizar_texto df_proyectos
    ["gerencia_servicios"; "equipo_comercial"; "departamento"; "provincia"]%string;;
  df_proyectos ← _normalizar_distritos df_proyectos;
  _sanear_ubigeo df_proyectos;;
  _normalizar_columna df_proyectos "nombre_proyecto"%string (nombre_normalizado calculos);;
  _normalizar_columna df_proyectos "contratista_consultor"%string
    (contratista_normalizado calculos);;
  _normalizar_etapas df_proyectos;;
  _normalizar_columna df_proyectos "avance_fisico"%string (avance_normalizado calculos);;
  _normalizar_columna df_proyectos "costo_total"%string (costo_normalizado calculos);;
  _parsear_fechas df_proyectos ["fecha_inicio"; "fecha_fin"; "fecha_corte"]%string;;
  _normalizar_componentes_temporales df_proyectos;;
  tabla ← leer df_proyectos;
  nuevo (reset_index calculos tabla).

(** *** etl_sedapal.py: calcular_indicadores *)

(** A computation that may raise, on the current value of an object. *)
Definition calcular {A} (r : ref) (f : DataFrame -> resultado A) : M A :=
  tabla ← leer r;
  match f tabla with
  | Ok a => mret a
  | Raise e => lanzar e
  end.

Definition calcular_indicadores (tabla_microzonas : ref) : M ref :=
  df_indicadores ← copy tabla_microzonas;
  ratio ← calcular df_indicadores (ratio_por_fila calculos);
  setitem df_indicadores "ratio_conexiones_alcantarillado"%string ratio;;
  para_cada ["agua"; "desague"]%string (fun clase =>
    densidad ← calcular df_indicadores (densidad_de calculos clase);
    setitem df_indicadores ("densidad_red_" +:+ clase) densidad;;
    transformar df_indicadores ("densidad_red_" +:+ clase) (rellenar_ceros calculos));;
  tabla ← leer df_indicadores;
  setitem df_indicadores "faltan_datos_longitud"%string
    (faltan_longitudes calculos tabla);;
  proyectos ← getitem df_indicadores "faltan_datos_proyectos"%string;
  enteros ← calcular df_indicadores (fun _ => a_enteros calculos proyectos);
  setitem df_indicadores "faltan_datos_proyectos"%string enteros;;
  registros ← calcular df_indicadores (inconsistentes calculos);
  setitem df_indicadores "registros_inconsistentes"%string registros;;
  mret df_indicadores.

(** *** analytics/microzonas.py: anotar_indicadores *)

Definition anotar_indicadores (microzonas : ref) : M ref :=
  tabla ← leer microzonas;
  if esta_vacia calculos tabla then
    microzonas_vacias ← copy microzonas;
    setitem microzonas_vacias "indice_critico"%string (serie_vacia calculos);;
    setitem microzonas_vacias "categoria_microzona"%string (serie_vacia calculos);;
    setitem microzonas_vacias "advertencias_datos"%string (serie_vacia calculos);;
    mret microzonas_vacias
  else
    enriquecido ← copy microzonas;
    indice ← calcular enriquecido (indice_redondeado calculos);
    setitem enriquecido "indice_critico"%string indice;;
    almacenado ← getitem enriquecido "indice_critico"%string;
    setitem enriquecido "categoria_microzona"%string (categorias calculos almacenado);;
    tabla' ← leer enriquecido;
    setitem enriquecido "advertencias_datos"%string (advertencias calculos tabla');;
    mret enriquecido.

End Def.

(** A table of numbers with one column and the computations that leave
    every column as it is. *)
Definition tabla_de_prueba : DataFrame Z := [("ubigeo"%string, [150132; 150101])].

Definition calculos_identidad : Calculos Z :=
  {| normalizar_nombre := id;
     texto_recortado := id;
     texto_sin_espacios := id;
     tarifa_normalizada := id;
     ubigeo_saneado := id;
     entero_normalizado := id;
     fecha_aaaammdd := id;
     columna_nula := fun _ => [];
     anio_completado := fun anio _ => anio;
     mes_completado := fun mes _ => mes;
     agrupar_por_microzona := id;
     texto_normalizado := id;
     distrito_mayusculas := id;
     distrito_separado := id;
     dividir_distritos := id;
     explode := id;
     reset_index := id;
     nombre_normalizado := id;
     contratista_normalizado := id;
     etapa_mayusculas := id;
     etapa_canonica := id;
     avance_normalizado := id;
     costo_normalizado := id;
     fecha_iso := id;
     ratio_por_fila := fun _ => Ok [];
     densidad_de := fun _ _ => Ok [];
     rellenar_ceros := id;
     faltan_longitudes := fun _ => [];
     a_enteros := fun serie => Ok serie;
     inconsistentes := fun _ => Ok [];
     esta_vacia := fun df => bool_decide (df = []);
     serie_vacia := [];
     indice_redondeado := fun _ => Ok [];
     categorias := id;
     advertencias := fun _ => [] |}.

End Marco.

(** ** The order of Python floats *)

(** What the comparisons of the sources rely on: on numbers (values that
    are not NaN) [<=] is a total preorder and [<] its strict part.  Both
    arithmetics have these laws; for binary64 they follow from the
    specification of the primitive comparisons. *)
Class Orden `(N : Num) := {
  nleb_total : forall x y : num,
    is_nan x = false -> is_nan y = false -> nltb x y = false -> nleb y x = true;
  nltb_nleb : forall x y : num, nltb x y = true -> nleb x y = true;
  nleb_no_mayor : forall x y : num, nleb x y = true -> nltb y x = false;
  nltb_numeros : forall x y : num, nltb x y = true -> is_nan x = false /\ is_nan y = false;
  nltb_distintos : forall x y : num, nltb x y = true -> neqb x y = false /\ neqb y x = false;
  nleb_refl : forall x : num, is_nan x = false -> nleb x x = true;
  nleb_trans : forall x y z : num, nleb x y = true -> nleb y z = true -> nleb x z = true;
  cero_numero : is_nan (of_Z 0) = false;
  uno_numero : is_nan (of_Z 1) = false;
  cero_menor_uno : nltb (of_Z 0) (of_Z 1) = true;
}.

Module OrdenB64.

Lemma SFcompare_antisym (a b : spec_float) :
  SFcompare b a = option_map CompOpp (SFcompare a b).
Proof.
  destruct a as [sa|sa| |sa ma ea], b as [sb|sb| |sb mb eb]; cbn;
    try reflexivity; try (destruct sa; reflexivity); try (destruct sb; reflexivity);
    try (destruct sa, sb; reflexivity).
  destruct sa, sb; try reflexivity.
  - rewrite (Z.compare_antisym ea eb). destruct (ea ?= eb); cbn; try reflexivity.
    f_equal. f_equal. apply (Pos.compare_antisym ma mb).
  - rewrite (Z.compare_antisym ea eb). destruct (ea ?= eb); cbn; try reflexivity.
    f_equal. apply (Pos.compare_antisym ma mb).
Qed.

Lemma SFcompare_numeros (a b : spec_float) :
  SFcompare a a = Some Eq -> SFcompare b b = Some Eq -> exists c, SFcompare a b = Some c.
Proof.
  destruct a as [sa|sa| |sa ma ea], b as [sb|sb| |sb mb eb]; cbn; try discriminate; eauto.
Qed.

Lemma SFcompare_refl (a : spec_float) (c : comparison) :
  SFcompare a a = Some c -> c = Eq.
Proof.
  destruct a as [sa|sa| |sa ma ea]; cbn; try congruence.
  - destruct sa; congruence.
  - rewrite Z.compare_refl.
    replace (PosDef.Pos.compare_cont Eq ma ma) with Eq by (symmetry; apply Pos.compare_refl).
    destruct sa; cbn; congruence.
Qed.

Lemma b64_is_nan_false (x : float) :
  PrimFloat.is_nan x = false <-> SFcompare (Prim2SF x) (Prim2SF x) = Some Eq.
Proof.
  unfold PrimFloat.is_nan. rewrite FloatAxioms.eqb_spec. unfold SFeqb.
  destruct (SFcompare (Prim2SF x) (Prim2SF x)) as [[]|]; cbn; split; congruence.
Qed.

Lemma b64_leb_total (x y : float) :
  PrimFloat.is_nan x = false -> PrimFloat.is_nan y = false ->
  PrimFloat.ltb x y = false -> PrimFloat.leb y x = true.
Proof.
  rewrite !b64_is_nan_false, FloatAxioms.ltb_spec, FloatAxioms.leb_spec. unfold SFltb, SFleb.
  intros Hx Hy. destruct (SFcompare_numeros _ _ Hx Hy) as [c Hc].
  rewrite (SFcompare_antisym (Prim2SF x) (Prim2SF y)), Hc. destruct c; cbn; congruence.
Qed.

Lemma b64_ltb_leb (x y : float) : PrimFloat.ltb x y = true -> PrimFloat.leb x y = true.
Proof.
  rewrite FloatAxioms.ltb_spec, FloatAxioms.leb_spec. unfold SFltb, SFleb.
  destruct (SFcompare _ _) as [[]|]; congruence.
Qed.

Lemma b64_leb_no_mayor (x y : float) :
  PrimFloat.leb x y = true -> PrimFloat.ltb y x = false.
Proof.
  rewrite FloatAxioms.ltb_spec, FloatAxioms.leb_spec. unfold SFltb, SFleb.
  rewrite (SFcompare_antisym (Prim2SF x) (Prim2SF y)).
  destruct (SFcompare _ _) as [[]|]; cbn; congruence.
Qed.

Lemma b64_comparables_numeros (a b : spec_float) (c : comparison) :
  SFcompare a b = Some c -> SFcompare a a = Some Eq /\ SFcompare b b = Some Eq.
Proof.
  intros H.
  assert (Ha : exists c', SFcompare a a = Some c').
  { destruct a as [sa|sa| |sa ma ea], b; cbn in *; try discriminate; eauto. }
  assert (Hb : exists c', SFcompare b b = Some c').
  { destruct b as [sb|sb| |sb mb eb], a; cbn in *; try discriminate; eauto. }
  destruct Ha as [ca Ha], Hb as [cb Hb].
  rewrite Ha, Hb, (SFcompare_refl _ _ Ha), (SFcompare_refl _ _ Hb). done.
Qed.

Lemma b64_ltb_numeros (x y : float) :
  PrimFloat.ltb x y = true -> PrimFloat.is_nan x = false /\ PrimFloat.is_nan y = false.
Proof.
  rewrite FloatAxioms.ltb_spec, !b64_is_nan_false. unfold SFltb.
  destruct (SFcompare (Prim2SF x) (Prim2SF y)) as [c|] eqn:E; [|discriminate].
  intros _. exact (b64_comparables_numeros _ _ _ E).
Qed.

Lemma b64_ltb_distintos (x y : float) :
  PrimFloat.ltb x y = true -> PrimFloat.eqb x y = false /\ PrimFloat.eqb y x = false.
Proof.
  rewrite FloatAxioms.ltb_spec, !FloatAxioms.eqb_spec. unfold SFltb, SFeqb.
  rewrite (SFcompare_antisym (Prim2SF x) (Prim2SF y)).
  destruct (SFcompare _ _) as [[]|]; cbn; try congruence. auto.
Qed.

Lemma b64_leb_refl (x : float) : PrimFloat.is_nan x = false -> PrimFloat.leb x x = true.
Proof. rewrite b64_is_nan_false, FloatAxioms.leb_spec. unfold SFleb. by intros ->. Qed.

Lemma SFleb_trans (a b c : spec_float) :
  SFleb a b = true -> SFleb b c = true -> SFleb a c = true.
Proof.
  unfold SFleb.
  destruct a as [sa|sa| |sa ma ea], b as [sb|sb| |sb mb eb], c as [sc|sc| |sc mc ec]; cbn;
    try discriminate; try reflexivity;
    try destruct sa; try destruct sb; try destruct sc; cbn; try discriminate; try reflexivity;
    repeat match goal with
    | |- context [(?x ?= ?y)%Z] => destruct (Z.compare_spec x y)
    | |- context [PosDef.Pos.compare_cont Eq ?x ?y] =>
        change (PosDef.Pos.compare_cont Eq x y) with (Pos.compare x y);
        destruct (Pos.compare_spec x y)
    end; cbn; try discriminate; try reflexivity; intros; exfalso; subst; lia.
Qed.

Lemma b64_leb_trans (x y z : float) :
  PrimFloat.leb x y = true -> PrimFloat.leb y z = true -> PrimFloat.leb x z = true.
Proof. rewrite !FloatAxioms.leb_spec. apply SFleb_trans. Qed.

End OrdenB64.

#[export] Instance orden_B64 : Orden B64 :=
  Build_Orden B64 OrdenB64.b64_leb_total OrdenB64.b64_ltb_leb OrdenB64.b64_leb_no_mayor OrdenB64.b64_ltb_numeros OrdenB64.b64_ltb_distintos
    OrdenB64.b64_leb_refl OrdenB64.b64_leb_trans eq_refl eq_refl eq_refl.

Module OrdenExacto.

Lemma exacto_leb_total (x y : exacto) :
  @is_nan Exacto x = false -> @is_nan Exacto y = false ->
  @nltb Exacto x y = false -> @nleb Exacto y x = true.
Proof.
  destruct x as [x|], y as [y|]; cbn; try discriminate. intros _ _.
  unfold Qlt_bool. by intros ?%negb_false_iff.
Qed.

Lemma exacto_ltb_menor (x y : Q) : Qlt_bool x y = true <-> (x < y)%Q.
Proof.
  unfold Qlt_bool. rewrite negb_true_iff, <- not_true_iff_false.
  split.
  - intros H. apply Qnot_le_lt. intros Hle. by apply H, Qle_bool_iff.
  - intros H Hle%Qle_bool_iff. by apply (Qlt_not_le _ _ H).
Qed.

Lemma exacto_ltb_leb (x y : exacto) : @nltb Exacto x y = true -> @nleb Exacto x y = true.
Proof.
  destruct x as [x|], y as [y|]; cbn; try discriminate.
  intros H%exacto_ltb_menor. apply Qle_bool_iff. by apply Qlt_le_weak.
Qed.

Lemma exacto_leb_no_mayor (x y : exacto) :
  @nleb Exacto x y = true -> @nltb Exacto y x = false.
Proof.
  destruct x as [x|], y as [y|]; cbn; try done.
  unfold Qlt_bool. by intros ->.
Qed.

Lemma exacto_ltb_numeros (x y : exacto) :
  @nltb Exacto x y = true -> @is_nan Exacto x = false /\ @is_nan Exacto y = false.
Proof. destruct x, y; cbn; try discriminate. done. Qed.

Lemma exacto_ltb_distintos (x y : exacto) :
  @nltb Exacto x y = true -> @neqb Exacto x y = false /\ @neqb Exacto y x = false.
Proof.
  destruct x as [x|], y as [y|]; cbn; try discriminate.
  intros H%exacto_ltb_menor.
  split; apply not_true_iff_false; intros E%Qeq_bool_iff; rewrite E in H;
    by apply Qlt_irrefl in H.
Qed.

Lemma exacto_leb_refl (x : exacto) : @is_nan Exacto x = false -> @nleb Exacto x x = true.
Proof. destruct x as [x|]; cbn; [|discriminate]. intros _. apply Qle_bool_iff, Qle_refl. Qed.

Lemma exacto_leb_trans (x y z : exacto) :
  @nleb Exacto x y = true -> @nleb Exacto y z = true -> @nleb Exacto x z = true.
Proof.
  destruct x as [x|], y as [y|], z as [z|]; cbn; try discriminate.
  rewrite !Qle_bool_iff. apply Qle_trans.
Qed.

End OrdenExacto.

#[export] Instance orden_Exacto : Orden Exacto :=
  Build_Orden Exacto OrdenExacto.exacto_leb_total OrdenExacto.exacto_ltb_leb OrdenExacto.exacto_leb_no_mayor OrdenExacto.exacto_ltb_numeros OrdenExacto.exacto_ltb_distintos
    OrdenExacto.exacto_leb_refl OrdenExacto.exacto_leb_trans eq_refl eq_refl eq_refl.

(** ** app/services/criticos.py *)

Module Servicio.

(** [aguja in pajar] on two strings. *)
Fixpoint subcadena (aguja pajar : string) : bool :=
  String.prefix aguja pajar
  || match pajar with
     | EmptyString => false
     | String _ resto => subcadena aguja resto
     end.

(** [secuencia[inicio:fin]]: a negative bound counts from the end, and
    both bounds are brought into the sequence. *)
Definition py_slice {A} (secuencia : list A) (inicio fin : Z) : list A :=
  let n := Z.of_nat (length secuencia) in
  let ajustar (i : Z) := if i <? 0 then Z.max 0 (i + n) else Z.min i n in
  take (Z.to_nat (ajustar fin - ajustar inicio)) (drop (Z.to_nat (ajustar inicio)) secuencia).

(** What the service raises: the HTTP error of FastAPI, or an exception
    of Python. *)
Inductive respuesta (A : Type) : Type :=
| Exito (a : A)
| HTTPException (status_code : Z) (codigo : string)
| Excepcion (e : excepcion).
Arguments Exito {A} a.
Arguments HTTPException {A} status_code codigo.
Arguments Excepcion {A} e.

(** [app.models.Paginacion] and [app.models.FiltroMicrozona]. *)
Record Paginacion := {
  limite : Z;
  desplazamiento : Z;
}.

(** The constraints of the two fields of [Paginacion]: [ge=1, le=200]
    and [ge=0]. *)
Definition paginacion_valida (p : Paginacion) : Prop :=
  1 <= limite p <= 200 /\ 0 <= desplazamiento p.

Section Def.
Context `{N : Num}.

(** Library functions: [str.lower()] and [str.strip()]. *)
Variable lower : string -> string.
Variable strip : string -> string.

Record FiltroMicrozona := {
  gerencia : option string;
  conexiones_minimas : option Z;
  conexiones_maximas : option Z;
  ratio_maximo : option num;
}.

(** The value of the column [advertencias_datos] in a row, as
    [_normalizar_advertencias] tells its cases apart: [None], a list (or
    tuple) of strings, or another value, given by its [str]. *)
Inductive advertencias_valor :=
| SinValor
| Lista (textos : list string)
| Otro (str : string).

(** A row of the enriched table, with the columns the service reads.
    The text columns hold a string or a missing value; the three columns
    of the annotator may be absent from the table ([fila.get] gives
    [None] then). *)
Record Fila := {
  ubigeo : option string;
  gerencia_servicios : option string;
  conexiones_agua : celda;
  ratio_conexiones_alcantarillado : celda;
  longitud_total_agua : celda;
  longitud_total_desague : celda;
  conteo_proyectos_activos : celda;
  indice_critico : option celda;
  categoria_microzona : option (option string);
  advertencias_datos : advertencias_valor;
}.

(** [serie.fillna(0) >= minimo], [serie.fillna(0) <= maximo] on a column
    of integers or floats, at one position. *)
Definition al_menos (c : celda) (minimo : Z) : bool :=
  match c with
  | NA => minimo <=? 0
  | Entero z => minimo <=? z
  | Flotante x => nleb (of_Z minimo) (fillna (of_Z 0) x)
  end.

Definition a_lo_mas (c : celda) (maximo : Z) : bool :=
  match c with
  | NA => 0 <=? maximo
  | Entero z => z <=? maximo
  | Flotante x => nleb (fillna (of_Z 0) x) (of_Z maximo)
  end.

(** [serie.fillna(0) <= ratio_maximo], the bound being a float. *)
Definition ratio_a_lo_mas (c : celda) (maximo : num) : bool :=
  match c with
  | NA => nleb (of_Z 0) maximo
  | Entero z => nleb (of_Z z) maximo
  | Flotante x => nleb (fillna (of_Z 0) x) maximo
  end.

(** [serie.str.lower() == filtros.gerencia.strip().lower()]: a missing
    value is equal to nothing. *)
Definition misma_gerencia (solicitada : string) (f : Fila) : bool :=
  match gerencia_servicios f with
  | Some g => bool_decide (lower g = lower (strip solicitada))
  | None => false
  end.

(** The truth value of [filtros.gerencia]: [None] and [""] are false. *)
Definition gerencia_activa (filtros : FiltroMicrozona) : option string :=
  match gerencia filtros with
  | Some ""%string | None => None
  | Some g => Some g
  end.

(** The four filters, in the order the function applies them. *)
Definition filtrar (microzonas : list Fila) (filtros : FiltroMicrozona) : list Fila :=
  let t1 :=
    match gerencia_activa filtros with
    | Some g => List.filter (misma_gerencia g) microzonas
    | None => microzonas
    end in
  let t2 :=
    match conexiones_minimas filtros with
    | Some m => List.filter (fun f => al_menos (conexiones_agua f) m) t1
    | None => t1
    end in
  let t3 :=
    match conexiones_maximas filtros with
    | Some m => List.filter (fun f => a_lo_mas (conexiones_agua f) m) t2
    | None => t2
    end in
  match ratio_maximo filtros with
  | Some r => List.filter (fun f => ratio_a_lo_mas (ratio_conexiones_alcantarillado f) r) t3
  | None => t3
  end.

(** [_normalizar_advertencias]. *)
Definition _normalizar_advertencias (valor : advertencias_valor) : list string :=
  match valor with
  | SinValor => []
  | Lista textos => textos
  | Otro str => [str]
  end.

(** [_generar_banderas]. *)
Definition bandera (advertencia : string) : string :=
  let texto := lower advertencia in
  if subcadena "agua" texto && subcadena "longitud" texto then "SIN_LONGITUD_AGUA"
  else if subcadena "desagüe" texto && subcadena "longitud" texto then "SIN_LONGITUD_DESAGUE"
  else if subcadena "proyectos" texto then "SIN_PROYECTOS"
  else if subcadena "conexiones de agua" texto then "SIN_CONEXIONES_AGUA"
  else if subcadena "supera la unidad" texto then "RATIO_MAYOR_UNO"
  else "ADVERTENCIA".

Definition _generar_banderas (advertencias : list string) : list string :=
  bandera <$> advertencias.

(** The two parts that [_construir_microzona_respuesta] adds to the
    columns of the row. *)
Record Indicadores := {
  ind_indice_critico : option celda;
  ind_categoria_microzona : string;
  ind_advertencias_datos : list string;
}.

Record MetadatosCalidad := {
  total_advertencias : nat;
  banderas : list string;
}.

Record MicrozonaRespuesta := {
  datos_base : Fila;
  indicadores : Indicadores;
  metadatos_calidad : MetadatosCalidad;
}.

(** [fila.get("categoria_microzona") or "SIN_DATOS"]: an absent column
    and an empty string give the default; the truth value of [pd.NA]
    raises [TypeError]. *)
Definition categoria_o_defecto (v : option (option string)) : resultado string :=
  match v with
  | None => Ok "SIN_DATOS"%string
  | Some None => Raise TypeError
  | Some (Some ""%string) => Ok "SIN_DATOS"%string
  | Some (Some s) => Ok s
  end.

Definition _construir_microzona_respuesta (fila : Fila) : resultado MicrozonaRespuesta :=
  let advertencias := _normalizar_advertencias (advertencias_datos fila) in
  let banderas := _generar_banderas advertencias in
  categoria ← categoria_o_defecto (categoria_microzona fila);
  mret {| datos_base := fila;
          indicadores :=
            {| ind_indice_critico := indice_critico fila;
               ind_categoria_microzona := categoria;
               ind_advertencias_datos := advertencias |};
          metadatos_calidad :=
            {| total_advertencias := length advertencias;
               banderas := banderas |} |}.

(** [app.models.MensajeServicio]. *)
Record MensajeServicio := {
  codigo : string;
  detalle : string;
  explicacion_simple : string;
}.

(** [serie.fillna(0) <= 0] at one position. *)
Definition no_positivo (c : celda) : bool := a_lo_mas c 0.

(** [serie.dropna() > 1] at one position that is kept. *)
Definition mayor_que_uno (c : celda) : bool :=
  match c with
  | NA => false
  | Entero z => 1 <? z
  | Flotante x => notna x && nltb (of_Z 1) x
  end.

Definition _construir_mensajes_calidad (tabla : list Fila) : list MensajeServicio :=
  match tabla with
  | [] =>
      [ {| codigo := "SIN_RESULTADOS";
           detalle := "La combinación de filtros no devolvió microzonas.";
           explicacion_simple :=
             "No hay registros que cumplan los criterios seleccionados." |} ]
  | _ =>
      (if forallb (fun f => no_positivo (longitud_total_agua f)) tabla then
         [ {| codigo := "LONGITUD_AGUA_CERO";
              detalle := "Todas las microzonas seleccionadas reportan longitud de red de agua igual a cero.";
              explicacion_simple :=
                "No se cuenta con información de longitud de red de agua para estas zonas." |} ]
       else [])
      ++ (if forallb (fun f => no_positivo (longitud_total_desague f)) tabla then
            [ {| codigo := "LONGITUD_DESAGUE_CERO";
                 detalle := "Todas las microzonas seleccionadas reportan longitud de red de desagüe igual a cero.";
                 explicacion_simple :=
                   "No se cuenta con información de red de desagüe para estas zonas." |} ]
          else [])
      ++ (if forallb (fun f => no_positivo (conteo_proyectos_activos f)) tabla then
            [ {| codigo := "SIN_PROYECTOS_ACTIVOS";
                 detalle := "No existen proyectos activos registrados para las microzonas devueltas.";
                 explicacion_simple :=
                   "No hay intervenciones en curso para estas microzonas." |} ]
          else [])
      ++ (if existsb (fun f => mayor_que_uno (ratio_conexiones_alcantarillado f)) tabla then
            [ {| codigo := "RATIO_SUPERIOR_UNO";
                 detalle := "Existen microzonas con ratio de alcantarillado mayor a 1; podría indicar inconsistencias.";
                 explicacion_simple :=
                   "Algunas zonas muestran más conexiones de desagüe que de agua." |} ]
          else [])
  end.

Definition filtrar_microzonas (microzonas : list Fila) (filtros : FiltroMicrozona)
    (paginacion : Paginacion) (limite_maximo : Z)
    : resultado (list MicrozonaRespuesta * nat * list MensajeServicio) :=
  let tabla_filtrada := filtrar microzonas filtros in
  let total_filtrado := length tabla_filtrada in
  let limite_normalizado := Z.min (limite paginacion) limite_maximo in
  let inicio := desplazamiento paginacion in
  let fin := inicio + limite_normalizado in
  let segmento := py_slice tabla_filtrada inicio fin in
  microzonas_respuesta ← mapM _construir_microzona_respuesta segmento;
  let mensajes := _construir_mensajes_calidad tabla_filtrada in
  mret (microzonas_respuesta, total_filtrado, mensajes).

(** [obtener_microzona]: the first row with that UBIGEO, or the HTTP
    error 404. *)
Definition obtener_microzona (microzonas : list Fila) (codigo_ubigeo : string)
    : respuesta MicrozonaRespuesta :=
  let consulta := List.filter (fun f => bool_decide (ubigeo f = Some codigo_ubigeo)) microzonas in
  match consulta with
  | [] => HTTPException 404 "MICROZONA_NO_ENCONTRADA"
  | fila :: _ =>
      match _construir_microzona_respuesta fila with
      | Ok r => Exito r
      | Raise e => Excepcion e
      end
  end.

(** [_detectar_limitaciones_globales]. *)
Definition _detectar_limitaciones_globales (microzonas : list Fila) : list string :=
  match microzonas with
  | [] => ["El conjunto de microzonas está vacío."]
  | _ =>
      (if forallb (fun f => no_positivo (longitud_total_agua f)) microzonas
       then ["Todas las microzonas reportan longitud de red de agua igual a cero."]
       else [])
      ++ (if forallb (fun f => no_positivo (longitud_total_desague f)) microzonas
          then ["Todas las microzonas reportan longitud de red de desagüe igual a cero."]
          else [])
      ++ (if Z.of_nat (length microzonas) - 1
             <=? Z.of_nat (length (List.filter
                                     (fun f => no_positivo (conteo_proyectos_activos f))
                                     microzonas))
          then ["Solo se registran proyectos activos en una microzona o ninguna."]
          else [])
  end.

(** [obtener_estadisticas]; [percentiles] is the dictionary of
    [calcular_percentiles]. *)
Record Estadisticas := {
  total_microzonas : nat;
  percentiles_conexiones : list (string * option num);
  mediana_ratio : option num;
  maximo_ratio : option num;
  advertencias_globales : list string;
}.

Definition obtener_estadisticas (microzonas : list Fila) (percentiles : gmap string num)
    : Estadisticas :=
  {| total_microzonas := length microzonas;
     percentiles_conexiones :=
       (fun clave => (clave, percentiles !! clave))
         <$> ["p10_conexiones"; "p25_conexiones"; "mediana_conexiones"; "p75_conexiones"]%string;
     mediana_ratio := percentiles !! "mediana_ratio"%string;
     maximo_ratio := percentiles !! "maximo_ratio"%string;
     advertencias_globales := _detectar_limitaciones_globales microzonas |}.

End Def.

(** The lowering of the ASCII letters, which is [str.lower()] on a text
    whose other characters have no upper case. *)
Definition minuscula_ascii (c : ascii) : ascii :=
  let n := nat_of_ascii c in
  if (65 <=? n)%nat && (n <=? 90)%nat then ascii_of_nat (n + 32) else c.

Fixpoint minusculas_ascii (s : string) : string :=
  match s with
  | EmptyString => EmptyString
  | String c resto => String (minuscula_ascii c) (minusculas_ascii resto)
  end.

End Servicio.

(** ** A table of the service, after the fixture of the API tests *)

Module EscenarioServicio.
Import Servicio.

Definition fila_centro : Fila (N := B64) :=
  {| ubigeo := Some "150101"%string;
     gerencia_servicios := Some "GERENCIA CENTRO"%string;
     conexiones_agua := Entero 1000;
     ratio_conexiones_alcantarillado := Flotante (lit 6 10);
     longitud_total_agua := Flotante (of_Z 0);
     longitud_total_desague := Flotante (of_Z 0);
     conteo_proyectos_activos := Entero 0;
     indice_critico := Some (Flotante (lit 76 100));
     categoria_microzona := Some (Some "CRITICA"%string);
     advertencias_datos :=
       Lista ["Sin longitud de red de agua reportada.";
              "Sin proyectos activos registrados para la microzona."]%string |}.

Definition fila_norte : Fila (N := B64) :=
  {| ubigeo := Some "150102"%string;
     gerencia_servicios := Some "GERENCIA NORTE"%string;
     conexiones_agua := Entero 300;
     ratio_conexiones_alcantarillado := Flotante (lit 12 10);
     longitud_total_agua := Flotante (of_Z 0);
     longitud_total_desague := Flotante (of_Z 0);
     conteo_proyectos_activos := Entero 0;
     indice_critico := Some (Flotante (lit 25 100));
     categoria_microzona := Some (Some "ESTABLE"%string);
     advertencias_datos :=
       Lista ["Sin longitud de red de agua reportada.";
              "El ratio de alcantarillado supera la unidad; revisar consistencia."]%string |}.

Definition tabla_servicio : list (Fila (N := B64)) := [fila_centro; fila_norte].

Definition sin_filtros : FiltroMicrozona (N := B64) :=
  {| gerencia := None;
     conexiones_minimas := None;
     conexiones_maximas := None;
     ratio_maximo := None |}.

(** [conexiones_min=5000]: no row of the table passes. *)
Definition filtro_grande : FiltroMicrozona (N := B64) :=
  {| gerencia := None;
     conexiones_minimas := Some 5000;
     conexiones_maximas := None;
     ratio_maximo := None |}.

(** [limit=1, offset=0], as in the first test. *)
Definition primera_pagina : Paginacion := {| limite := 1; desplazamiento := 0 |}.

End EscenarioServicio.

(** ** src/etl_sedapal.py: the UBIGEO column of [guardar_resultados] *)

Module Guardar.

(** [str.zfill(ancho)] on a string without sign. *)
Definition rellenar_ceros (ancho : nat) (s : string) : string :=
  string_of_list_ascii (replicate (ancho - String.length s) "0"%char) ++ s.


Section Def.

(** The cast of a string to [Int64] ([astype("Int64")] parses each
    string with [int] and stores it in 64 bits); it raises on a string
    that is not an integer or does not fit. *)
Variable a_int64 : string -> resultado Z.


End Def.


End Guardar.

(** ** src/etl_sedapal.py: the retry loop of [descargar_dataset] *)

(** The function talks to the network, the file system and the clock.
    Here the network is an oracle that says, for the n-th call of
    [sesion.get] (with [raise_for_status]), whether it gives a content or
    raises a [requests.RequestException]; the run of the loop is the list
    of its effects, in order, and its outcome.  Writing the file is
    taken to succeed, and the log records are left out. *)
Module Descarga.
Section Def.
Context `{N : Num}.

Variable contenido : Type.

Inductive efecto :=
| Get (intento : nat)              (* sesion.get(url, ...) and raise_for_status() *)
| Escribir (c : contenido)         (* ruta_destino.write_bytes(respuesta.content) *)
| Dormir (segundos : num).         (* time.sleep(tiempo_espera) *)

Inductive desenlace :=
| Descargado                       (* return ruta_destino *)
| Relanzada                        (* raise: the last RequestException *)
| SinCombustible.                  (* the bound of the model on the iterations *)

Variable respuestas : nat -> option contenido.
Variable reintentos : Z.
Variable espera_segundos : num.

(** One iteration of [while True], [intento] being the number of
    attempts made so far. *)
Fixpoint bucle (combustible : nat) (intento : nat) : desenlace * list efecto :=
  let intento := S intento in
  match respuestas intento with
  | Some c => (Descargado, [Get intento; Escribir c])
  | None =>
      if reintentos <=? Z.of_nat intento then (Relanzada, [Get intento])
      else
        let tiempo_espera := nmul espera_segundos (of_Z (Z.of_nat intento)) in
        match combustible with
        | O => (SinCombustible, [Get intento; Dormir tiempo_espera])
        | S restante =>
            let '(d, efectos) := bucle restante intento in
            (d, Get intento :: Dormir tiempo_espera :: efectos)
        end
  end.

(** [descargar_dataset]: [intento = 0] and the loop; [reintentos]
    iterations are enough. *)
Definition descargar_dataset : desenlace * list efecto :=
  bucle (Z.to_nat reintentos) 0.

End Def.
End Descarga.

(** * Properties *)

(** ** Criteria construction and the default scenario *)

Module CriteriosProps.
Import Criterios.

(** Exact arithmetic: unfolding of the comparisons. *)
Lemma ex_nltb_spec (x y : Q) : @nltb Exacto (Some x) (Some y) = true <-> (x < y)%Q.
Proof.
  cbn. unfold Qlt_bool. rewrite negb_true_iff.
  split.
  - intros H. apply Qnot_le_lt. intros Hle. apply Qle_bool_iff in Hle. congruence.
  - intros H. destruct (Qle_bool y x) eqn:E; [|done].
    apply Qle_bool_iff in E. exfalso. exact (Qlt_not_le _ _ H E).
Qed.


Lemma ex_neqb_spec (x y : Q) : @neqb Exacto (Some x) (Some y) = true <-> (x == y)%Q.
Proof. cbn. apply Qeq_bool_iff. Qed.

(** [max(x, 0.0)] on an exact number is a number that is not negative. *)
Lemma ex_py_max_cero (x : Q) :
  exists y : Q, py_max (N := Exacto) (Some x) (of_Z 0) = Some y /\ (0 <= y)%Q /\ (x <= y)%Q.
Proof.
  unfold py_max. change (@of_Z Exacto 0) with (Some 0%Q).
  destruct (@nltb Exacto (Some x) (Some 0%Q)) eqn:E.
  - apply ex_nltb_spec in E. exists 0%Q. split; [done|]. split.
    + apply Qle_refl.
    + apply Qlt_le_weak, E.
  - exists x. split; [done|]. split; [|apply Qle_refl].
    apply Qnot_lt_le. intros H. apply ex_nltb_spec in H. congruence.
Qed.

(** NaN absorbs the exact operations. *)
Lemma ex_py_max_nan (z : exacto) : py_max (N := Exacto) None z = None.
Proof. done. Qed.

Lemma ex_nadd_nan_r (x : exacto) : @nadd Exacto x None = None.
Proof. by destruct x. Qed.

Lemma ex_ndiv_nan_r (x : exacto) : @ndiv Exacto x None = None.
Proof. by destruct x. Qed.

(** The weights stored for two input weights that are numbers, in exact
    arithmetic: two numbers that are not negative and whose sum is 1. *)
Lemma post_init_pesos_numeros (a b : Q) (p ua uc : exacto) :
  let c := post_init (N := Exacto)
             {| peso_ratio := Some a; peso_conexiones := Some b;
                percentil_conexiones_critico := p;
                umbral_categoria_alerta := ua; umbral_categoria_critica := uc |} in
  exists x y : Q,
    peso_ratio c = Some x /\ peso_conexiones c = Some y /\
    (0 <= x)%Q /\ (0 <= y)%Q /\ (x + y == 1)%Q.
Proof.
  unfold post_init. cbn [peso_ratio peso_conexiones fst snd].
  destruct (ex_py_max_cero a) as (x' & -> & Hx' & _).
  destruct (ex_py_max_cero b) as (y' & -> & Hy' & _).
  cbn [nadd Exacto ex_op2]. change (@of_Z Exacto 0) with (Some 0%Q).
  destruct (@neqb Exacto (Some (Qred (x' + y'))) (Some 0%Q)) eqn:E.
  - exists (Qred (1 / 2)), (Qred (1 / 2)). repeat split; done.
  - assert (Hs : ~ (x' + y' == 0)%Q).
    { intros H. rewrite <- (Qred_correct (x' + y')) in H.
      apply ex_neqb_spec in H. congruence. }
    cbn [ndiv Exacto ex_div fst snd].
    destruct (Qeq_bool (Qred (x' + y')) 0) eqn:E0.
    { apply Qeq_bool_iff in E0. rewrite Qred_correct in E0. done. }
    exists (Qred (x' / Qred (x' + y'))), (Qred (y' / Qred (x' + y'))).
    split; [done|]. split; [done|].
    assert (Hpos : (0 < x' + y')%Q).
    { destruct (Qlt_le_dec 0 (x' + y')) as [|Hle]; [done|].
      exfalso. apply Hs. apply Qle_antisym; [done|].
      rewrite <- (Qplus_0_r 0). apply Qplus_le_compat; done. }
    rewrite !Qred_correct. repeat split.
    + apply Qle_shift_div_l; [done|]. rewrite Qmult_0_l. done.
    + apply Qle_shift_div_l; [done|]. rewrite Qmult_0_l. done.
    + field. done.
Qed.

(** The stored weights of any criteria, in exact arithmetic: both NaN, or
    as in [post_init_pesos_numeros]. *)
Lemma post_init_pesos_exacto (c0 : CriteriosCriticidad (N := Exacto)) :
  (peso_ratio (post_init c0) = None /\ peso_conexiones (post_init c0) = None) \/
  (exists x y : Q,
      peso_ratio (post_init c0) = Some x /\ peso_conexiones (post_init c0) = Some y /\
      (0 <= x)%Q /\ (0 <= y)%Q /\ (x + y == 1)%Q).
Proof.
  destruct c0 as [a b p ua uc].
  destruct a as [x|]; [|left].
  2:{ unfold post_init. cbn [peso_ratio peso_conexiones fst snd].
      rewrite ex_py_max_nan. by destruct (py_max b (of_Z 0)). }
  destruct b as [y|]; [|left].
  2:{ unfold post_init. cbn [peso_ratio peso_conexiones fst snd].
      rewrite ex_py_max_nan, ex_nadd_nan_r, !ex_ndiv_nan_r. done. }
  right. apply post_init_pesos_numeros.
Qed.

(** Two weights given to the constructor. *)
Definition pesos_almacenados `{N : Num} (a b : num) : num * num :=
  (peso_ratio (con_pesos a b), peso_conexiones (con_pesos a b)).

(** C6 as stated, on binary64: stored weights that sum to exactly 1.0. *)
Definition suman_uno `{N : Num} (ps : num * num) : bool :=
  neqb (nadd (fst ps) (snd ps)) (of_Z 1).

(** C6, counterexample: the inputs 0.01 and 0.04 are positive, and the
    binary64 weights stored for them, 0.19999999999999998 and
    0.7999999999999999, sum to 0.9999999999999999. *)
Lemma pesos_binario64_no_suman_uno :
  nltb (Num := B64) (of_Z 0) (lit 1 100) = true /\
  nltb (Num := B64) (of_Z 0) (lit 4 100) = true /\
  suman_uno (N := B64) (pesos_almacenados (lit 1 100) (lit 4 100)) = false.
Proof. repeat split; reflexivity. Qed.

(** C6, amended: in exact arithmetic the stored weights of any two inputs
    that are numbers sum to exactly 1 (negative inputs count as 0), and
    they are 0.5 and 0.5 when both count as 0; on binary64 the default
    weights 0.6 and 0.4 are stored unchanged with sum 1.0, and two zero
    weights are stored as 0.5 and 0.5. *)
Theorem pesos_suman_uno_en_exacto :
  (forall a b : Q,
      suman_uno (N := Exacto) (pesos_almacenados (Some a) (Some b)) = true /\
      ((a <= 0)%Q -> (b <= 0)%Q ->
       pesos_almacenados (N := Exacto) (Some a) (Some b) = (Some (1 # 2), Some (1 # 2)))) /\
  pesos_almacenados (N := B64) (lit 6 10) (lit 4 10) = (lit 6 10, lit 4 10) /\
  suman_uno (N := B64) (pesos_almacenados (lit 6 10) (lit 4 10)) = true /\
  pesos_almacenados (N := B64) (of_Z 0) (of_Z 0) = (lit 1 2, lit 1 2).
Proof.
  split; [|repeat split; reflexivity].
  intros a b. split.
  - unfold suman_uno, pesos_almacenados, con_pesos. cbn [fst snd].
    destruct (post_init_pesos_numeros a b
                (percentil_conexiones_critico (campos_por_defecto (N := Exacto)))
                (umbral_categoria_alerta (campos_por_defecto (N := Exacto)))
                (umbral_categoria_critica (campos_por_defecto (N := Exacto))))
      as (x & y & -> & -> & _ & _ & Hxy).
    apply ex_neqb_spec. rewrite Qred_correct. done.
  - intros Ha Hb. unfold pesos_almacenados, con_pesos, post_init.
    cbn [peso_ratio peso_conexiones fst snd].
    destruct (ex_py_max_cero a) as (x' & Ex & Hx' & _).
    destruct (ex_py_max_cero b) as (y' & Ey & Hy' & _).
    assert (Hx0 : (x' == 0)%Q).
    { apply Qle_antisym; [|done]. revert Ex. unfold py_max.
      change (@of_Z Exacto 0) with (Some 0%Q).
      destruct (@nltb Exacto (Some a) (Some 0%Q)); intros [= <-]; [apply Qle_refl|done]. }
    assert (Hy0 : (y' == 0)%Q).
    { apply Qle_antisym; [|done]. revert Ey. unfold py_max.
      change (@of_Z Exacto 0) with (Some 0%Q).
      destruct (@nltb Exacto (Some b) (Some 0%Q)); intros [= <-]; [apply Qle_refl|done]. }
    rewrite Ex, Ey. cbn [nadd Exacto ex_op2].
    assert (E : @neqb Exacto (Some (Qred (x' + y'))) (of_Z 0) = true).
    { apply ex_neqb_spec. rewrite Qred_correct, Hx0, Hy0. done. }
    rewrite E. done.
Qed.

End CriteriosProps.

(** ** The UBIGEO code *)

Module UbigeoProps.
Import Ubigeo.

Section Props.
Variable caracter : Type.
Variable es_digito : caracter -> bool.
Variable cero : caracter.
Hypothesis cero_es_digito : es_digito cero = true.

Lemma digitos_son_digitos (v : option (list caracter)) :
  Forall (fun c => es_digito c = true) (digitos caracter es_digito v).
Proof.
  unfold digitos, quitar_no_digitos. apply List.Forall_forall.
  intros c Hc. apply filter_In in Hc. tauto.
Qed.

Lemma zfill_digitos (n : nat) (s : list caracter) :
  Forall (fun c => es_digito c = true) s ->
  Forall (fun c => es_digito c = true) (zfill caracter cero n s).
Proof.
  intros Hs. unfold zfill. apply Forall_app. split; [|done].
  apply Forall_replicate. done.
Qed.

Lemma zfill_length (n : nat) (s : list caracter) :
  length (zfill caracter cero n s) = Nat.max n (length s).
Proof. unfold zfill. rewrite length_app, length_replicate. lia. Qed.

Lemma fullmatch_d6_spec (s : list caracter) :
  fullmatch_d6 caracter es_digito s = true <-> seis_digitos caracter es_digito s.
Proof.
  unfold fullmatch_d6, seis_digitos.
  rewrite andb_true_iff, Nat.eqb_eq, forallb_forall, List.Forall_forall. done.
Qed.

(** C7, amended: the result is missing or a string of exactly six
    digits; it is missing exactly when the input has more than six
    digits, and otherwise it is the digits of the input padded on the left
    with zeros (an input with fewer than six digits, even with none, gives
    a padded code). *)
Theorem sanear_ubigeo_seis_digitos_o_nulo (v : option (list caracter)) :
  let d := digitos caracter es_digito v in
  let r := _sanear_ubigeo caracter es_digito cero v in
  (r = None \/ exists s, r = Some s /\ seis_digitos caracter es_digito s) /\
  (6 < length d -> r = None)%nat /\
  (length d <= 6 -> r = Some (replicate (6 - length d) cero ++ d))%nat.
Proof.
  intros d r. subst r. unfold _sanear_ubigeo. fold (digitos caracter es_digito v). fold d.
  pose proof (digitos_son_digitos v) as Hd. fold d in Hd.
  destruct (fullmatch_d6 caracter es_digito (zfill caracter cero 6 d)) eqn:E.
  - apply fullmatch_d6_spec in E. destruct E as [El Ef]. rewrite zfill_length in El.
    split; [right; eexists; split; [done|]|split].
    + split; [by rewrite zfill_length|done].
    + lia.
    + done.
  - split; [by left|]. split; [done|]. intros Hle. exfalso.
    apply not_true_iff_false in E. apply E. apply fullmatch_d6_spec. split.
    + rewrite zfill_length. lia.
    + by apply zfill_digitos.
Qed.

End Props.

(** C7 as stated: the result is missing or six digits, and an input whose
    digits are not a six-digit code gives a missing value. *)
Definition sin_codigo_de_relleno (v : option string) : Prop :=
  let d := digitos ascii es_digito_ascii (list_ascii_of_string <$> v) in
  length d <> 6%nat -> sanear_ascii v = None.

(** C7, counterexample: the input "abc" has no digit and becomes the code
    "000000"; the input "12" becomes "000012". *)
Lemma sanear_ubigeo_rellena_basura :
  sanear_ascii (Some "abc"%string) = Some "000000"%string /\
  sanear_ascii (Some "12"%string) = Some "000012"%string /\
  sanear_ascii None = Some "000000"%string /\
  ~ sin_codigo_de_relleno (Some "abc"%string).
Proof.
  split; [reflexivity|]. split; [reflexivity|]. split; [reflexivity|].
  intros H. unfold sin_codigo_de_relleno in H. cbv in H.
  specialize (H ltac:(discriminate)). discriminate H.
Qed.

(** C7, witness: ASCII text and the inputs "150132" (kept), "1501321"
    (seven digits, missing) and "15-01" (padded). *)
Lemma sanear_ubigeo_seis_digitos_o_nulo_testigo :
  es_digito_ascii "0"%char = true /\
  sanear_ascii (Some "150132"%string) = Some "150132"%string /\
  sanear_ascii (Some "1501321"%string) = None /\
  sanear_ascii (Some "15-01"%string) = Some "001501"%string /\
  (let v := Some (list_ascii_of_string "15-01") in
   _sanear_ubigeo ascii es_digito_ascii "0"%char v
   = Some (replicate (6 - length (digitos ascii es_digito_ascii v)) "0"%char
           ++ digitos ascii es_digito_ascii v)).
Proof.
  split; [reflexivity|]. split; [reflexivity|]. split; [reflexivity|].
  split; [reflexivity|].
  apply (sanear_ubigeo_seis_digitos_o_nulo ascii es_digito_ascii "0"%char eq_refl
           (Some (list_ascii_of_string "15-01"))).
  cbv. lia.
Defined.

End UbigeoProps.

(** ** The criticality annotator *)

Module AnaliticaProps.
Import Criterios Analitica Escenario CriteriosProps.

(** The annotator on the scenario row with the default criteria, in
    binary64; the library functions are not called, the reference being
    the configured 15162. *)
Lemma anotar_escenario_defecto
    (quantile : list float -> float -> float) (median maximo : list float -> float) :
  anotar_indicadores (N := B64) quantile median maximo tabla_escenario
    (de_criterios criterios_por_defecto)
  = Ok [ {| fila_base := fila_escenario;
            indice_critico := lit 614 1000;
            categoria_microzona := "CRITICA";
            advertencias_datos :=
              ["Sin longitud de red de agua reportada.";
               "Sin longitud de red de desagüe reportada.";
               "Sin proyectos activos registrados para la microzona."] |} ].
Proof. reflexivity. Qed.

(** C4 as the specification states it: one row, index 0.414 after
    rounding to three decimals, category VIGILANCIA. *)
Definition escenario_segun_espec (r : resultado (list (FilaAnotada (N := B64)))) : Prop :=
  exists fa, r = Ok [fa] /\
    round_dec 3 (indice_critico fa) = lit 414 1000 /\
    categoria_microzona fa = "VIGILANCIA".

(** C4, counterexample: on the scenario row with the default criteria the
    annotator returns one row of index 0.614 and category CRITICA, which
    is not the result C4 states. *)
Lemma escenario_por_defecto_no_vigilancia :
  let salida :=
    anotar_indicadores (N := B64) cuantil_unico unico unico tabla_escenario
      (de_criterios criterios_por_defecto) in
  (exists fa, salida = Ok [fa] /\
     indice_critico fa = lit 614 1000 /\ categoria_microzona fa = "CRITICA"%string) /\
  ~ escenario_segun_espec salida.
Proof.
  intros salida. subst salida. rewrite anotar_escenario_defecto. split.
  - eexists. split; [reflexivity|]. split; reflexivity.
  - intros (fa & H & _ & Hc). injection H as <-. discriminate Hc.
Qed.

(** C4, amended: on the scenario row with the default criteria, in
    binary64, the ratio sub-score is 0.6, the coverage sub-score is
    1000/15162 (0.066 to three decimals), the index is 0.614 and the
    category is CRITICA (0.614 >= 0.6). *)
Theorem escenario_por_defecto_es_critica :
  forall (quantile : list float -> float -> float) (median maximo : list float -> float),
    let criterios := de_criterios (N := B64) criterios_por_defecto in
    serie_ratio_normalizada (N := B64) tabla_escenario = [lit 6 10] /\
    serie_cobertura (N := B64) quantile median maximo tabla_escenario criterios
      = [ndiv (of_Z 1000) (of_Z 15162)] /\
    map (round_dec 3)
      (serie_cobertura (N := B64) quantile median maximo tabla_escenario criterios)
      = [lit 66 1000] /\
    anotar_indicadores (N := B64) quantile median maximo tabla_escenario criterios
      = Ok [ {| fila_base := fila_escenario;
                indice_critico := lit 614 1000;
                categoria_microzona := "CRITICA";
                advertencias_datos :=
                  ["Sin longitud de red de agua reportada.";
                   "Sin longitud de red de desagüe reportada.";
                   "Sin proyectos activos registrados para la microzona."] |} ].
Proof. intros. repeat split; reflexivity. Qed.

(** C5, counterexample: criteria built with the non-finite reference
    [+inf] keep it ([max(inf, 1.0)] is [inf], which is neither NaN nor
    [<= 0]); the annotator divides by [+inf], not by the 75th percentile
    of the table, which is 1000 here. *)
Lemma referencia_infinita_no_usa_p75 :
  let criterios := de_criterios (con_referencia (N := B64) infinity) in
  percentil_referencia (N := B64) cuantil_unico unico unico tabla_escenario criterios
    = infinity /\
  respaldo_p75 (N := B64) cuantil_unico unico unico tabla_escenario = of_Z 1000 /\
  serie_cobertura (N := B64) cuantil_unico unico unico tabla_escenario criterios
    = [of_Z 0].
Proof. repeat split; reflexivity. Qed.

(** C5, amended: the annotator falls back on the 75th percentile of the
    table (1.0 when that is NaN or not positive) exactly when the
    attribute is absent, NaN or [<= 0]; any other value, [+inf] included,
    is the denominator itself.  Criteria built by the constructor hold
    [max(value, 1.0)], so a value [<= 0] given to it is stored as 1.0. *)
Theorem percentil_referencia_casos :
  forall (N : Num) (quantile : list num -> num -> num) (median maximo : list num -> num)
         (microzonas : DataFrame) (criterios : ObjetoCriterios),
    percentil_referencia quantile median maximo microzonas criterios
    = match attr_percentil_conexiones_critico criterios with
      | None => respaldo_p75 quantile median maximo microzonas
      | Some p =>
          if is_nan p || nleb p (of_Z 0)
          then respaldo_p75 quantile median maximo microzonas
          else p
      end
    /\ (forall c0 : CriteriosCriticidad,
          attr_percentil_conexiones_critico (de_criterios (post_init c0))
          = Some (py_max (percentil_conexiones_critico c0) (of_Z 1))).
Proof.
  intros. split; [|done].
  unfold percentil_referencia, respaldo_p75, getattr, notna.
  destruct (attr_percentil_conexiones_critico criterios) as [p|]; cbn [default].
  - rewrite negb_involutive. done.
  - rewrite negb_involutive, is_nan_nan. done.
Qed.


(** *** Rows of the annotated table *)

Section Filas.
Context `{N : Num}.
Variable quantile : list num -> num -> num.
Variable median : list num -> num.
Variable maximo : list num -> num.

Lemma reindexar_lookup (n : nat) (s : list num) (i : nat) (v : num) :
  reindexar n s !! i = Some v -> s !! i = Some v \/ v = nan.
Proof.
  revert s i. induction n as [|n IH]; intros s i; [done|].
  destruct s as [|x s]; destruct i as [|i]; cbn.
  - intros [= <-]. by right.
  - intros H. apply IH in H as [H| ->]; [done|by right].
  - intros [= <-]. by left.
  - apply IH.
Qed.

Lemma alinear_lookup (f : num -> num -> num) (a b : list num) (i : nat) (v : num) :
  alinear f a b !! i = Some v ->
  (exists x y, a !! i = Some x /\ b !! i = Some y /\ v = f x y) \/ v = nan.
Proof.
  revert b i. induction a as [|x a IH]; intros b i.
  - cbn. rewrite list_lookup_fmap. destruct (b !! i); [|done]. intros [= <-]. by right.
  - destruct b as [|y b].
    + cbn [alinear]. rewrite list_lookup_fmap.
      destruct ((x :: a) !! i); [|done]. intros [= <-]. by right.
    + destruct i as [|i]; cbn.
      * intros [= <-]. left. by exists x, y.
      * apply IH.
Qed.

(** A value of the index column before it is stored. *)
Lemma indice_lookup (microzonas : DataFrame) (criterios : ObjetoCriterios)
    (ps : num * num) (i : nat) (v : num) :
  indice quantile median maximo microzonas criterios ps !! i = Some v ->
  (exists r c,
      serie_ratio_normalizada microzonas !! i = Some r /\
      serie_cobertura quantile median maximo microzonas criterios !! i = Some c /\
      v = round_dec 3 (nadd (nmul (fst ps) (nsub (of_Z 1) r))
                            (nmul (snd ps) (nsub (of_Z 1) c)))) \/
  v = round_dec 3 nan.
Proof.
  unfold indice. rewrite list_lookup_fmap.
  destruct (alinear _ _ _ !! i) as [w|] eqn:E; [|done].
  intros [= <-]. apply alinear_lookup in E as [(x & y & Hx & Hy & ->)| ->]; [|by right].
  rewrite list_lookup_fmap in Hx, Hy.
  destruct (serie_ratio_normalizada microzonas !! i) as [r|]; [|done].
  destruct (serie_cobertura _ _ _ microzonas criterios !! i) as [c|]; [|done].
  injection Hx as <-. injection Hy as <-. left. by exists r, c.
Qed.

(** A row of the result: its index is the stored column at that position
    and its category is the classification of that index. *)
Lemma anotar_fila (microzonas : DataFrame) (criterios : ObjetoCriterios)
    (salida : list FilaAnotada) (i : nat) (fa : FilaAnotada) :
  anotar_indicadores quantile median maximo microzonas criterios = Ok salida ->
  salida !! i = Some fa ->
  exists ps,
    pesos criterios = Ok ps /\
    reindexar (length (filas microzonas))
      (indice quantile median maximo microzonas criterios ps) !! i
      = Some (indice_critico fa) /\
    categoria_microzona fa
      = clasificar_microzona (fst (umbrales criterios)) (snd (umbrales criterios))
          (indice_critico fa).
Proof.
  unfold anotar_indicadores. destruct (filas microzonas) as [|f0 fs] eqn:Ef.
  { intros [= <-]. done. }
  rewrite <- Ef. clear Ef f0 fs.
  destruct (pesos criterios) as [ps|e]; [|done].
  cbn [mbind resultado_bind]. destruct (umbrales criterios) as [ua uc].
  intros Heq H. injection Heq as Heq. rewrite <- Heq in H.
  apply lookup_zip_with_Some in H as (f & v & -> & _ & Hv).
  exists ps. done.
Qed.

Lemma clasificar_sin_datos (umbral_alerta umbral_critica valor : num) :
  clasificar_microzona umbral_alerta umbral_critica valor = "SIN_DATOS"
  <-> is_nan valor = true.
Proof.
  unfold clasificar_microzona. destruct (is_nan valor); [done|].
  destruct (nleb umbral_critica valor); [done|].
  destruct (nleb umbral_alerta valor); done.
Qed.

(** The category is SIN_DATOS exactly on the rows whose index is null,
    for any arithmetic and any criteria object. *)
Lemma categoria_sin_datos_sii_indice_nulo (microzonas : DataFrame)
    (criterios : ObjetoCriterios) (salida : list FilaAnotada) (i : nat) (fa : FilaAnotada) :
  anotar_indicadores quantile median maximo microzonas criterios = Ok salida ->
  salida !! i = Some fa ->
  categoria_microzona fa = "SIN_DATOS" <-> is_nan (indice_critico fa) = true.
Proof.
  intros H Hi. destruct (anotar_fila _ _ _ _ _ H Hi) as (ps & _ & _ & ->).
  apply clasificar_sin_datos.
Qed.

End Filas.


(** *** The index in exact arithmetic *)


Lemma ex_round_dec_nan : round_dec (N := Exacto) 3 None = None.
Proof. done. Qed.



(** The weights the annotator uses for criteria built by the constructor,
    in exact arithmetic: no renormalisation happens and no exception is
    raised. *)
Lemma pesos_construidos (c0 : CriteriosCriticidad (N := Exacto)) :
  pesos (de_criterios (post_init c0)) = Ok (None, None) \/
  exists x y : Q,
    pesos (de_criterios (post_init c0)) = Ok (Some x, Some y) /\
    (0 <= x)%Q /\ (0 <= y)%Q /\ (x + y == 1)%Q.
Proof.
  unfold pesos, de_criterios, getattr.
  cbn [attr_peso_ratio attr_peso_conexiones default].
  destruct (post_init_pesos_exacto c0) as [[-> ->]|(x & y & -> & -> & Hx & Hy & Hxy)].
  - by left.
  - right. exists x, y. split; [|done].
    unfold id, notna. cbn [nadd Exacto ex_op2 is_nan negb andb].
    assert (E : @neqb Exacto (Some (Qred (x + y))) (of_Z 1) = true).
    { apply ex_neqb_spec. rewrite Qred_correct. done. }
    rewrite E. done.
Qed.




End AnaliticaProps.

(** ** Grouping and merging *)

Module PandasProps.
Import Pandas.

Section Tablas.
Context {K : Type} `{EqDecision K}.
Variable le : relation K.
Context `{!RelDecision le}.
Variable nulo : K -> bool.

(** The rows that [groupby] keeps. *)
Definition filas_agrupadas {A} (clave : A -> K) (dropna : bool) (df : list A) : list A :=
  if dropna then List.filter (fun f => negb (nulo (clave f))) df else df.

(** One group per distinct key of the rows kept. *)
Lemma groupby_claves {A} (clave : A -> K) (dropna : bool) (df : list A) :
  fst <$> groupby le nulo clave dropna df
  ≡ₚ remove_dups (clave <$> filas_agrupadas clave dropna df).
Proof.
  unfold groupby. fold (filas_agrupadas clave dropna df).
  rewrite <- list_fmap_compose.
  etrans; [|apply (merge_sort_Permutation le)].
  rewrite <- (list_fmap_id (merge_sort _ _)) at 2. apply reflexive_eq.
  apply list_fmap_ext. done.
Qed.

Lemma groupby_NoDup {A} (clave : A -> K) (dropna : bool) (df : list A) :
  NoDup (fst <$> groupby le nulo clave dropna df).
Proof. rewrite groupby_claves. apply NoDup_remove_dups. Qed.

(** A group holds the rows of its key, in table order. *)
Lemma groupby_grupo {A} (clave : A -> K) (dropna : bool) (df : list A) (g : K * list A) :
  g ∈ groupby le nulo clave dropna df ->
  snd g = filter (fun f => clave f = fst g) (filas_agrupadas clave dropna df).
Proof.
  unfold groupby. fold (filas_agrupadas clave dropna df).
  intros Hg. apply list_elem_of_fmap in Hg as (k & -> & _). done.
Qed.

Lemma filter_vacio {A} (P : A -> Prop) `{forall x, Decision (P x)} (l : list A) :
  (forall x, x ∈ l -> ~ P x) -> filter P l = [].
Proof.
  induction l as [|y l IH]; intros Hl; [done|].
  rewrite filter_cons_False by (apply Hl; left).
  apply IH. intros x Hx. apply Hl. by right.
Qed.

(** In a table whose keys are all different, the rows of a key are at
    most one. *)
Lemma filter_clave_unica {A} (clave : A -> K) (l : list A) (k : K) :
  NoDup (clave <$> l) ->
  filter (fun x => clave x = k) l = [] \/ exists x, filter (fun x => clave x = k) l = [x].
Proof.
  induction l as [|y l IH]; [by left|].
  rewrite fmap_cons, NoDup_cons. intros [Hy Hl].
  destruct (decide (clave y = k)) as [E|E].
  - right. exists y. rewrite filter_cons_True by done. f_equal.
    apply filter_vacio. intros x Hx Ex. apply Hy.
    rewrite E, <- Ex. by apply list_elem_of_fmap_2.
  - rewrite filter_cons_False by done. by apply IH.
Qed.

Lemma filter_clave_presente {A} (clave : A -> K) (l : list A) (x : A) :
  NoDup (clave <$> l) -> x ∈ l -> filter (fun y => clave y = clave x) l = [x].
Proof.
  intros Hl Hx.
  destruct (filter_clave_unica clave l (clave x) Hl) as [E|[y E]].
  - exfalso. assert (Hin : x ∈ filter (fun y => clave y = clave x) l).
    { by apply list_elem_of_filter. }
    rewrite E in Hin. by apply not_elem_of_nil in Hin.
  - assert (Hin : x ∈ filter (fun y => clave y = clave x) l).
    { by apply list_elem_of_filter. }
    rewrite E in Hin. apply list_elem_of_singleton in Hin as ->. done.
Qed.

(** A left merge on a table whose keys are all different has one row per
    row of the left table, in the same order. *)
Lemma merge_left_unico {L R} (clave_izq : L -> K) (clave_der : R -> K)
    (izq : list L) (der : list R) :
  NoDup (clave_der <$> der) ->
  merge_left clave_izq clave_der izq der
  = (fun l => (l, head (filter (fun r => clave_der r = clave_izq l) der))) <$> izq.
Proof.
  intros Hder. unfold merge_left. induction izq as [|l izq IH]; [done|].
  rewrite bind_cons, IH, fmap_cons.
  destruct (filter_clave_unica clave_der der (clave_izq l) Hder) as [->|[r ->]]; done.
Qed.

End Tablas.

Lemma asignar_proyeccion {A B C D} (f : A -> option B -> C) (g : C -> D) (h : A -> D)
    (resumen : list A) (serie : list (option B)) :
  (forall r m, g (f r m) = h r) ->
  g <$> asignar f resumen serie = h <$> resumen.
Proof.
  intros Hf. unfold asignar. rewrite fmap_imap.
  rewrite <- (imap_const h resumen). apply imap_ext. intros i x _. apply Hf.
Qed.

(** The wrapped sum is the exact sum reduced to the signed 64-bit range. *)
Lemma int64_idemp (a b : Z) : int64 (int64 a + b) = int64 (a + b).
Proof.
  unfold int64. f_equal.
  replace ((a + 2 ^ 63) mod 2 ^ 64 - 2 ^ 63 + b + 2 ^ 63)
    with ((a + 2 ^ 63) mod 2 ^ 64 + b) by lia.
  rewrite Zplus_mod_idemp_l. f_equal. lia.
Qed.

Lemma suma_int64_spec (l : list Z) : suma_int64 l = int64 (suma l).
Proof.
  unfold suma_int64. change 0 with (int64 0) at 1.
  replace (suma l) with (0 + suma l) by lia. generalize 0 as acc.
  induction l as [|z l IH]; intros acc; cbn [foldl suma foldr].
  - f_equal. lia.
  - rewrite int64_idemp, IH. f_equal. unfold suma. lia.
Qed.


End PandasProps.

(** ** The connections aggregation *)

Module ConexionesProps.
Import Pandas PandasProps Conexiones.

(** The key and the water count of the aggregated rows, group by group. *)
Lemma agrupar_claves_y_agua (df : list FilaConexion) :
  (fun r => (clave_microzona r, suma_conexiones_agua r)) <$> _agrupar_por_microzona df
  = (fun g : Clave * list FilaConexion => (fst g, suma_int64 (conexiones_agua <$> snd g)))
      <$> groupby clave_le con_nulo clave false df.
Proof.
  unfold _agrupar_por_microzona.
  rewrite (asignar_proyeccion _ _ (fun r => (fst (fst (fst (fst (fst r)))),
                                             snd (fst (fst (fst (fst r))))))).
  2:{ intros [[[[[k agua] alc] fecha] dep] prov] m. done. }
  rewrite (asignar_proyeccion _ _ (fun r => (fst (fst (fst (fst r))),
                                             snd (fst (fst (fst r)))))) by done.
  rewrite (asignar_proyeccion _ _ (fun r => (fst (fst (fst r)), snd (fst (fst r))))) by done.
  rewrite <- list_fmap_compose. done.
Qed.

Lemma agrupar_claves (df : list FilaConexion) :
  clave_microzona <$> _agrupar_por_microzona df
  = fst <$> groupby clave_le con_nulo clave false df.
Proof.
  pose proof (f_equal (fmap fst) (agrupar_claves_y_agua df)) as H.
  rewrite <- !list_fmap_compose in H. exact H.
Qed.

(** The aggregated table has exactly one row for each distinct key of
    the input, missing components included. *)
Lemma agrupar_una_fila_por_clave (df : list FilaConexion) :
  clave_microzona <$> _agrupar_por_microzona df ≡ₚ remove_dups (clave <$> df).
Proof. rewrite agrupar_claves. apply (groupby_claves clave_le con_nulo clave false). Qed.

Definition clave_ejemplo : Clave :=
  {| ubigeo := Some "150132"%string;
     distrito := Some "SAN MIGUEL"%string;
     gerencia_servicios := Some "GERENCIA CENTRO"%string;
     equipo_comercial := Some "EC BRENA"%string;
     anio := Some 2024;
     mes := Some 12 |}.

Definition fila_ejemplo (agua : Z) : FilaConexion :=
  {| clave := clave_ejemplo;
     departamento := "LIMA";
     provincia := "LIMA";
     tarifa := "DOMESTICO";
     conexiones_agua := agua;
     conexiones_alcantarillado := 0;
     fecha_corte := Some 20241231 |}.

(** The sum is the one of the column's type: two rows of one microzone
    with 9000000000000000000 water connections each (an [Int64] value)
    are aggregated to the 64-bit value of 18000000000000000000. *)
Lemma suma_de_conexiones_en_int64 :
  let df := [fila_ejemplo 9000000000000000000; fila_ejemplo 9000000000000000000] in
  suma_conexiones_agua <$> _agrupar_por_microzona df = [int64 18000000000000000000] /\
  int64 18000000000000000000 = -446744073709551616.
Proof. split; reflexivity. Qed.



(** The aggregation of the connections cleaner keeps every key: its
    result has exactly one row for each distinct key of its input, keys
    with missing components included. *)
Theorem conexiones_una_fila_por_clave (df : list FilaConexion) :
  clave_microzona <$> _agrupar_por_microzona df ≡ₚ remove_dups (clave <$> df) /\
  NoDup (clave_microzona <$> _agrupar_por_microzona df).
Proof.
  split; [apply agrupar_una_fila_por_clave|].
  rewrite agrupar_una_fila_por_clave. apply NoDup_remove_dups.
Qed.

End ConexionesProps.

(** ** The lengths summary, the integrator and the indicators *)

Module EtlProps.
Import Pandas PandasProps Etl.

#[local] Existing Instance Longitudes.clase_eq_dec.
#[local] Existing Instance Longitudes.par_le_dec.

Section Props.
Context `{N : Num}.
Variable media : list num -> num.
Variable str_upper : string -> string.
Variable astype_int : num -> Z.
Variable suma_flotante : list num -> num.
Variable media_pivot : list num -> num.

Lemma fillna_nan (v : num) : fillna v nan = v.
Proof. unfold fillna. by rewrite is_nan_nan. Qed.

(** The keys of the lengths summary are all different. *)
Lemma resumen_claves (df : list Longitudes.FilaLongitud) :
  Longitudes.clave_microzona <$> Longitudes._construir_resumen suma_flotante media_pivot df
  = remove_dups
      ((fst ∘ fst) <$> Longitudes.celdas_pivot media_pivot
                         (Longitudes.agrupar_con_clase suma_flotante df)).
Proof.
  unfold Longitudes._construir_resumen. rewrite <- list_fmap_compose.
  rewrite <- (list_fmap_id (remove_dups _)) at 2. by apply list_fmap_ext.
Qed.

Lemma resumen_NoDup (df : list Longitudes.FilaLongitud) :
  NoDup (Longitudes.clave_microzona
           <$> Longitudes._construir_resumen suma_flotante media_pivot df).
Proof. rewrite resumen_claves. apply NoDup_remove_dups. Qed.

(** The project aggregate has one row for each distinct key of the
    project rows, missing components included. *)
Lemma proyectos_claves (df : list FilaProyecto) :
  clave_proyectos <$> _agrupar_proyectos media str_upper df
  = fst <$> groupby clave_le con_nulo clave false df.
Proof.
  unfold _agrupar_proyectos.
  rewrite (asignar_proyeccion _ _ (fun r => fst (fst r))).
  2:{ intros [[k conteo] avance] m. done. }
  rewrite <- list_fmap_compose. done.
Qed.

Lemma proyectos_una_fila_por_clave (df : list FilaProyecto) :
  clave_proyectos <$> _agrupar_proyectos media str_upper df ≡ₚ remove_dups (clave <$> df).
Proof. rewrite proyectos_claves. apply (groupby_claves clave_le con_nulo clave false). Qed.

Lemma proyectos_NoDup (df : list FilaProyecto) :
  NoDup (clave_proyectos <$> _agrupar_proyectos media str_upper df).
Proof. rewrite proyectos_una_fila_por_clave. apply NoDup_remove_dups. Qed.

(** The project aggregation of the integrator keeps every key: its
    result has exactly one row for each distinct key of the project rows,
    keys with missing components included. *)
Theorem proyectos_agrupados_una_fila_por_clave (df : list FilaProyecto) :
  clave_proyectos <$> _agrupar_proyectos media str_upper df ≡ₚ remove_dups (clave <$> df) /\
  NoDup (clave_proyectos <$> _agrupar_proyectos media str_upper df).
Proof. split; [apply proyectos_una_fila_por_clave|apply proyectos_NoDup]. Qed.

(** The rows of a key that is not in a table. *)
Lemma sin_coincidencia {A} (clave_de : A -> Clave) (l : list A) (k : Clave) :
  k ∉ clave_de <$> l -> head (filter (fun r => clave_de r = k) l) = None.
Proof.
  intros Hk. rewrite filter_vacio; [done|].
  intros x Hx E. apply Hk. rewrite <- E. by apply list_elem_of_fmap_2.
Qed.

(** C2: on any connections table, the lengths summary of any lengths
    rows and any project rows, the integrator returns one row per
    connections row, in the same order and with its key and counts; a row
    whose key is not in the lengths summary has both total lengths 0.0,
    and a row whose key has no project has the project count, the average
    progress and the missing-data flag 0. *)
Theorem enriquecer_una_fila_por_conexion
    (conexiones : list Conexiones.Conexion) (df_longitudes : list Longitudes.FilaLongitud)
    (proyectos : list FilaProyecto) :
  let longitudes := Longitudes._construir_resumen suma_flotante media_pivot df_longitudes in
  let salida := enriquecer_microzonas media str_upper conexiones longitudes proyectos in
  length salida = length conexiones /\
  forall i c, conexiones !! i = Some c ->
    exists m,
      salida !! i = Some m /\
      clave_microzona m = Conexiones.clave_microzona c /\
      conexiones_agua m = Entero (Conexiones.suma_conexiones_agua c) /\
      conexiones_alcantarillado m = Entero (Conexiones.suma_conexiones_alcantarillado c) /\
      (Conexiones.clave_microzona c ∉ Longitudes.clave_microzona <$> longitudes ->
       longitud_total_agua m = of_Z 0 /\ longitud_total_desague m = of_Z 0) /\
      (Conexiones.clave_microzona c ∉ clave <$> proyectos ->
       conteo_proyectos_activos m = Flotante (of_Z 0) /\
       avance_promedio_proyectos m = of_Z 0 /\
       faltan_datos_proyectos m = Flotante (of_Z 0)).
Proof.
  intros longitudes salida. subst salida. unfold enriquecer_microzonas.
  rewrite (merge_left_unico _ clave_proyectos)
    by apply proyectos_NoDup.
  rewrite (merge_left_unico _ Longitudes.clave_microzona)
    by apply resumen_NoDup.
  fold longitudes.
  rewrite <- !list_fmap_compose.
  split; [by rewrite !length_fmap|].
  intros i c Hc. rewrite !list_lookup_fmap, Hc. cbn [fmap option_fmap option_map compose].
  eexists. split; [reflexivity|]. cbn [clave_microzona conexiones_agua
    conexiones_alcantarillado longitud_total_agua longitud_total_desague
    conteo_proyectos_activos avance_promedio_proyectos faltan_datos_proyectos fst snd].
  split; [done|]. split; [done|]. split; [done|]. split.
  - intros Hk. rewrite (sin_coincidencia _ _ _ Hk). cbn [from_option].
    by rewrite !fillna_nan.
  - intros Hk.
    assert (Hk' : Conexiones.clave_microzona c
                  ∉ clave_proyectos <$> _agrupar_proyectos media str_upper proyectos).
    { rewrite proyectos_una_fila_por_clave. by rewrite elem_of_remove_dups. }
    rewrite (sin_coincidencia _ _ _ Hk'). cbn [fmap option_fmap option_map mbind
      option_bind from_option].
    rewrite fillna_nan.
    match goal with
    | |- context [forallb ?P ?l] => assert (E : forallb P l = false)
    end.
    { apply not_true_iff_false. rewrite forallb_forall. intros Hall.
      apply list_elem_of_lookup_2 in Hc.
      assert (Hfalso : presente (@None ProyectosAgrupados) = true); [|done].
      apply (Hall (c, head (filter (fun r => Longitudes.clave_microzona r
                                            = Conexiones.clave_microzona c) longitudes),
                   None)).
      apply list_elem_of_In, list_elem_of_fmap.
      exists c. split; [|done]. unfold compose. cbn [fst].
      by rewrite (sin_coincidencia _ _ _ Hk'). }
    rewrite E. done.
Qed.

(** *** The lengths summary and missing key components *)

(** C9, on the lengths cleaner: of two rows of the water network, one
    with a complete key and one whose key lacks the year, the grouping
    with [dropna=False] keeps both keys and the pivot then leaves out the
    one without year: the summary has a row for the complete key only,
    and on the row without year alone it has no row. *)
Lemma resumen_descarta_clave_con_nulo :
  let df := [Escenario.longitud_con_anio; Escenario.longitud_sin_anio] in
  Longitudes.clave <$> Longitudes.agrupar_con_clase suma_flotante df
    = [Escenario.clave_con_anio; Escenario.clave_sin_anio] /\
  Longitudes.clave_microzona <$> Longitudes._construir_resumen suma_flotante media_pivot df
    = [Escenario.clave_con_anio] /\
  Longitudes._construir_resumen suma_flotante media_pivot [Escenario.longitud_sin_anio] = [].
Proof. repeat split; reflexivity. Qed.

Lemma agrupado_claves (df : list Longitudes.FilaLongitud) :
  Longitudes.clave_y_clase <$> Longitudes.agrupar_con_clase suma_flotante df
  = fst <$> groupby Longitudes.par_le Longitudes.par_con_nulo
              Longitudes.clave_y_clase false df.
Proof.
  unfold Longitudes.agrupar_con_clase. rewrite <- list_fmap_compose.
  apply list_fmap_ext. by intros ? [[] ?].
Qed.

Lemma celdas_claves (agrupado : list Longitudes.FilaLongitud) :
  fst <$> Longitudes.celdas_pivot media_pivot agrupado
  = fst <$> groupby Longitudes.par_le Longitudes.par_con_nulo
              Longitudes.clave_y_clase true agrupado.
Proof.
  unfold Longitudes.celdas_pivot. rewrite <- list_fmap_compose.
  apply list_fmap_ext. done.
Qed.

(** The cells of the pivot: the pairs of a key without missing component
    and a valid class that some row has. *)
Lemma celdas_pares (df : list Longitudes.FilaLongitud) (p : Clave * option Longitudes.Clase) :
  p ∈ fst <$> Longitudes.celdas_pivot media_pivot
                (Longitudes.agrupar_con_clase suma_flotante df)
  <-> Longitudes.par_con_nulo p = false /\ p ∈ Longitudes.clave_y_clase <$> df.
Proof.
  rewrite celdas_claves.
  rewrite (groupby_claves Longitudes.par_le Longitudes.par_con_nulo
             Longitudes.clave_y_clase true).
  rewrite elem_of_remove_dups. unfold filas_agrupadas.
  rewrite list_elem_of_fmap. split.
  - intros (g & -> & Hg). apply list_elem_of_In, filter_In in Hg as [Hg Hn].
    apply list_elem_of_In in Hg. apply negb_true_iff in Hn. split; [done|].
    apply (list_elem_of_fmap_2 Longitudes.clave_y_clase) in Hg.
    rewrite agrupado_claves in Hg.
    rewrite (groupby_claves Longitudes.par_le Longitudes.par_con_nulo
               Longitudes.clave_y_clase false), elem_of_remove_dups in Hg. done.
  - intros [Hn Hp].
    assert (Hg : p ∈ Longitudes.clave_y_clase
                       <$> Longitudes.agrupar_con_clase suma_flotante df).
    { rewrite agrupado_claves.
      rewrite (groupby_claves Longitudes.par_le Longitudes.par_con_nulo
                 Longitudes.clave_y_clase false), elem_of_remove_dups. done. }
    apply list_elem_of_fmap in Hg as (g & -> & Hg). exists g. split; [done|].
    apply list_elem_of_In, filter_In. split; [by apply list_elem_of_In|].
    by apply negb_true_iff.
Qed.

(** The keys of the lengths summary: the keys without a missing
    component that have a row of a valid class. *)
Lemma resumen_claves_completas (df : list Longitudes.FilaLongitud) (k : Clave) :
  k ∈ Longitudes.clave_microzona
        <$> Longitudes._construir_resumen suma_flotante media_pivot df
  <-> con_nulo k = false /\
      exists f, f ∈ df /\ Longitudes.clave f = k /\ is_Some (Longitudes.clase f).
Proof.
  rewrite resumen_claves, elem_of_remove_dups, list_fmap_compose, list_elem_of_fmap.
  split.
  - intros ([k' c] & -> & Hp). apply celdas_pares in Hp as [Hn Hp].
    apply list_elem_of_fmap in Hp as (f & [= Ek Ec] & Hf).
    unfold Longitudes.par_con_nulo in Hn. cbn [fst snd] in Hn.
    apply orb_false_iff in Hn as [Hn1 Hn2]. split; [done|].
    exists f. split; [done|]. split; [done|]. rewrite <- Ec. by destruct c.
  - intros (Hn & f & Hf & <- & [c Ec]).
    exists (Longitudes.clave f, Some c). split; [done|].
    apply celdas_pares. split.
    + unfold Longitudes.par_con_nulo. cbn [fst snd presente]. by rewrite Hn.
    + apply list_elem_of_fmap. exists f. split; [|done].
      unfold Longitudes.clave_y_clase. by rewrite Ec.
Qed.

(** *** The indicators *)

Lemma mapM_Ok_lookup {A B} (f : A -> resultado B) (l : list A) (ys : list B) :
  mapM f l = Ok ys ->
  forall i x, l !! i = Some x -> exists y, ys !! i = Some y /\ f x = Ok y.
Proof.
  revert ys. induction l as [|x0 l IH]; intros ys; cbn [mapM].
  - intros _ i x Hi. done.
  - destruct (f x0) as [y0|e] eqn:E0; [|done]. cbn [mbind resultado_bind].
    destruct (mapM f l) as [ys0|e]; [|done]. cbn [mbind resultado_bind].
    intros [= <-] [|i] x; cbn.
    + intros [= <-]. by exists y0.
    + by apply IH.
Qed.


(** On a row with zero water connections the ratio and both densities
    are 0.0. *)
Lemma indicadores_con_agua_cero (tabla : list Microzona) (salida : list Indicadores)
    (i : nat) (f : Microzona) :
  calcular_indicadores astype_int tabla = Ok salida ->
  tabla !! i = Some f ->
  conexiones_agua f = Entero 0 ->
  exists r,
    salida !! i = Some r /\ microzona r = f /\
    ratio_conexiones_alcantarillado r = of_Z 0 /\
    densidad_red_agua r = of_Z 0 /\
    densidad_red_desague r = of_Z 0.
Proof.
  unfold calcular_indicadores. intros H Hi Hf.
  destruct (mapM ratio_fila tabla) as [ratios|e] eqn:Er; [|done].
  cbn [mbind resultado_bind] in H.
  destruct (mapM _ tabla) as [incs|e] eqn:Ei in H; [|done].
  cbn [mbind resultado_bind] in H. injection H as <-.
  destruct (mapM_Ok_lookup _ _ _ Er i f Hi) as (y & Hy & Ey).
  destruct (mapM_Ok_lookup _ _ _ Ei i f Hi) as (z & Hz & _).
  assert (y = of_Z 0) as ->.
  { revert Ey. unfold ratio_fila. rewrite Hf. cbn [py_bool Z.eqb negb mbind resultado_bind
      py_float]. rewrite nltb_cero. by intros [= <-]. }
  eexists. split.
  { apply lookup_zip_with_Some. exists f, (of_Z 0, z). split; [reflexivity|].
    split; [done|]. apply lookup_zip_with_Some. by exists (of_Z 0), z. }
  cbn [microzona ratio_conexiones_alcantarillado densidad_red_agua densidad_red_desague fst].
  split; [done|]. split; [done|]. rewrite Hf. unfold densidad. cbn [reemplazar_cero Z.eqb].
  by rewrite fillna_nan.
Qed.

End Props.

(** Witness: the row of [Escenario.microzona_agua_cero] in binary64. *)
Lemma indicadores_con_agua_cero_testigo :
  let f := Escenario.microzona_agua_cero (N := B64) in
  let salida :=
    match calcular_indicadores (N := B64) b64_truncar [f] with
    | Ok s => s
    | Raise _ => []
    end in
  calcular_indicadores (N := B64) b64_truncar [f] = Ok salida /\
  exists r,
    salida !! 0%nat = Some r /\ microzona r = f /\
    ratio_conexiones_alcantarillado r = of_Z 0 /\
    densidad_red_agua r = of_Z 0 /\
    densidad_red_desague r = of_Z 0.
Proof.
  intros f salida. split; [reflexivity|].
  apply (indicadores_con_agua_cero (N := B64) b64_truncar [f] salida 0%nat f);
    reflexivity.
Defined.

End EtlProps.

(** ** The stage functions leave their argument unchanged *)

Module MarcoProps.
Import Marco.

Section Logica.
Variable valor : Type.

(** [conserva t v m Q]: run from a store where [t] denotes the table [v],
    the computation [m] ends (with a result or an exception) in a store
    where [t] still denotes [v], and a result satisfies [Q]. *)
Definition conserva {A} (t : ref) (v : DataFrame valor) (m : M valor A) (Q : A -> Prop)
    : Prop :=
  forall s, s !! t = Some v ->
    snd (m s) !! t = Some v /\ forall a, fst (m s) = Ok a -> Q a.

Variable t : ref.
Variable v : DataFrame valor.

Lemma conserva_ret {A} (a : A) (Q : A -> Prop) : Q a -> conserva t v (mret a) Q.
Proof. intros Ha s Hs. split; [done|]. by intros a' [= <-]. Qed.

Lemma conserva_lanzar {A} (e : excepcion) (Q : A -> Prop) : conserva t v (lanzar valor e) Q.
Proof. intros s Hs. split; [done|]. done. Qed.

Lemma conserva_bind {A B} (m : M valor A) (k : A -> M valor B)
    (Q : A -> Prop) (Q' : B -> Prop) :
  conserva t v m Q -> (forall a, Q a -> conserva t v (k a) Q') ->
  conserva t v (m ≫= k) Q'.
Proof.
  intros Hm Hk s Hs. unfold mbind, M_bind, ligar.
  destruct (Hm s Hs) as [Hs' Ha]. destruct (m s) as [[a|e] s']; cbn [fst snd] in *.
  - apply (Hk a); [by apply Ha|done].
  - split; [done|]. done.
Qed.

Lemma conserva_debil {A} (m : M valor A) (Q Q' : A -> Prop) :
  conserva t v m Q -> (forall a, Q a -> Q' a) -> conserva t v m Q'.
Proof. intros Hm HQ s Hs. destruct (Hm s Hs) as [? Ha]. split; [done|]. eauto. Qed.

Lemma conserva_leer (r : ref) : conserva t v (leer valor r) (fun _ => True).
Proof. intros s Hs. unfold leer. destruct (s !! r); done. Qed.

(** A new object is not the object [t]. *)
Lemma conserva_nuevo (df : DataFrame valor) : conserva t v (nuevo valor df) (fun r => r <> t).
Proof.
  intros s Hs. unfold nuevo. cbv zeta. cbn [fst snd].
  assert (Hr : fresh (dom s) <> t).
  { intros E. unfold almacen, ref in *. apply elem_of_dom_2 in Hs.
    rewrite <- E in Hs. exact (is_fresh _ Hs). }
  unfold almacen, ref in *. split.
  - by rewrite lookup_insert_ne.
  - by intros a [= <-].
Qed.

Lemma conserva_copy (r : ref) : conserva t v (copy valor r) (fun r' => r' <> t).
Proof.
  unfold copy. eapply conserva_bind; [apply conserva_leer|].
  intros df _. apply conserva_nuevo.
Qed.

(** An update in place of another object. *)
Lemma conserva_modificar (r : ref) (f : DataFrame valor -> DataFrame valor) :
  r <> t -> conserva t v (modificar valor r f) (fun _ => True).
Proof.
  intros Hr s Hs. unfold modificar. destruct (s !! r); cbn [fst snd]; [|done].
  unfold almacen, ref in *. split; [|done]. by rewrite lookup_insert_ne.
Qed.

Lemma conserva_setitem (r : ref) (columna : string) (serie : Serie valor) :
  r <> t -> conserva t v (setitem valor r columna serie) (fun _ => True).
Proof. apply conserva_modificar. Qed.

Lemma conserva_renombrar (r : ref) (f : string -> string) :
  r <> t -> conserva t v (renombrar valor r f) (fun _ => True).
Proof. apply conserva_modificar. Qed.

Lemma conserva_getitem (r : ref) (columna : string) :
  conserva t v (getitem valor r columna) (fun _ => True).
Proof.
  unfold getitem. eapply conserva_bind; [apply conserva_leer|].
  intros df _. destruct (List.find _ df); [by apply conserva_ret|apply conserva_lanzar].
Qed.

Lemma conserva_contiene (r : ref) (columna : string) :
  conserva t v (contiene valor r columna) (fun _ => True).
Proof.
  unfold contiene. eapply conserva_bind; [apply conserva_leer|].
  intros df _. by apply conserva_ret.
Qed.

Lemma conserva_para_cada {A} (l : list A) (cuerpo : A -> M valor unit) :
  (forall x, conserva t v (cuerpo x) (fun _ => True)) ->
  conserva t v (para_cada valor l cuerpo) (fun _ => True).
Proof.
  intros Hc. induction l as [|x l IH]; cbn [para_cada].
  - by apply conserva_ret.
  - eapply conserva_bind; [apply Hc|]. intros _ _. apply IH.
Qed.

Lemma conserva_transformar (r : ref) (columna : string) (f : Serie valor -> Serie valor) :
  r <> t -> conserva t v (transformar valor r columna f) (fun _ => True).
Proof.
  intros Hr. unfold transformar. eapply conserva_bind; [apply conserva_getitem|].
  intros serie _. by apply conserva_setitem.
Qed.

Lemma conserva_transformar_presentes (r : ref) (columnas : list string)
    (f : Serie valor -> Serie valor) :
  r <> t -> conserva t v (transformar_presentes valor r columnas f) (fun _ => True).
Proof.
  intros Hr. apply conserva_para_cada. intros columna.
  eapply conserva_bind; [apply conserva_contiene|].
  intros [] _; [by apply conserva_transformar|by apply conserva_ret].
Qed.

Lemma conserva_validar_columnas (r : ref) (obligatorias : list string) :
  conserva t v (validar_columnas valor r obligatorias) (fun _ => True).
Proof.
  unfold validar_columnas. eapply conserva_bind; [apply conserva_leer|].
  intros df _. destruct (forallb _ _); [by apply conserva_ret|apply conserva_lanzar].
Qed.

Lemma conserva_calcular {A} (r : ref) (f : DataFrame valor -> resultado A) :
  conserva t v (calcular valor r f) (fun _ => True).
Proof.
  unfold calcular. eapply conserva_bind; [apply conserva_leer|].
  intros df _. destruct (f df); [by apply conserva_ret|apply conserva_lanzar].
Qed.

End Logica.

(** The next instruction satisfies the rule [L]. *)
Ltac seguir L := eapply conserva_bind; [apply L; try done|intros ? ?].

Section Etapas.
Variable valor : Type.
Variable calculos : Calculos valor.
Variable t : ref.
Variable v : DataFrame valor.

#[local] Abbreviation conserva_unidad m := (conserva valor t v m (fun _ : unit => True)).
#[local] Abbreviation conserva_nueva m := (conserva valor t v m (fun r : ref => r <> t)).

Lemma conserva_hecho : conserva_unidad (mret ()).
Proof. by apply conserva_ret. Qed.

Lemma conserva_si_presente (r : ref) (columna : string) (m : M valor unit) :
  conserva_unidad m ->
  conserva_unidad
    (presente ← contiene valor r columna; if presente : bool then m else mret ()).
Proof.
  intros Hm. seguir conserva_contiene. destruct a; [done|apply conserva_hecho].
Qed.

Lemma conserva_si_ausente (r : ref) (columna : string) (m : M valor unit) :
  conserva_unidad m ->
  conserva_unidad
    (presente ← contiene valor r columna; if presente : bool then mret () else m).
Proof.
  intros Hm. seguir conserva_contiene. destruct a; [apply conserva_hecho|done].
Qed.

Lemma conserva_columna_nula (r : ref) (columna : string) :
  r <> t ->
  conserva_unidad
    (tabla ← leer valor r; setitem valor r columna (columna_nula valor calculos tabla)).
Proof. intros Hr. seguir conserva_leer. by apply conserva_setitem. Qed.

Lemma conserva_normalizar_cadenas (r : ref) (columnas : list string) (b : bool) :
  r <> t -> conserva_unidad (_normalizar_cadenas valor calculos r columnas b).
Proof. apply conserva_transformar_presentes. Qed.

Lemma conserva_normalizar_tarifa (r : ref) :
  r <> t -> conserva_unidad (_normalizar_tarifa valor calculos r).
Proof. intros Hr. apply conserva_si_presente. by apply conserva_transformar. Qed.

Lemma conserva_sanear_ubigeo (r : ref) :
  r <> t -> conserva_unidad (_sanear_ubigeo valor calculos r).
Proof. apply conserva_transformar. Qed.

Lemma conserva_normalizar_valores_enteros (r : ref) (columnas : list string) :
  r <> t -> conserva_unidad (_normalizar_valores_enteros valor calculos r columnas).
Proof. apply conserva_transformar_presentes. Qed.

Lemma conserva_parsear_fecha_corte (r : ref) :
  r <> t -> conserva_unidad (_parsear_fecha_corte valor calculos r).
Proof. apply conserva_transformar. Qed.

Lemma conserva_componentes_temporales (r : ref) :
  r <> t -> conserva_unidad (_normalizar_componentes_temporales valor calculos r).
Proof.
  intros Hr. unfold _normalizar_componentes_temporales.
  eapply conserva_bind.
  { apply conserva_para_cada. intros columna.
    apply conserva_si_ausente. by apply conserva_columna_nula. }
  intros _ _.
  seguir conserva_getitem. seguir conserva_getitem. seguir conserva_getitem.
  seguir conserva_setitem. seguir conserva_getitem. by apply conserva_setitem.
Qed.

Lemma conserva_agrupar_por_microzona (r : ref) :
  conserva_nueva (_agrupar_por_microzona valor calculos r).
Proof. unfold _agrupar_por_microzona. seguir conserva_leer. apply conserva_nuevo. Qed.

(** [limpiar_conexiones] works on a copy and returns a new table. *)
Lemma conserva_limpiar_conexiones (tabla : ref) :
  conserva_nueva (limpiar_conexiones valor calculos tabla).
Proof.
  unfold limpiar_conexiones.
  seguir conserva_copy.
  seguir conserva_renombrar.
  seguir conserva_validar_columnas.
  seguir conserva_normalizar_cadenas.
  seguir conserva_normalizar_cadenas.
  seguir conserva_normalizar_tarifa.
  seguir conserva_sanear_ubigeo.
  seguir conserva_normalizar_valores_enteros.
  seguir conserva_parsear_fecha_corte.
  seguir conserva_componentes_temporales.
  apply conserva_agrupar_por_microzona.
Qed.

Lemma conserva_normalizar_distritos (r : ref) :
  r <> t -> conserva_nueva (_normalizar_distritos valor calculos r).
Proof.
  intros Hr. unfold _normalizar_distritos. seguir conserva_contiene.
  destruct a; [|by apply conserva_ret].
  seguir conserva_transformar. seguir conserva_transformar.
  seguir conserva_leer. seguir conserva_nuevo. seguir conserva_leer.
  seguir conserva_nuevo. seguir conserva_transformar. seguir conserva_modificar.
  by apply conserva_ret.
Qed.

Lemma conserva_normalizar_columna (r : ref) (columna : string)
    (f : Serie valor -> Serie valor) :
  r <> t -> conserva_unidad (_normalizar_columna valor r columna f).
Proof. intros Hr. apply conserva_si_presente. by apply conserva_transformar. Qed.

Lemma conserva_normalizar_etapas (r : ref) :
  r <> t -> conserva_unidad (_normalizar_etapas valor calculos r).
Proof.
  intros Hr. apply conserva_si_presente.
  seguir conserva_transformar. by apply conserva_transformar.
Qed.

(** [limpiar_proyectos] works on a copy and on the tables built from it. *)
Lemma conserva_limpiar_proyectos (tabla : ref) :
  conserva_nueva (limpiar_proyectos valor calculos tabla).
Proof.
  unfold limpiar_proyectos.
  seguir conserva_copy.
  seguir conserva_renombrar.
  eapply conserva_bind.
  { apply conserva_para_cada. intros columna.
    apply conserva_si_ausente. by apply conserva_columna_nula. }
  intros _ _.
  seguir conserva_validar_columnas.
  eapply conserva_bind; [by apply conserva_transformar_presentes|intros _ _].
  seguir conserva_normalizar_distritos.
  seguir conserva_sanear_ubigeo.
  seguir conserva_normalizar_columna.
  seguir conserva_normalizar_columna.
  seguir conserva_normalizar_etapas.
  seguir conserva_normalizar_columna.
  seguir conserva_normalizar_columna.
  eapply conserva_bind; [by apply conserva_transformar_presentes|intros _ _].
  seguir conserva_componentes_temporales.
  seguir conserva_leer. apply conserva_nuevo.
Qed.

(** [calcular_indicadores] works on a copy, which it returns. *)
Lemma conserva_calcular_indicadores (tabla : ref) :
  conserva_nueva (calcular_indicadores valor calculos tabla).
Proof.
  unfold calcular_indicadores.
  seguir conserva_copy.
  seguir conserva_calcular. seguir conserva_setitem.
  eapply conserva_bind.
  { apply conserva_para_cada. intros clase.
    seguir conserva_calcular. seguir conserva_setitem. by apply conserva_transformar. }
  intros _ _.
  seguir conserva_leer. seguir conserva_setitem. seguir conserva_getitem.
  seguir conserva_calcular. seguir conserva_setitem. seguir conserva_calcular.
  seguir conserva_setitem. by apply conserva_ret.
Qed.

(** [anotar_indicadores] works on a copy, which it returns, on an empty
    table too. *)
Lemma conserva_anotar_indicadores (tabla : ref) :
  conserva_nueva (anotar_indicadores valor calculos tabla).
Proof.
  unfold anotar_indicadores. seguir conserva_leer.
  destruct (esta_vacia valor calculos a).
  - seguir conserva_copy. seguir conserva_setitem. seguir conserva_setitem.
    seguir conserva_setitem. by apply conserva_ret.
  - seguir conserva_copy. seguir conserva_calcular. seguir conserva_setitem.
    seguir conserva_getitem. seguir conserva_setitem. seguir conserva_leer.
    seguir conserva_setitem. by apply conserva_ret.
Qed.

(** C10: whatever the store, the table that the caller passes to
    [limpiar_conexiones], [limpiar_proyectos], [calcular_indicadores] or
    [anotar_indicadores] has the same columns and values after the call,
    whether it returns or raises; the table returned is another object. *)
Theorem etapas_no_modifican_su_argumento (s : almacen valor) :
  s !! t = Some v ->
  Forall
    (fun etapa : ref -> M valor ref =>
       snd (etapa t s) !! t = Some v /\ forall r, fst (etapa t s) = Ok r -> r <> t)
    [limpiar_conexiones valor calculos; limpiar_proyectos valor calculos;
     calcular_indicadores valor calculos; anotar_indicadores valor calculos].
Proof.
  intros Hs. repeat apply Forall_cons_2; [..|apply Forall_nil_2].
  - exact (conserva_limpiar_conexiones t s Hs).
  - exact (conserva_limpiar_proyectos t s Hs).
  - exact (conserva_calcular_indicadores t s Hs).
  - exact (conserva_anotar_indicadores t s Hs).
Qed.

End Etapas.

(** C10, witness: a store with one table of numbers. *)
Lemma etapas_no_modifican_su_argumento_testigo :
  let s : gmap nat (DataFrame Z) := {[ 0%nat := tabla_de_prueba ]} in
  s !! 0%nat = Some tabla_de_prueba /\
  Forall
    (fun etapa : ref -> M Z ref =>
       snd (etapa 0%nat s) !! 0%nat = Some tabla_de_prueba /\
       forall r, fst (etapa 0%nat s) = Ok r -> r <> 0%nat)
    [limpiar_conexiones Z calculos_identidad; limpiar_proyectos Z calculos_identidad;
     calcular_indicadores Z calculos_identidad; anotar_indicadores Z calculos_identidad].
Proof.
  intros s. split; [reflexivity|].
  apply (etapas_no_modifican_su_argumento Z calculos_identidad 0%nat tabla_de_prueba s).
  reflexivity.
Defined.

End MarcoProps.

(** ** Ranges kept by the constructor of the criteria *)

Module RangosProps.
Import Criterios.

Section Props.
Context `{N : Num} {O : Orden N}.

Lemma cero_le_uno : nleb (of_Z 0) (of_Z 1) = true.
Proof. apply nltb_nleb, cero_menor_uno. Qed.

(** [max(min(x, 1.0), 0.0)] of a number is a number of [0,1]. *)
Lemma recorte_unidad (x : num) :
  is_nan x = false ->
  let v := py_max (py_min x (of_Z 1)) (of_Z 0) in
  is_nan v = false /\ nleb (of_Z 0) v = true /\ nleb v (of_Z 1) = true.
Proof.
  intros Hx v. subst v. unfold py_min, py_max.
  destruct (nltb (of_Z 1) x) eqn:E1.
  - rewrite (nleb_no_mayor _ _ cero_le_uno).
    split; [apply uno_numero|]. split; [apply cero_le_uno|]. apply nleb_refl, uno_numero.
  - pose proof (nleb_total _ _ uno_numero Hx E1) as Hx1.
    destruct (nltb x (of_Z 0)) eqn:E0.
    + split; [apply cero_numero|]. split; [apply nleb_refl, cero_numero|apply cero_le_uno].
    + split; [done|]. split; [|done]. by apply nleb_total; [|apply cero_numero|].
Qed.

(** Criteria built by the constructor from two thresholds and a reference
    that are numbers: the stored thresholds are in [0,1], the alert
    threshold is not above the critical one, and the stored reference is
    at least 1.0.  This holds in binary64 as in exact arithmetic: only
    comparisons are involved. *)
Theorem criterios_construidos_en_rango (c0 : CriteriosCriticidad) :
  is_nan (umbral_categoria_alerta c0) = false ->
  is_nan (umbral_categoria_critica c0) = false ->
  is_nan (percentil_conexiones_critico c0) = false ->
  let c := post_init c0 in
  nleb (of_Z 0) (umbral_categoria_alerta c) = true /\
  nleb (umbral_categoria_alerta c) (umbral_categoria_critica c) = true /\
  nleb (umbral_categoria_critica c) (of_Z 1) = true /\
  nleb (of_Z 1) (percentil_conexiones_critico c) = true.
Proof.
  intros Ha Hc Hp c. subst c. unfold post_init.
  cbn [umbral_categoria_alerta umbral_categoria_critica percentil_conexiones_critico].
  destruct (recorte_unidad _ Ha) as (Na & A0 & A1).
  destruct (recorte_unidad _ Hc) as (Nc & C0 & C1).
  cbv zeta in Na, A0, A1, Nc, C0, C1.
  set (a := py_max (py_min (umbral_categoria_alerta c0) (of_Z 1)) (of_Z 0)) in *.
  set (k := py_max (py_min (umbral_categoria_critica c0) (of_Z 1)) (of_Z 0)) in *.
  assert (Hper : nleb (of_Z 1) (py_max (percentil_conexiones_critico c0) (of_Z 1)) = true).
  { unfold py_max. destruct (nltb _ _) eqn:E.
    - apply nleb_refl, uno_numero.
    - by apply nleb_total; [|apply uno_numero|]. }
  destruct (nltb k a) eqn:E; cbn [fst snd].
  - split; [done|]. split; [by apply nltb_nleb|]. done.
  - split; [done|]. split; [by apply nleb_total|]. done.
Qed.

End Props.

(** Witness: the field defaults, in binary64. *)
Lemma criterios_construidos_en_rango_testigo :
  let c := post_init (N := B64) campos_por_defecto in
  nleb (of_Z 0) (umbral_categoria_alerta c) = true /\
  nleb (umbral_categoria_alerta c) (umbral_categoria_critica c) = true /\
  nleb (umbral_categoria_critica c) (of_Z 1) = true /\
  nleb (of_Z 1) (percentil_conexiones_critico c) = true.
Proof.
  apply (criterios_construidos_en_rango (N := B64) campos_por_defecto); reflexivity.
Defined.

End RangosProps.

(** ** More on the criticality annotator *)

Module AnotadorProps.
Import Criterios Analitica Escenario CriteriosProps AnaliticaProps.

Section Props.
Context `{N : Num}.
Variable quantile : list num -> num -> num.
Variable median : list num -> num.
Variable maximo : list num -> num.

Lemma reindexar_length (n : nat) (s : list num) : length (reindexar n s) = n.
Proof. revert s. induction n as [|n IH]; intros [|x s]; cbn; by rewrite ?IH. Qed.

Lemma fila_base_zip_with {A} (g : Fila -> A -> FilaAnotada) (fs : list Fila) (vs : list A) :
  (forall f v, fila_base (g f v) = f) ->
  length vs = length fs ->
  fila_base <$> zip_with g fs vs = fs.
Proof.
  intros Hg. revert vs. induction fs as [|f fs IH]; intros [|v vs]; cbn; try done.
  intros [= Hl]. by rewrite Hg, IH.
Qed.

Lemma anotar_filas_base (microzonas : DataFrame) (criterios : ObjetoCriterios)
    (salida : list FilaAnotada) :
  anotar_indicadores quantile median maximo microzonas criterios = Ok salida ->
  fila_base <$> salida = filas microzonas /\
  (forall fa, fa ∈ salida ->
     advertencias_datos fa = generar_advertencias (columnas microzonas) (fila_base fa)).
Proof.
  unfold anotar_indicadores. destruct (filas microzonas) as [|f0 fs] eqn:Ef.
  { intros [= <-]. split; [done|]. by intros fa ?%elem_of_nil. }
  rewrite <- Ef. clear Ef f0 fs.
  destruct (pesos criterios) as [ps|e]; [|done].
  cbn [mbind resultado_bind]. destruct (umbrales criterios) as [ua uc].
  intros [= <-]. split.
  - apply fila_base_zip_with; [done|]. apply reindexar_length.
  - intros fa Hfa. apply list_elem_of_lookup in Hfa as [i Hi].
    apply lookup_zip_with_Some in Hi as (f & v & -> & _ & _). done.
Qed.

(** The annotator never drops, adds or reorders rows: when it returns,
    its result has the rows of its input, in order, each with the three
    new columns; the warnings of a row depend on that row only. *)
Theorem anotar_conserva_las_filas (microzonas : DataFrame) (criterios : ObjetoCriterios)
    (salida : list FilaAnotada) :
  anotar_indicadores quantile median maximo microzonas criterios = Ok salida ->
  fila_base <$> salida = filas microzonas /\
  (forall fa, fa ∈ salida ->
     advertencias_datos fa = generar_advertencias (columnas microzonas) (fila_base fa)).
Proof. apply anotar_filas_base. Qed.

(** The sum of the two weights that the annotator reads. *)
Definition suma_pesos (criterios : ObjetoCriterios) : num :=
  nadd (getattr (attr_peso_ratio criterios) (lit 6 10))
       (getattr (attr_peso_conexiones criterios) (lit 4 10)).

(** The only exception of the annotator is [ZeroDivisionError], and it
    is raised exactly on a table with rows and a criteria object whose
    weights have a sum that is a number, differs from 1 and equals 0. *)
Theorem anotar_lanza_solo_division_por_cero (microzonas : DataFrame)
    (criterios : ObjetoCriterios) (e : excepcion) :
  anotar_indicadores quantile median maximo microzonas criterios = Raise e <->
  filas microzonas <> [] /\ e = ZeroDivisionError /\
  notna (suma_pesos criterios) = true /\
  neqb (suma_pesos criterios) (of_Z 1) = false /\
  neqb (suma_pesos criterios) (of_Z 0) = true.
Proof.
  unfold anotar_indicadores, suma_pesos.
  destruct (filas microzonas) as [|f0 fs] eqn:Ef.
  { split; [done|]. by intros [? _]. }
  unfold pesos, py_div.
  set (s := nadd _ _).
  destruct (notna s) eqn:En; cbn [andb].
  2:{ cbn [mbind resultado_bind mret resultado_ret]. destruct (umbrales criterios).
      split; [done|]. by intros (_ & _ & ? & _). }
  destruct (neqb s (of_Z 1)) eqn:E1; cbn [negb].
  { cbn [mbind resultado_bind mret resultado_ret]. destruct (umbrales criterios).
    split; [done|]. by intros (_ & _ & _ & ? & _). }
  destruct (neqb s (of_Z 0)) eqn:E0; cbn [mbind resultado_bind mret resultado_ret].
  - split; [by intros [= <-]|]. by intros (_ & -> & _).
  - destruct (umbrales criterios). split; [done|]. by intros (_ & _ & _ & _ & ?).
Qed.

End Props.

(** A table without the ratio column or without the water connections
    column has no row with both sub-scores. *)
Lemma indice_sin_columna `{N : Num} (quantile : list num -> num -> num)
    (median maximo : list num -> num) (microzonas : DataFrame)
    (criterios : ObjetoCriterios) (ps : num * num) (i : nat) (v : num) :
  tiene_ratio (columnas microzonas) = false \/
  tiene_conexiones (columnas microzonas) = false ->
  reindexar (length (filas microzonas))
    (indice quantile median maximo microzonas criterios ps) !! i = Some v ->
  v = round_dec 3 nan \/ v = nan.
Proof.
  intros Hcol Hv. apply reindexar_lookup in Hv as [Hv|Hv]; [|by right].
  apply indice_lookup in Hv as [(r & c & Hr & Hc & _)|Hv]; [|by left].
  exfalso. destruct Hcol as [E|E].
  - unfold serie_ratio_normalizada in Hr. by rewrite E in Hr.
  - unfold serie_cobertura in Hc. by rewrite E in Hc.
Qed.

(** In binary64: when the table lacks the ratio column or the water
    connections column, every row of the result has a null index and the
    category SIN_DATOS (the Series of the absent column is empty, and the
    sum of the two terms is aligned on the rows of the other). *)
Theorem columna_ausente_sin_datos
    (quantile : list float -> float -> float) (median maximo : list float -> float)
    (microzonas : DataFrame (N := B64)) (criterios : ObjetoCriterios (N := B64))
    (salida : list (FilaAnotada (N := B64))) :
  tiene_ratio (columnas microzonas) = false \/
  tiene_conexiones (columnas microzonas) = false ->
  anotar_indicadores (N := B64) quantile median maximo microzonas criterios = Ok salida ->
  length salida = length (filas microzonas) /\
  Forall (fun fa => is_nan (indice_critico fa) = true /\
                    categoria_microzona fa = "SIN_DATOS"%string) salida.
Proof.
  intros Hcol H. split.
  { apply anotar_filas_base in H as [E _]. by rewrite <- E, length_fmap. }
  apply Forall_lookup. intros i fa Hi.
  assert (Hn : is_nan (indice_critico fa) = true).
  { destruct (anotar_fila _ _ _ _ _ _ _ _ H Hi) as (ps & _ & Hv & _).
    apply (indice_sin_columna _ _ _ _ _ _ _ _ Hcol) in Hv as [-> | ->]; reflexivity. }
  split; [done|].
  by apply (categoria_sin_datos_sii_indice_nulo _ _ _ _ _ _ _ _ H Hi).
Qed.

(** Witness: the scenario row in a table without the ratio column. *)
Lemma columna_ausente_sin_datos_testigo :
  let tabla : DataFrame (N := B64) :=
    {| columnas :=
         {| tiene_ratio := false; tiene_conexiones := true; tiene_longitud_agua := true;
            tiene_longitud_desague := true; tiene_conteo := true |};
       filas := [fila_escenario] |} in
  let salida :=
    match anotar_indicadores (N := B64) cuantil_unico unico unico tabla
            (de_criterios criterios_por_defecto) with
    | Ok s => s
    | Raise _ => []
    end in
  length salida = 1%nat /\
  Forall (fun fa => is_nan (indice_critico fa) = true /\
                    categoria_microzona fa = "SIN_DATOS"%string) salida.
Proof.
  intros tabla salida.
  apply (columna_ausente_sin_datos (cuantil_unico (N := B64)) (unico (N := B64))
           (unico (N := B64)) tabla
           (de_criterios criterios_por_defecto) salida); [by left|reflexivity].
Defined.

(** Witness of [anotar_conserva_las_filas]: the scenario table. *)
Lemma anotar_conserva_las_filas_testigo :
  let salida :=
    match anotar_indicadores (N := B64) cuantil_unico unico unico tabla_escenario
            (de_criterios criterios_por_defecto) with
    | Ok s => s
    | Raise _ => []
    end in
  fila_base <$> salida = [fila_escenario] /\
  (forall fa, fa ∈ salida ->
     advertencias_datos fa = generar_advertencias todas_las_columnas (fila_base fa)).
Proof.
  intros salida.
  apply (anotar_conserva_las_filas (N := B64) cuantil_unico unico unico tabla_escenario
           (de_criterios criterios_por_defecto) salida).
  reflexivity.
Defined.

(** With the default criteria, which the service uses, the annotator
    returns on every table, in binary64; and in exact arithmetic it
    returns on every table for all criteria built by the constructor
    (their weights sum to 1 or are NaN). *)
Theorem anotar_con_criterios_construidos_no_lanza :
  (forall (quantile : list float -> float -> float) (median maximo : list float -> float)
          (microzonas : DataFrame (N := B64)),
      exists salida,
        anotar_indicadores (N := B64) quantile median maximo microzonas
          (de_criterios criterios_por_defecto) = Ok salida /\
        length salida = length (filas microzonas)) /\
  (forall (quantile : list exacto -> exacto -> exacto) (median maximo : list exacto -> exacto)
          (microzonas : DataFrame (N := Exacto)) (c0 : CriteriosCriticidad (N := Exacto)),
      exists salida,
        anotar_indicadores (N := Exacto) quantile median maximo microzonas
          (de_criterios (post_init c0)) = Ok salida /\
        length salida = length (filas microzonas)).
Proof.
  split.
  - intros quantile median maximo microzonas.
    destruct (anotar_indicadores (N := B64) quantile median maximo microzonas
                (de_criterios criterios_por_defecto)) as [salida|e] eqn:E.
    + exists salida. split; [done|].
      apply anotar_filas_base in E as [E _]. by rewrite <- E, length_fmap.
    + exfalso. unfold anotar_indicadores in E.
      destruct (filas microzonas) as [|f0 fs]; [done|].
      change (pesos (N := B64) (de_criterios criterios_por_defecto))
        with (Ok (@lit B64 6 10, @lit B64 4 10)) in E.
      cbn [mbind resultado_bind mret resultado_ret] in E.
      destruct (umbrales _); done.
  - intros quantile median maximo microzonas c0.
    destruct (anotar_indicadores (N := Exacto) quantile median maximo microzonas
                (de_criterios (post_init c0))) as [salida|e] eqn:E.
    + exists salida. split; [done|].
      apply anotar_filas_base in E as [E _]. by rewrite <- E, length_fmap.
    + exfalso. unfold anotar_indicadores in E.
      destruct (filas microzonas) as [|f0 fs]; [done|].
      destruct (pesos_construidos c0) as [Hp|(x & y & Hp & _)]; rewrite Hp in E;
        cbn [mbind resultado_bind mret resultado_ret] in E;
        destruct (umbrales _); done.
Qed.

Section Umbrales.
Context `{N : Num} {O : Orden N}.
Variable quantile : list num -> num -> num.
Variable median : list num -> num.
Variable maximo : list num -> num.

Lemma no_menor_o_igual (x y : num) :
  is_nan x = false -> is_nan y = false ->
  nleb x y = false <-> nltb y x = true.
Proof.
  intros Hx Hy. split.
  - intros H. destruct (nltb y x) eqn:E; [done|].
    by rewrite (nleb_total _ _ Hy Hx E) in H.
  - intros H. destruct (nleb x y) eqn:E; [|done].
    by rewrite (nleb_no_mayor _ _ E) in H.
Qed.

(** The category of a row with an index, for thresholds that are numbers:
    the two thresholds are used in increasing order, whichever way the
    criteria give them; the row is CRITICA from the larger one on,
    VIGILANCIA from the smaller one up to the larger one, and ESTABLE
    below the smaller one. *)
Theorem categoria_por_umbrales (microzonas : DataFrame) (criterios : ObjetoCriterios)
    (salida : list FilaAnotada) (i : nat) (fa : FilaAnotada) :
  is_nan (getattr (attr_umbral_categoria_alerta criterios) (lit 3 10)) = false ->
  is_nan (getattr (attr_umbral_categoria_critica criterios) (lit 6 10)) = false ->
  anotar_indicadores quantile median maximo microzonas criterios = Ok salida ->
  salida !! i = Some fa ->
  is_nan (indice_critico fa) = false ->
  exists menor mayor,
    umbrales criterios = (menor, mayor) /\
    nleb menor mayor = true /\
    (categoria_microzona fa = "CRITICA"%string <-> nleb mayor (indice_critico fa) = true) /\
    (categoria_microzona fa = "VIGILANCIA"%string <->
       nleb menor (indice_critico fa) = true /\ nltb (indice_critico fa) mayor = true) /\
    (categoria_microzona fa = "ESTABLE"%string <-> nltb (indice_critico fa) menor = true).
Proof.
  intros Ha Hc H Hi Hn.
  destruct (anotar_fila _ _ _ _ _ _ _ _ H Hi) as (ps & _ & _ & ->).
  set (v := indice_critico fa) in *.
  assert (Hu : exists menor mayor,
             umbrales criterios = (menor, mayor) /\ nleb menor mayor = true /\
             is_nan menor = false /\ is_nan mayor = false).
  { unfold umbrales. destruct (nltb _ _) eqn:E; eexists _, _; split; try reflexivity.
    - split; [by apply nltb_nleb|done].
    - split; [by apply nleb_total|done]. }
  destruct Hu as (menor & mayor & -> & Hle & Hm & HM). exists menor, mayor.
  split; [done|]. split; [done|]. cbn [fst snd].
  unfold clasificar_microzona. rewrite Hn.
  destruct (nleb mayor v) eqn:E1.
  { split; [done|]. split.
    - split; [done|]. intros [_ Hlt]. by rewrite (nleb_no_mayor _ _ E1) in Hlt.
    - split; [done|]. intros Hlt.
      pose proof (nleb_trans _ _ _ Hle E1) as Hmv.
      by rewrite (nleb_no_mayor _ _ Hmv) in Hlt. }
  apply (no_menor_o_igual _ _ HM Hn) in E1.
  destruct (nleb menor v) eqn:E2.
  { split; [done|]. split; [done|]. split; [done|].
    intros Hlt. by rewrite (nleb_no_mayor _ _ E2) in Hlt. }
  apply (no_menor_o_igual _ _ Hm Hn) in E2.
  split; [done|]. split; [|done]. split; [done|]. by intros [? _].
Qed.

End Umbrales.

(** Witness: the scenario row in binary64, index 0.614 and thresholds 0.3
    and 0.6. *)
Lemma categoria_por_umbrales_testigo :
  let fa : FilaAnotada (N := B64) :=
    {| fila_base := fila_escenario;
       indice_critico := lit 614 1000;
       categoria_microzona := "CRITICA";
       advertencias_datos :=
         ["Sin longitud de red de agua reportada.";
          "Sin longitud de red de desagüe reportada.";
          "Sin proyectos activos registrados para la microzona."] |} in
  exists menor mayor,
    umbrales (N := B64) (de_criterios criterios_por_defecto) = (menor, mayor) /\
    nleb menor mayor = true /\
    (categoria_microzona fa = "CRITICA"%string <-> nleb mayor (indice_critico fa) = true) /\
    (categoria_microzona fa = "VIGILANCIA"%string <->
       nleb menor (indice_critico fa) = true /\ nltb (indice_critico fa) mayor = true) /\
    (categoria_microzona fa = "ESTABLE"%string <-> nltb (indice_critico fa) menor = true).
Proof.
  intros fa.
  apply (categoria_por_umbrales (N := B64) cuantil_unico unico unico tabla_escenario
           (de_criterios criterios_por_defecto) [fa] 0%nat fa); reflexivity.
Defined.

End AnotadorProps.

(** ** The service functions of the API *)

Module ServicioProps.
Import Servicio.

(** *** Slices and pages *)

(** A slice with bounds that are not negative. *)
Lemma py_slice_take_drop {A} (l : list A) (inicio cuantos : Z) :
  0 <= inicio -> 0 <= cuantos ->
  py_slice l inicio (inicio + cuantos) = take (Z.to_nat cuantos) (drop (Z.to_nat inicio) l).
Proof.
  intros Hi Hc. unfold py_slice.
  destruct (inicio <? 0) eqn:E1; [lia|]. destruct (inicio + cuantos <? 0) eqn:E2; [lia|].
  destruct (Z_lt_le_dec inicio (Z.of_nat (length l))) as [Hlt|Hge].
  - rewrite (Z.min_l inicio) by lia.
    destruct (Z_le_gt_dec (inicio + cuantos) (Z.of_nat (length l))) as [Hle|Hgt].
    + rewrite Z.min_l by lia. f_equal. lia.
    + rewrite Z.min_r by lia.
      rewrite !take_ge; [done| |]; rewrite length_drop; lia.
  - rewrite (Z.min_r inicio) by lia.
    rewrite !(drop_ge l) by lia. by rewrite !take_nil.
Qed.

Lemma paginas_concatenadas {A} (l : list A) (tamanio n : nat) :
  mjoin ((fun k => take tamanio (drop (k * tamanio) l)) <$> seq 0 n) = take (n * tamanio) l.
Proof.
  induction n as [|n IH]; [done|].
  rewrite seq_S, fmap_app, join_app, IH. cbn [fmap list_fmap mjoin list_join plus].
  rewrite app_nil_r.
  replace (S n * tamanio)%nat with (n * tamanio + tamanio)%nat by lia.
  by rewrite take_take_drop.
Qed.

Section Props.
Context `{N : Num}.
Variable lower : string -> string.
Variable strip : string -> string.

Lemma construir_base (fila : Fila) (r : MicrozonaRespuesta) :
  _construir_microzona_respuesta lower fila = Ok r ->
  datos_base r = fila /\
  ind_advertencias_datos (indicadores r) = _normalizar_advertencias (advertencias_datos fila) /\
  total_advertencias (metadatos_calidad r)
    = length (_normalizar_advertencias (advertencias_datos fila)) /\
  banderas (metadatos_calidad r)
    = _generar_banderas lower (_normalizar_advertencias (advertencias_datos fila)) /\
  categoria_o_defecto (categoria_microzona fila) = Ok (ind_categoria_microzona (indicadores r)).
Proof.
  unfold _construir_microzona_respuesta.
  destruct (categoria_o_defecto (categoria_microzona fila)) as [c|e]; [|done].
  cbn [mbind resultado_bind mret resultado_ret]. by intros [= <-].
Qed.

Lemma mapM_Ok_inversa {A B} (f : A -> resultado B) (g : B -> A) (l : list A) (ys : list B) :
  (forall x y, f x = Ok y -> g y = x) ->
  mapM f l = Ok ys -> g <$> ys = l.
Proof.
  intros Hfg. revert ys. induction l as [|x l IH]; intros ys; cbn [mapM].
  - by intros [= <-].
  - destruct (f x) as [y|e] eqn:E; [|done]. cbn [mbind resultado_bind].
    destruct (mapM f l) as [ys0|e]; [|done]. cbn [mbind resultado_bind].
    intros [= <-]. cbn. by rewrite (Hfg _ _ E), (IH ys0).
Qed.

Lemma mapM_construir_base (filas : list Fila) (rs : list MicrozonaRespuesta) :
  mapM (_construir_microzona_respuesta lower) filas = Ok rs ->
  datos_base <$> rs = filas.
Proof. apply mapM_Ok_inversa. intros x y H. by apply construir_base in H as [? _]. Qed.

(** Pagination.  For a valid [Paginacion] and a hard limit that is not
    negative, when [filtrar_microzonas] returns: the total is the number
    of rows that pass the filters, whatever the page asked for; the page
    holds the rows of the filtered table from position [offset] on, in
    order, at most [min(limit, limite_maximo)] of them, and exactly that
    many when the filtered table is long enough. *)
Theorem filtrar_microzonas_pagina (microzonas : list Fila) (filtros : FiltroMicrozona)
    (paginacion : Paginacion) (limite_maximo : Z)
    (pagina : list MicrozonaRespuesta) (total : nat) (mensajes : list MensajeServicio) :
  paginacion_valida paginacion ->
  0 <= limite_maximo ->
  filtrar_microzonas lower strip microzonas filtros paginacion limite_maximo
    = Ok (pagina, total, mensajes) ->
  let tamanio := Z.to_nat (Z.min (limite paginacion) limite_maximo) in
  let inicio := Z.to_nat (desplazamiento paginacion) in
  total = length (filtrar lower strip microzonas filtros) /\
  datos_base <$> pagina = take tamanio (drop inicio (filtrar lower strip microzonas filtros)) /\
  (length pagina <= tamanio)%nat /\
  length pagina = Nat.min tamanio (total - inicio).
Proof.
  intros [[Hl1 Hl2] Hd] Hmax. unfold filtrar_microzonas.
  destruct (mapM _ _) as [rs|e] eqn:E; [|done].
  cbn [mbind resultado_bind mret resultado_ret]. intros [= <- <- <-].
  apply mapM_construir_base in E.
  rewrite py_slice_take_drop in E by lia.
  split; [done|]. split; [done|].
  set (tamanio := Z.to_nat (Z.min (limite paginacion) limite_maximo)) in *.
  set (inicio := Z.to_nat (desplazamiento paginacion)) in *.
  assert (Hlen : length rs = Nat.min tamanio
                   (length (filtrar lower strip microzonas filtros) - inicio)).
  { rewrite <- (length_fmap datos_base), E, length_take, length_drop. done. }
  split; [lia|done].
Qed.

(** The pages of a size tile the filtered table: the slices at the
    offsets 0, [tamanio], [2 * tamanio], ... are, one after the other,
    the first rows of the filtered table, and all of it once
    [n * tamanio] reaches its length. *)
Theorem paginas_cubren_el_resultado (microzonas : list Fila) (filtros : FiltroMicrozona)
    (tamanio : Z) (n : nat) :
  0 <= tamanio ->
  let tabla_filtrada := filtrar lower strip microzonas filtros in
  mjoin ((fun k => py_slice tabla_filtrada (Z.of_nat k * tamanio)
                     (Z.of_nat k * tamanio + tamanio)) <$> seq 0 n)
  = take (n * Z.to_nat tamanio) tabla_filtrada /\
  (Z.of_nat (length tabla_filtrada) <= Z.of_nat n * tamanio ->
   mjoin ((fun k => py_slice tabla_filtrada (Z.of_nat k * tamanio)
                      (Z.of_nat k * tamanio + tamanio)) <$> seq 0 n)
   = tabla_filtrada).
Proof.
  intros Ht tabla_filtrada.
  assert (E : mjoin ((fun k => py_slice tabla_filtrada (Z.of_nat k * tamanio)
                                 (Z.of_nat k * tamanio + tamanio)) <$> seq 0 n)
              = take (n * Z.to_nat tamanio) tabla_filtrada).
  { rewrite <- paginas_concatenadas. f_equal. apply list_fmap_ext. intros _ k _.
    rewrite py_slice_take_drop by lia. do 2 f_equal. lia. }
  split; [done|]. intros Hn. rewrite E. apply take_ge. lia.
Qed.

(** *** The filters *)

Lemma filter_sublist {A} (p : A -> bool) (l : list A) : sublist (List.filter p l) l.
Proof.
  induction l as [|x l IH]; cbn; [done|].
  destruct (p x); [by apply sublist_skip|by apply sublist_cons].
Qed.

Lemma elem_of_filter_bool {A} (p : A -> bool) (l : list A) (x : A) :
  x ∈ List.filter p l <-> x ∈ l /\ p x = true.
Proof. rewrite !list_elem_of_In. apply filter_In. Qed.

(** The rows that [filtrar_microzonas] counts and pages are the rows of
    the table that pass every filter that is set, in the order of the
    table: the [gerencia] filter when it is a non-empty string, compared
    in lower case with the stripped request (a missing [gerencia] of a row
    never passes), and each numeric filter with a null cell counting as
    0. *)
Theorem filtrar_selecciona (microzonas : list Fila) (filtros : FiltroMicrozona) :
  sublist (filtrar lower strip microzonas filtros) microzonas /\
  forall f : Fila,
    f ∈ filtrar lower strip microzonas filtros <->
    f ∈ microzonas /\
    (forall g, gerencia filtros = Some g -> g <> ""%string ->
       exists gf, gerencia_servicios f = Some gf /\ lower gf = lower (strip g)) /\
    (forall m, conexiones_minimas filtros = Some m -> al_menos (conexiones_agua f) m = true) /\
    (forall m, conexiones_maximas filtros = Some m -> a_lo_mas (conexiones_agua f) m = true) /\
    (forall r, ratio_maximo filtros = Some r ->
       ratio_a_lo_mas (ratio_conexiones_alcantarillado f) r = true).
Proof.
  unfold filtrar. split.
  - repeat match goal with
    | |- sublist (match ?o with Some _ => List.filter _ ?l | None => _ end) _ =>
        transitivity l; [destruct o; [apply filter_sublist|done]|]
    end. done.
  - intros f.
    assert (Hg : forall l,
      f ∈ match gerencia_activa filtros with
          | Some g => List.filter (misma_gerencia lower strip g) l
          | None => l
          end <->
      f ∈ l /\ (forall g, gerencia filtros = Some g -> g <> ""%string ->
                  exists gf, gerencia_servicios f = Some gf /\ lower gf = lower (strip g))).
    { intros l. unfold gerencia_activa.
      destruct (gerencia filtros) as [g|].
      2:{ split; [|tauto]. intros Hf. split; [done|]. by intros g [=]. }
      assert (Hm : misma_gerencia lower strip g f = true <->
                   exists gf, gerencia_servicios f = Some gf /\ lower gf = lower (strip g)).
      { unfold misma_gerencia. destruct (gerencia_servicios f) as [gf|].
        - rewrite bool_decide_eq_true. split; [by exists gf|]. by intros (? & [= <-] & ?).
        - split; [done|]. by intros (? & [=] & _). }
      destruct g as [|c g].
      { split; [|tauto]. intros Hf. split; [done|]. by intros g [= <-]. }
      rewrite elem_of_filter_bool, Hm. split.
      - intros [? ?]. split; [done|]. by intros g' [= <-] _.
      - intros [? H]. split; [done|]. by apply H. }
    destruct (ratio_maximo filtros) as [r|], (conexiones_maximas filtros) as [M|],
      (conexiones_minimas filtros) as [m|];
      rewrite ?elem_of_filter_bool, Hg; split;
        try (intros H; decompose [and] H; clear H; repeat split; try done;
             by intros ? [= <-]);
        intros (? & ? & H1 & H2 & H3); repeat split; try done;
          first [by apply H1|by apply H2|by apply H3].
Qed.

(** *** Messages *)

(** The message SIN_RESULTADOS is given exactly when no row passes the
    filters, whatever the page asked for; it is then the only message and
    the page is empty. *)
Theorem mensaje_sin_resultados (microzonas : list Fila) (filtros : FiltroMicrozona)
    (paginacion : Paginacion) (limite_maximo : Z)
    (pagina : list MicrozonaRespuesta) (total : nat) (mensajes : list MensajeServicio) :
  filtrar_microzonas lower strip microzonas filtros paginacion limite_maximo
    = Ok (pagina, total, mensajes) ->
  (total = 0%nat <-> "SIN_RESULTADOS"%string ∈ codigo <$> mensajes) /\
  (total = 0%nat -> pagina = [] /\ codigo <$> mensajes = ["SIN_RESULTADOS"%string]).
Proof.
  unfold filtrar_microzonas.
  destruct (mapM _ _) as [rs|e] eqn:E; [|done].
  cbn [mbind resultado_bind mret resultado_ret]. intros [= <- <- <-].
  destruct (filtrar lower strip microzonas filtros) as [|f0 fs] eqn:Ef.
  - split; [split; [intros _; cbn; set_solver|done]|]. intros _. split; [|done].
    unfold py_slice in E. rewrite drop_nil, take_nil in E. cbn in E. by injection E as <-.
  - split; [|done]. split; [done|].
    unfold _construir_mensajes_calidad.
    repeat match goal with |- context [if ?b then _ else _] => destruct b end;
      cbn; rewrite ?elem_of_cons, elem_of_nil; intros H; exfalso;
      repeat (destruct H as [H|H]; [discriminate H|]); done.
Qed.

(** *** One microzone *)

(** [obtener_microzona] raises the HTTP error 404 exactly when no row of
    the table has the UBIGEO asked for; otherwise it answers with the
    first row that has it, or fails with the exception that the
    construction of the answer raises on that row. *)
Theorem obtener_microzona_primera_o_404 (microzonas : list Fila) (codigo_ubigeo : string) :
  (forall status_code detalle,
      obtener_microzona lower microzonas codigo_ubigeo = HTTPException status_code detalle <->
      status_code = 404 /\ detalle = "MICROZONA_NO_ENCONTRADA"%string /\
      Forall (fun f => ubigeo f <> Some codigo_ubigeo) microzonas) /\
  (forall antes fila despues,
      microzonas = antes ++ fila :: despues ->
      Forall (fun f => ubigeo f <> Some codigo_ubigeo) antes ->
      ubigeo fila = Some codigo_ubigeo ->
      obtener_microzona lower microzonas codigo_ubigeo
      = match _construir_microzona_respuesta lower fila with
        | Ok r => Exito r
        | Raise e => Excepcion e
        end).
Proof.
  unfold obtener_microzona. split.
  - intros status_code detalle.
    destruct (List.filter _ microzonas) as [|f0 fs] eqn:Ef.
    + split; [|by intros (-> & -> & _)]. intros [= <- <-]. split; [done|]. split; [done|].
      apply Forall_forall. intros f Hf Hu.
      assert (Hin : f ∈ List.filter (fun f => bool_decide (ubigeo f = Some codigo_ubigeo))
                          microzonas).
      { apply elem_of_filter_bool. split; [done|]. by apply bool_decide_eq_true. }
      rewrite Ef in Hin. by apply elem_of_nil in Hin.
    + split; [by destruct (_construir_microzona_respuesta lower f0)|].
      intros (_ & _ & Hall). exfalso.
      assert (Hin : f0 ∈ List.filter (fun f => bool_decide (ubigeo f = Some codigo_ubigeo))
                           microzonas) by (rewrite Ef; left).
      apply elem_of_filter_bool in Hin as [Hin Hu%bool_decide_eq_true].
      by apply (proj1 (Forall_forall _ _) Hall f0).
  - intros antes fila despues -> Hantes Hfila.
    rewrite List.filter_app.
    replace (List.filter (fun f => bool_decide (ubigeo f = Some codigo_ubigeo)) antes)
      with (@nil Fila).
    2:{ symmetry. induction Hantes as [|f l Hf _ IH]; [done|]. cbn.
        by rewrite bool_decide_false. }
    cbn. by rewrite bool_decide_true.
Qed.


(** *** The limitations of the whole table *)

Lemma filter_particion {A} (p : A -> bool) (l : list A) :
  (length (List.filter p l) + length (List.filter (fun x => negb (p x)) l) = length l)%nat.
Proof. induction l as [|x l IH]; cbn; [done|]. destruct (p x); cbn; lia. Qed.

(** An empty table has the one warning that says so.  On a table with
    rows, the warning on active projects is given exactly when at most
    one microzone has a positive count of active projects, a null count
    being 0. *)
Theorem limitacion_de_proyectos (microzonas : list Fila) :
  (microzonas = [] ->
   _detectar_limitaciones_globales microzonas = ["El conjunto de microzonas está vacío."%string]) /\
  (microzonas <> [] ->
   "Solo se registran proyectos activos en una microzona o ninguna."%string
     ∈ _detectar_limitaciones_globales microzonas <->
   (length (List.filter (fun f => negb (no_positivo (conteo_proyectos_activos f))) microzonas)
    <= 1)%nat).
Proof.
  split; [by intros ->|].
  intros Hne. unfold _detectar_limitaciones_globales.
  destruct microzonas as [|f0 fs] eqn:Em; [done|]. rewrite <- Em. clear Hne.
  pose proof (filter_particion (fun f => no_positivo (conteo_proyectos_activos f)) microzonas)
    as Hp.
  destruct (_ <=? _) eqn:E.
  - apply Z.leb_le in E. split; [lia|]. intros _.
    rewrite !elem_of_app. right. right. left.
  - apply Z.leb_gt in E. split; [|lia].
    rewrite !elem_of_app. intros [H|[H|H]].
    + destruct (forallb _ _); [|by apply elem_of_nil in H].
      apply list_elem_of_singleton in H. discriminate H.
    + destruct (forallb _ _); [|by apply elem_of_nil in H].
      apply list_elem_of_singleton in H. discriminate H.
    + by apply elem_of_nil in H.
Qed.

End Props.

(** *** Flags *)

(** The five texts that the annotator writes in [advertencias_datos]. *)
Definition textos_de_advertencia : list string :=
  ["Sin longitud de red de agua reportada.";
   "Sin longitud de red de desagüe reportada.";
   "Sin proyectos activos registrados para la microzona.";
   "Sin conexiones de agua registradas.";
   "El ratio de alcantarillado supera la unidad; revisar consistencia."]%string.

Section Banderas.
Context `{N : Num}.
Variable lower : string -> string.

(** The upper-case letters of the five texts are ASCII letters. *)
Hypothesis lower_textos :
  forall s, s ∈ textos_de_advertencia -> lower s = minusculas_ascii s.

Lemma bandera_de_texto (texto esperada : string) :
  texto ∈ textos_de_advertencia ->
  (let t := minusculas_ascii texto in
   if subcadena "agua" t && subcadena "longitud" t then "SIN_LONGITUD_AGUA"
   else if subcadena "desagüe" t && subcadena "longitud" t then "SIN_LONGITUD_DESAGUE"
   else if subcadena "proyectos" t then "SIN_PROYECTOS"
   else if subcadena "conexiones de agua" t then "SIN_CONEXIONES_AGUA"
   else if subcadena "supera la unidad" t then "RATIO_MAYOR_UNO"
   else "ADVERTENCIA")%string = esperada ->
  bandera lower texto = esperada.
Proof. intros Ht <-. unfold bandera. by rewrite (lower_textos _ Ht). Qed.

(** The flags of the service for the warnings of the annotator: each
    warning of a row gets its own flag, in the order of the warnings, and
    never the catch-all ADVERTENCIA. *)
Theorem banderas_de_las_advertencias (cols : Analitica.Columnas) (fila : Analitica.Fila) :
  _generar_banderas lower (Analitica.generar_advertencias cols fila)
  = (if Analitica.nulo_o_no_positivo
           (Analitica.get (Analitica.tiene_longitud_agua cols)
              (Analitica.longitud_total_agua fila))
      then ["SIN_LONGITUD_AGUA"%string] else [])
     ++ (if Analitica.nulo_o_no_positivo
              (Analitica.get (Analitica.tiene_longitud_desague cols)
                 (Analitica.longitud_total_desague fila))
         then ["SIN_LONGITUD_DESAGUE"%string] else [])
     ++ (if Analitica.nulo_o_no_positivo
              (Analitica.get (Analitica.tiene_conteo cols)
                 (Analitica.conteo_proyectos_activos fila))
         then ["SIN_PROYECTOS"%string] else [])
     ++ (if Analitica.nulo_o_no_positivo
              (Analitica.get (Analitica.tiene_conexiones cols)
                 (Analitica.conexiones_agua fila))
         then ["SIN_CONEXIONES_AGUA"%string] else [])
     ++ (if Analitica.mayor_que_uno
              (Analitica.get (Analitica.tiene_ratio cols)
                 (Analitica.ratio_conexiones_alcantarillado fila))
         then ["RATIO_MAYOR_UNO"%string] else []) /\
  "ADVERTENCIA"%string ∉ _generar_banderas lower (Analitica.generar_advertencias cols fila).
Proof.
  assert (E : forall (b : bool) (texto esperada : string),
             bandera lower texto = esperada ->
             bandera lower <$> (if b then [texto] else [])
             = if b then [esperada] else []).
  { intros [] ? ? <-; done. }
  match goal with |- ?A /\ _ => assert (Heq : A) end.
  { unfold _generar_banderas, Analitica.generar_advertencias. rewrite !fmap_app.
    rewrite (E _ _ "SIN_LONGITUD_AGUA"%string)
      by (apply bandera_de_texto; [by repeat constructor|reflexivity]).
    rewrite (E _ _ "SIN_LONGITUD_DESAGUE"%string)
      by (apply bandera_de_texto; [by repeat constructor|reflexivity]).
    rewrite (E _ _ "SIN_PROYECTOS"%string)
      by (apply bandera_de_texto; [by repeat constructor|reflexivity]).
    rewrite (E _ _ "SIN_CONEXIONES_AGUA"%string)
      by (apply bandera_de_texto; [by repeat constructor|reflexivity]).
    rewrite (E _ _ "RATIO_MAYOR_UNO"%string)
      by (apply bandera_de_texto; [by repeat constructor|reflexivity]).
    reflexivity. }
  split; [exact Heq|]. rewrite Heq.
  rewrite !elem_of_app.
  repeat match goal with |- context [if ?b then _ else _] => destruct b end;
    rewrite ?list_elem_of_singleton, ?elem_of_nil;
    intros H; repeat (destruct H as [H|H]; [discriminate H || done|]);
    discriminate H || done.
Qed.

End Banderas.

(** *** Witnesses *)

Import EscenarioServicio.

(** The first page of one row of the table of two rows. *)
Lemma filtrar_microzonas_pagina_testigo :
  let x :=
    match filtrar_microzonas minusculas_ascii id tabla_servicio sin_filtros
            primera_pagina 200 with
    | Ok x => x
    | Raise _ => ([], 0%nat, [])
    end in
  x.1.2 = 2%nat /\
  datos_base <$> x.1.1 = [fila_centro] /\
  (length x.1.1 <= 1)%nat /\
  length x.1.1 = 1%nat.
Proof.
  intros x.
  apply (filtrar_microzonas_pagina minusculas_ascii id tabla_servicio sin_filtros
           primera_pagina 200 x.1.1 x.1.2 x.2); [|lia|reflexivity].
  split; cbn; lia.
Defined.

(** Two pages of one row each are the table of two rows. *)
Lemma paginas_cubren_el_resultado_testigo :
  mjoin ((fun k => py_slice (filtrar minusculas_ascii id tabla_servicio sin_filtros)
                     (Z.of_nat k * 1) (Z.of_nat k * 1 + 1)) <$> seq 0 2)
  = take (2 * Z.to_nat 1) (filtrar minusculas_ascii id tabla_servicio sin_filtros) /\
  (Z.of_nat (length (filtrar minusculas_ascii id tabla_servicio sin_filtros)) <= Z.of_nat 2 * 1 ->
   mjoin ((fun k => py_slice (filtrar minusculas_ascii id tabla_servicio sin_filtros)
                      (Z.of_nat k * 1) (Z.of_nat k * 1 + 1)) <$> seq 0 2)
   = filtrar minusculas_ascii id tabla_servicio sin_filtros).
Proof.
  apply (paginas_cubren_el_resultado minusculas_ascii id tabla_servicio sin_filtros 1 2).
  lia.
Defined.

(** No microzone of the table has 5000 water connections. *)
Lemma mensaje_sin_resultados_testigo :
  let x :=
    match filtrar_microzonas minusculas_ascii id tabla_servicio filtro_grande
            primera_pagina 200 with
    | Ok x => x
    | Raise _ => ([], 1%nat, [])
    end in
  (x.1.2 = 0%nat <-> "SIN_RESULTADOS"%string ∈ codigo <$> x.2) /\
  (x.1.2 = 0%nat -> x.1.1 = [] /\ codigo <$> x.2 = ["SIN_RESULTADOS"%string]).
Proof.
  intros x.
  apply (mensaje_sin_resultados minusculas_ascii id tabla_servicio filtro_grande
           primera_pagina 200 x.1.1 x.1.2 x.2).
  reflexivity.
Defined.

(** The scenario row of the annotator, with the ASCII lowering. *)
Lemma banderas_de_las_advertencias_testigo :
  _generar_banderas minusculas_ascii
    (Analitica.generar_advertencias (N := B64) Escenario.todas_las_columnas
       Escenario.fila_escenario)
  = ["SIN_LONGITUD_AGUA"; "SIN_LONGITUD_DESAGUE"; "SIN_PROYECTOS"]%string.
Proof.
  destruct (banderas_de_las_advertencias (N := B64) minusculas_ascii (fun s _ => eq_refl)
              Escenario.todas_las_columnas Escenario.fila_escenario) as [H _].
  rewrite H. reflexivity.
Defined.

End ServicioProps.

(** ** The integrated table and its indicators *)

Module TuberiaProps.
Import Pandas Etl.

Section Props.
Context `{N : Num} {O : Orden N}.
Variable media : list num -> num.
Variable str_upper : string -> string.
Variable astype_int : num -> Z.

Lemma mapM_Ok_fmap {A B} (f : A -> resultado B) (g : A -> B) (l : list A) :
  Forall (fun x => f x = Ok (g x)) l -> mapM f l = Ok (g <$> l).
Proof.
  induction 1 as [|x l Hx _ IH]; [done|].
  cbn [mapM]. rewrite Hx, IH. done.
Qed.

(** The ratio of a row whose two counts are integers. *)
Definition ratio_de_enteros (agua alcantarillado : Z) : num :=
  if nltb (of_Z 0) (of_Z agua) then ndiv (of_Z alcantarillado) (of_Z agua) else of_Z 0.

Lemma ratio_fila_enteros (f : Microzona) (a b : Z) :
  conexiones_agua f = Entero a -> conexiones_alcantarillado f = Entero b ->
  ratio_fila f = Ok (ratio_de_enteros a b).
Proof.
  intros Ea Eb. unfold ratio_fila, ratio_de_enteros. rewrite Ea, Eb.
  cbn [py_bool mbind resultado_bind].
  destruct (a =? 0) eqn:E0; cbn [negb py_float mbind resultado_bind].
  - apply Z.eqb_eq in E0 as ->. by rewrite nltb_cero.
  - destruct (nltb (of_Z 0) (of_Z a)) eqn:E; [|done].
    cbn [mbind resultado_bind]. unfold py_div.
    by rewrite (proj2 (nltb_distintos _ _ E)).
Qed.

Lemma fillna_numero (x : num) : is_nan (fillna (of_Z 0) x) = false.
Proof. unfold fillna. destruct (is_nan x) eqn:E; [apply cero_numero|done]. Qed.

(** The rows of the integrated table hold the two sums of the
    connections row, as integers, and total lengths that are not null. *)
Lemma fila_integrada (conexiones : list Conexiones.Conexion)
    (longitudes : list Longitudes.Resumen) (proyectos : list FilaProyecto) (f : Microzona) :
  f ∈ enriquecer_microzonas media str_upper conexiones longitudes proyectos ->
  (exists a b, conexiones_agua f = Entero a /\ conexiones_alcantarillado f = Entero b) /\
  is_nan (longitud_total_agua f) = false /\
  is_nan (longitud_total_desague f) = false.
Proof.
  unfold enriquecer_microzonas. intros (x & -> & _)%list_elem_of_fmap.
  destruct x as [[c l] p].
  cbn [conexiones_agua conexiones_alcantarillado longitud_total_agua longitud_total_desague].
  split; [by eexists _, _|]. split; apply fillna_numero.
Qed.

Lemma microzona_zip_with {A} (g : Microzona -> A -> Indicadores) (fs : list Microzona)
    (vs : list A) :
  (forall f v, microzona (g f v) = f) -> length vs = length fs ->
  microzona <$> zip_with g fs vs = fs.
Proof.
  intros Hg. revert vs. induction fs as [|f fs IH]; intros [|v vs]; cbn; try done.
  intros [= Hl]. by rewrite Hg, IH.
Qed.

(** The middle of [ejecutar_etl]: on the table that
    [enriquecer_microzonas] builds from any three tables,
    [calcular_indicadores] returns (it raises neither [TypeError] nor
    [ZeroDivisionError]: the water connections of an integrated row are an
    integer sum, never a null); its result has the integrated rows, in
    order, each with the ratio [alcantarillado / agua] when the water
    count is positive and 0.0 otherwise, the inconsistency flag 1 exactly
    when it has fewer water than sewer connections, and the
    missing-length flag 0. *)
Theorem indicadores_de_la_tabla_integrada (conexiones : list Conexiones.Conexion)
    (longitudes : list Longitudes.Resumen) (proyectos : list FilaProyecto) :
  let integrada := enriquecer_microzonas media str_upper conexiones longitudes proyectos in
  exists salida,
    calcular_indicadores astype_int integrada = Ok salida /\
    microzona <$> salida = integrada /\
    Forall (fun r =>
              exists a b,
                conexiones_agua (microzona r) = Entero a /\
                conexiones_alcantarillado (microzona r) = Entero b /\
                ratio_conexiones_alcantarillado r = ratio_de_enteros a b /\
                registros_inconsistentes r = (if a <? b then 1 else 0) /\
                faltan_datos_longitud r = 0) salida.
Proof.
  intros integrada.
  assert (Hfilas : forall f, f ∈ integrada ->
            (exists a b, conexiones_agua f = Entero a /\ conexiones_alcantarillado f = Entero b)
            /\ is_nan (longitud_total_agua f) = false
            /\ is_nan (longitud_total_desague f) = false).
  { intros f. apply fila_integrada. }
  clearbody integrada.
  set (agua := fun f : Microzona =>
                 match conexiones_agua f with Entero a => a | _ => 0 end).
  set (alc := fun f : Microzona =>
                match conexiones_alcantarillado f with Entero b => b | _ => 0 end).
  assert (Hr : mapM ratio_fila integrada
               = Ok ((fun f => ratio_de_enteros (agua f) (alc f)) <$> integrada)).
  { apply mapM_Ok_fmap, Forall_forall. intros f Hf.
    destruct (Hfilas f Hf) as ((a & b & Ea & Eb) & _).
    rewrite (ratio_fila_enteros f a b Ea Eb). unfold agua, alc. by rewrite Ea, Eb. }
  assert (Hi : mapM (fun f => inconsistente (conexiones_agua f) (conexiones_alcantarillado f))
                 integrada
               = Ok ((fun f => if agua f <? alc f then 1 else 0) <$> integrada)).
  { apply mapM_Ok_fmap, Forall_forall. intros f Hf.
    destruct (Hfilas f Hf) as ((a & b & Ea & Eb) & _).
    unfold agua, alc. by rewrite Ea, Eb. }
  unfold calcular_indicadores. rewrite Hr. cbn [mbind resultado_bind]. rewrite Hi.
  cbn [mbind resultado_bind mret resultado_ret].
  eexists. split; [reflexivity|]. split.
  { apply microzona_zip_with; [done|]. by rewrite length_zip, !length_fmap, Nat.min_id. }
  apply Forall_lookup. intros i r Hi'.
  apply lookup_zip_with_Some in Hi' as (f & [v w] & -> & Hf & Hvw).
  apply lookup_zip_with_Some in Hvw as (v' & w' & [= <- <-] & Hv & Hw).
  rewrite list_lookup_fmap, Hf in Hv. rewrite list_lookup_fmap, Hf in Hw.
  injection Hv as <-. injection Hw as <-.
  cbn [microzona ratio_conexiones_alcantarillado registros_inconsistentes
       faltan_datos_longitud fst snd].
  destruct (Hfilas f (list_elem_of_lookup_2 _ _ _ Hf)) as ((a & b & Ea & Eb) & Na & Nd).
  exists a, b. unfold agua, alc. rewrite Ea, Eb, Na, Nd. done.
Qed.

End Props.

(** Witness: in binary64, the connections table aggregated from two rows
    of one microzone, without lengths nor projects. *)
Lemma indicadores_de_la_tabla_integrada_testigo :
  let conexiones :=
    Conexiones._agrupar_por_microzona
      [ConexionesProps.fila_ejemplo 100; ConexionesProps.fila_ejemplo 50] in
  let integrada :=
    enriquecer_microzonas (N := B64) (Escenario.unico (N := B64)) id conexiones [] [] in
  exists salida,
    calcular_indicadores (N := B64) b64_truncar integrada = Ok salida /\
    microzona <$> salida = integrada /\
    Forall (fun r =>
              exists a b,
                conexiones_agua (microzona r) = Entero a /\
                conexiones_alcantarillado (microzona r) = Entero b /\
                ratio_conexiones_alcantarillado r = ratio_de_enteros a b /\
                registros_inconsistentes r = (if a <? b then 1 else 0) /\
                faltan_datos_longitud r = 0) salida.
Proof.
  intros conexiones.
  exact (indicadores_de_la_tabla_integrada (N := B64) (O := orden_B64)
           (Escenario.unico (N := B64)) id b64_truncar conexiones [] []).
Defined.

End TuberiaProps.

(** ** The columns of the aggregated connections *)

Module AgregadosProps.
Import Pandas PandasProps Conexiones.

(** *** The order of strings *)

Lemma cadena_le_total (a b : string) : cadena_le a b \/ cadena_le b a.
Proof.
  unfold cadena_le. rewrite (String.compare_antisym a b).
  destruct (String.compare b a); cbn; auto.
Qed.

Lemma compare_cadena_trans (a b c : string) :
  String.compare a b <> Gt -> String.compare b c <> Gt -> String.compare a c <> Gt.
Proof.
  revert b c. induction a as [|x a IH]; intros [|y b] [|z c]; cbn; try done.
  unfold Ascii.compare.
  destruct (N.compare_spec (N_of_ascii x) (N_of_ascii y)) as [Exy|Hxy|Hxy];
    destruct (N.compare_spec (N_of_ascii y) (N_of_ascii z)) as [Eyz|Hyz|Hyz];
    destruct (N.compare_spec (N_of_ascii x) (N_of_ascii z)) as [Exz|Hxz|Hxz];
    try done; try lia.
  apply IH.
Qed.

#[export] Instance cadena_le_total_inst : Total cadena_le.
Proof. intros a b. apply cadena_le_total. Qed.

#[export] Instance cadena_le_trans_inst : Transitive cadena_le.
Proof. intros a b c. apply compare_cadena_trans. Qed.

(** *** The mode *)

Lemma omap_id_nulos {A} (l : list (option A)) :
  Forall (fun x => x = None) l -> omap id l = [].
Proof. induction 1 as [|x l -> _ IH]; [done|]. exact IH. Qed.

Section Moda.
Variable serie : list (option string).

(** How many times a value occurs in the Series. *)
Definition frecuencia (v : string) : nat :=
  length (filter (fun x => x = v) (omap id serie)).

Lemma frecuencia_positiva (v : string) : v ∈ omap id serie <-> (0 < frecuencia v)%nat.
Proof.
  unfold frecuencia. split.
  - intros Hv.
    assert (Hin : v ∈ filter (fun x => x = v) (omap id serie)) by by apply list_elem_of_filter.
    destruct (filter _ _); [by apply elem_of_nil in Hin|cbn; lia].
  - intros Hl. destruct (filter (fun x => x = v) (omap id serie)) as [|w l] eqn:E; [cbn in Hl; lia|].
    assert (Hin : w ∈ filter (fun x => x = v) (omap id serie)) by (rewrite E; left).
    apply list_elem_of_filter in Hin as [-> ?]. done.
Qed.

Lemma frecuencia_maxima (w : string) :
  (frecuencia w <= max_list (frecuencia <$> omap id serie))%nat.
Proof.
  destruct (decide (w ∈ omap id serie)) as [Hw|Hw].
  - apply max_list_elem_of_le. by apply list_elem_of_fmap_2.
  - destruct (frecuencia w) eqn:E; [lia|].
    exfalso. apply Hw, frecuencia_positiva. lia.
Qed.

Lemma primero_de_los_filtrados (P : string -> Prop) `{forall x, Decision (P x)}
    (l : list string) (v : string) :
  StronglySorted cadena_le l ->
  head (filter P l) = Some v ->
  v ∈ l /\ P v /\ forall w, w ∈ l -> P w -> cadena_le v w.
Proof.
  induction 1 as [|x l Hl IH Hx]; [done|].
  destruct (decide (P x)) as [Px|Px].
  - rewrite filter_cons_True by done. intros [= <-].
    split; [left|]. split; [done|]. intros w Hw _.
    apply elem_of_cons in Hw as [->|Hw].
    + destruct (cadena_le_total x x); done.
    + by apply (proj1 (Forall_forall _ _) Hx).
  - rewrite filter_cons_False by done. intros Hh.
    destruct (IH Hh) as (Hv & Pv & Hmin). split; [by right|]. split; [done|].
    intros w Hw Pw. apply elem_of_cons in Hw as [->|Hw]; [done|]. by apply Hmin.
Qed.

(** The two cases of [_obtener_moda]: no candidate is left exactly when
    the Series has no value, and the first candidate of maximal frequency
    is the least of them. *)
Lemma moda_es_el_valor_mas_frecuente_aux :
  (_obtener_moda serie = None <-> Forall (fun x => x = None) serie) /\
  (forall v, _obtener_moda serie = Some v ->
     Some v ∈ serie /\
     forall w, (frecuencia w <= frecuencia v)%nat /\
               (frecuencia w = frecuencia v -> cadena_le v w)).
Proof.
  unfold _obtener_moda. fold frecuencia.
  set (filtrada := omap id serie).
  set (maxima := max_list (frecuencia <$> filtrada)).
  set (candidatos := merge_sort cadena_le (remove_dups filtrada)).
  assert (Hcand : forall v, v ∈ candidatos <-> v ∈ filtrada).
  { intros v. unfold candidatos. rewrite merge_sort_Permutation. apply elem_of_remove_dups. }
  assert (Hord : StronglySorted cadena_le candidatos).
  { apply StronglySorted_merge_sort; apply _. }
  assert (Hfil : forall v, v ∈ filtrada <-> Some v ∈ serie).
  { intros v. unfold filtrada. rewrite list_elem_of_omap. split.
    - by intros ([x|] & Hx & [= <-]).
    - intros Hv. by exists (Some v). }
  split.
  - split.
    + intros Hnone. apply Forall_forall. intros [v|] Hv; [exfalso|done].
      apply Hfil in Hv.
      assert (Hne : filtrada <> []) by (intros E; rewrite E in Hv; by apply elem_of_nil in Hv).
      assert (Hm : maxima ∈ frecuencia <$> filtrada).
      { apply max_list_elem_of. by destruct filtrada. }
      apply list_elem_of_fmap in Hm as (u & Hu & Hin).
      assert (Hc : u ∈ filter (fun v => frecuencia v = maxima) candidatos).
      { apply list_elem_of_filter. split; [done|]. by apply Hcand. }
      destruct (filter _ candidatos); [by apply elem_of_nil in Hc|done].
    + intros Hall.
      assert (E : filtrada = []) by by apply omap_id_nulos.
      unfold candidatos. rewrite E. done.
  - intros v Hv.
    destruct (primero_de_los_filtrados (fun v => frecuencia v = maxima) candidatos v Hord Hv)
      as (Hin & Hmax & Hmin).
    apply Hcand in Hin. split; [by apply Hfil|].
    intros w. rewrite Hmax. split; [apply frecuencia_maxima|].
    intros Ew. apply Hmin; [|done]. apply Hcand, frecuencia_positiva.
    rewrite Ew, <- Hmax. by apply frecuencia_positiva.
Qed.

(** [_obtener_moda] gives a missing value exactly on a Series with no
    value; otherwise it gives a value of the Series, none occurs more
    often, and among the values that occur as often it is the first in the
    order of strings. *)
Theorem moda_es_el_valor_mas_frecuente :
  (_obtener_moda serie = None <-> Forall (fun x => x = None) serie) /\
  (forall v, _obtener_moda serie = Some v ->
     Some v ∈ serie /\
     forall w, (frecuencia w <= frecuencia v)%nat /\
               (frecuencia w = frecuencia v -> cadena_le v w)).
Proof. apply moda_es_el_valor_mas_frecuente_aux. Qed.

End Moda.

(** *** The latest date *)

Lemma max_fecha_acumulado (l : list (option Z)) (acc : option Z) :
  let r := foldl (fun acc d =>
                    match acc, d with
                    | None, _ => d
                    | Some _, None => acc
                    | Some a, Some b => Some (Z.max a b)
                    end) acc l in
  (r = None <-> acc = None /\ Forall (fun d => d = None) l) /\
  (forall m, r = Some m ->
     (acc = Some m \/ Some m ∈ l) /\
     (forall a, acc = Some a -> a <= m) /\
     (forall d, Some d ∈ l -> d <= m)).
Proof.
  revert acc. induction l as [|d l IH]; intros acc; cbn [foldl].
  - split.
    + split; [by intros ->|by intros [-> _]].
    + intros m ->. split; [by left|]. split; [by intros a [= <-]|].
      by intros d ?%elem_of_nil.
  - specialize (IH (match acc, d with
                    | None, _ => d
                    | Some _, None => acc
                    | Some a, Some b => Some (Z.max a b)
                    end)).
    cbv zeta in IH. destruct IH as [IH1 IH2]. split.
    + rewrite IH1, Forall_cons. destruct acc as [a|], d as [b|]; intuition congruence.
    + intros m Hm. destruct (IH2 m Hm) as (Hin & Hacc & Hl).
      destruct acc as [a|], d as [b|].
      * split.
        { destruct Hin as [[= <-]|Hin]; [|right; by right].
          destruct (Z.max_spec a b) as [[_ ->]|[_ ->]]; [right; left|by left]. }
        specialize (Hacc _ eq_refl). split.
        { intros ? [= <-]. lia. }
        intros d [[= ->]|Hd]%elem_of_cons; [lia|by apply Hl].
      * split; [destruct Hin as [?|?]; [by left|right; by right]|].
        split; [done|]. intros d [[=]|Hd]%elem_of_cons. by apply Hl.
      * split; [destruct Hin as [[= <-]|?]; right; [left|by right]|].
        split; [done|]. intros d [[= ->]|Hd]%elem_of_cons; [by apply Hacc|by apply Hl].
      * split; [destruct Hin as [[=]|?]; right; by right|].
        split; [done|]. intros d [[=]|Hd]%elem_of_cons. by apply Hl.
Qed.

(** *** The aggregated row of a key *)

Lemma asignar_fmap {A B C D} (f : B -> option C -> D) (g : A -> B) (h : A -> option C)
    (l : list A) :
  asignar f (g <$> l) (h <$> l) = (fun x => f (g x) (h x)) <$> l.
Proof.
  unfold asignar. rewrite imap_fmap. rewrite <- (imap_const (fun x => f (g x) (h x)) l).
  apply imap_ext. intros i x Hx. cbn. by rewrite list_lookup_fmap, Hx.
Qed.

(** The aggregated row of a group. *)
Definition fila_de_grupo (g : Clave * list FilaConexion) : Conexion :=
  {| clave_microzona := fst g;
     suma_conexiones_agua := suma_int64 (conexiones_agua <$> snd g);
     suma_conexiones_alcantarillado := suma_int64 (conexiones_alcantarillado <$> snd g);
     fecha_corte_maxima := max_fecha (fecha_corte <$> snd g);
     moda_departamento := _obtener_moda ((Some ∘ departamento) <$> snd g);
     moda_provincia := _obtener_moda ((Some ∘ provincia) <$> snd g);
     tarifa_predominante := _obtener_moda ((Some ∘ tarifa) <$> snd g) |}.

Lemma agrupar_por_grupos (df : list FilaConexion) :
  _agrupar_por_microzona df = fila_de_grupo <$> groupby clave_le con_nulo clave false df.
Proof.
  unfold _agrupar_por_microzona. rewrite !asignar_fmap. done.
Qed.

Lemma moda_de_un_grupo (columna : FilaConexion -> string) (grupo : list FilaConexion) :
  grupo <> [] ->
  exists f, f ∈ grupo /\ _obtener_moda ((Some ∘ columna) <$> grupo) = Some (columna f).
Proof.
  intros Hne.
  destruct (moda_es_el_valor_mas_frecuente_aux ((Some ∘ columna) <$> grupo)) as [Hn Hs].
  destruct (_obtener_moda ((Some ∘ columna) <$> grupo)) as [v|] eqn:E.
  - destruct (Hs v eq_refl) as [Hv _].
    apply list_elem_of_fmap in Hv as (f & [= ->] & Hf). by exists f.
  - exfalso. destruct grupo as [|f grupo]; [done|].
    pose proof (proj1 Hn eq_refl) as Hall. by apply Forall_inv in Hall.
Qed.

(** For every key of the connections table, the one aggregated row of
    the key has: the sewer count summed over the rows of the key (in
    [Int64]); as department, province and predominant tariff the mode of
    the column over those rows, which is the value of one of them and is
    never missing; and as [fecha_corte] the latest date of those rows,
    missing exactly when they all lack a date. *)
Theorem fila_agregada_por_clave (df : list FilaConexion) (k : Clave) :
  k ∈ clave <$> df ->
  let grupo := filter (fun f => clave f = k) df in
  exists r,
    filter (fun r => clave_microzona r = k) (_agrupar_por_microzona df) = [r] /\
    suma_conexiones_alcantarillado r = int64 (suma (conexiones_alcantarillado <$> grupo)) /\
    moda_departamento r = _obtener_moda ((Some ∘ departamento) <$> grupo) /\
    moda_provincia r = _obtener_moda ((Some ∘ provincia) <$> grupo) /\
    tarifa_predominante r = _obtener_moda ((Some ∘ tarifa) <$> grupo) /\
    (exists f, f ∈ grupo /\ moda_departamento r = Some (departamento f)) /\
    (exists f, f ∈ grupo /\ moda_provincia r = Some (provincia f)) /\
    (exists f, f ∈ grupo /\ tarifa_predominante r = Some (tarifa f)) /\
    (fecha_corte_maxima r = None <-> Forall (fun f => fecha_corte f = None) grupo) /\
    (forall m, fecha_corte_maxima r = Some m ->
       (exists f, f ∈ grupo /\ fecha_corte f = Some m) /\
       Forall (fun f => forall d, fecha_corte f = Some d -> d <= m) grupo).
Proof.
  intros Hk grupo.
  assert (Hg : (k, grupo) ∈ groupby clave_le con_nulo clave false df).
  { unfold groupby. apply list_elem_of_fmap. exists k. split; [done|].
    rewrite merge_sort_Permutation. by apply elem_of_remove_dups. }
  assert (Hne : grupo <> []).
  { apply list_elem_of_fmap in Hk as (f & -> & Hf).
    assert (Hin : f ∈ grupo) by by apply list_elem_of_filter.
    intros E. rewrite E in Hin. by apply elem_of_nil in Hin. }
  exists (fila_de_grupo (k, grupo)). split.
  { apply (filter_clave_presente clave_microzona _ (fila_de_grupo (k, grupo))).
    - rewrite agrupar_por_grupos, <- list_fmap_compose.
      apply (groupby_NoDup clave_le con_nulo clave false df).
    - rewrite agrupar_por_grupos. by apply list_elem_of_fmap_2. }
  cbn [fila_de_grupo suma_conexiones_alcantarillado moda_departamento moda_provincia
       tarifa_predominante fecha_corte_maxima fst snd].
  split; [apply suma_int64_spec|]. do 3 (split; [done|]).
  do 3 (split; [by apply moda_de_un_grupo|]).
  pose proof (max_fecha_acumulado (fecha_corte <$> grupo) None) as [Hn Hs].
  fold (max_fecha (fecha_corte <$> grupo)) in Hn, Hs. split.
  - rewrite Hn, Forall_fmap. split; [by intros [_ ?]|done].
  - intros m Hm. destruct (Hs m Hm) as ([[=]|Hin] & _ & Hle). split.
    + apply list_elem_of_fmap in Hin as (f & ? & ?). by exists f.
    + apply Forall_forall. intros f Hf d Hd. apply Hle. rewrite <- Hd.
      by apply list_elem_of_fmap_2.
Qed.

(** Witness: three rows of one microzone, two with the tariff DOMESTICO. *)
Lemma fila_agregada_por_clave_testigo :
  let df := [ConexionesProps.fila_ejemplo 100; ConexionesProps.fila_ejemplo 50;
             ConexionesProps.fila_ejemplo 0] in
  exists r,
    filter (fun r => clave_microzona r = ConexionesProps.clave_ejemplo)
      (_agrupar_por_microzona df) = [r] /\
    tarifa_predominante r = Some "DOMESTICO"%string /\
    fecha_corte_maxima r = Some 20241231.
Proof.
  intros df.
  destruct (fila_agregada_por_clave df ConexionesProps.clave_ejemplo) as (r & Hr & H).
  { vm_compute. left. }
  exists r. split; [exact Hr|].
  destruct H as (_ & _ & _ & Ht & _). rewrite Ht.
  assert (E : r = fila_de_grupo (ConexionesProps.clave_ejemplo, df)).
  { rewrite agrupar_por_grupos in Hr. vm_compute in Hr. by injection Hr as <-. }
  rewrite E. split; reflexivity.
Defined.

End AgregadosProps.

(** ** The project aggregate *)

Module ProyectosProps.
Import Pandas PandasProps Etl AgregadosProps.

Section Props.
Context `{N : Num} {O : Orden N}.
Variable media : list num -> num.
Variable str_upper : string -> string.

(** The aggregated row of a group of projects. *)
Definition proyectos_de_grupo (g : Clave * list FilaProyecto) : ProyectosAgrupados :=
  {| clave_proyectos := fst g;
     conteo_activos :=
       suma_int64 ((fun f => if es_proyecto_activo str_upper f then 1 else 0) <$> snd g);
     avance_promedio := fillna (of_Z 0) (media (avance_fisico <$> snd g));
     faltan_datos :=
       Some (if existsb (fun f => negb (presente (ubigeo (clave f)))) (snd g) then 1 else 0) |}.

Lemma agrupar_proyectos_por_grupos (df : list FilaProyecto) :
  _agrupar_proyectos media str_upper df
  = proyectos_de_grupo <$> groupby clave_le con_nulo clave false df.
Proof. unfold _agrupar_proyectos. rewrite asignar_fmap. done. Qed.

Lemma suma_de_indicadores {A} (p : A -> bool) (l : list A) :
  suma ((fun x => if p x then 1 else 0) <$> l) = Z.of_nat (length (List.filter p l)).
Proof.
  induction l as [|x l IH]; [done|]. cbn [fmap list_fmap suma foldr List.filter].
  fold (suma ((fun x => if p x then 1 else 0) <$> l)). rewrite IH.
  destruct (p x); cbn [length]; lia.
Qed.

Lemma existsb_constante {A} (p : A -> bool) (b : bool) (l : list A) :
  l <> [] -> Forall (fun x => p x = b) l -> existsb p l = b.
Proof.
  intros Hne Hall. destruct l as [|x l]; [done|].
  apply Forall_cons in Hall as [Hx Hl]. cbn. rewrite Hx. destruct b; [done|].
  cbn. apply not_true_iff_false. intros (y & Hy & Py)%existsb_exists.
  apply list_elem_of_In in Hy. rewrite (proj1 (Forall_forall _ _) Hl y Hy) in Py. done.
Qed.

(** For every key of the project rows, the aggregate has one row of the
    key, with: the number of rows of the key whose stage, in upper case,
    is not CERRADO (in [Int64]); an average progress that is never null;
    and the flag [faltan_datos_proyectos], which is 1 exactly when the
    UBIGEO of the key itself is missing (the rows of a group share their
    UBIGEO, a key column). *)
Theorem proyectos_agregados_por_clave (df : list FilaProyecto) (k : Clave) :
  k ∈ clave <$> df ->
  let grupo := filter (fun f => clave f = k) df in
  exists r,
    filter (fun r => clave_proyectos r = k) (_agrupar_proyectos media str_upper df) = [r] /\
    conteo_activos r
      = int64 (Z.of_nat (length (List.filter (es_proyecto_activo str_upper) grupo))) /\
    avance_promedio r = fillna (of_Z 0) (media (avance_fisico <$> grupo)) /\
    is_nan (avance_promedio r) = false /\
    faltan_datos r = Some (if presente (ubigeo k) then 0 else 1).
Proof.
  intros Hk grupo.
  assert (Hg : (k, grupo) ∈ groupby clave_le con_nulo clave false df).
  { unfold groupby. apply list_elem_of_fmap. exists k. split; [done|].
    rewrite merge_sort_Permutation. by apply elem_of_remove_dups. }
  assert (Hne : grupo <> []).
  { apply list_elem_of_fmap in Hk as (f & -> & Hf).
    assert (Hin : f ∈ grupo) by by apply list_elem_of_filter.
    intros E. rewrite E in Hin. by apply elem_of_nil in Hin. }
  exists (proyectos_de_grupo (k, grupo)). split.
  { apply (filter_clave_presente clave_proyectos _ (proyectos_de_grupo (k, grupo))).
    - rewrite agrupar_proyectos_por_grupos, <- list_fmap_compose.
      apply (groupby_NoDup clave_le con_nulo clave false df).
    - rewrite agrupar_proyectos_por_grupos. by apply list_elem_of_fmap_2. }
  cbn [proyectos_de_grupo conteo_activos avance_promedio faltan_datos fst snd].
  split; [by rewrite suma_int64_spec, suma_de_indicadores|]. split; [done|].
  split.
  { unfold fillna. destruct (is_nan (media _)) eqn:E; [apply cero_numero|done]. }
  rewrite (existsb_constante _ (negb (presente (ubigeo k))) grupo Hne).
  - by destruct (presente (ubigeo k)).
  - apply Forall_forall. intros f Hf. apply list_elem_of_filter in Hf as [-> _]. done.
Qed.

End Props.

(** Witness: one project row, in binary64, with the key without year. *)
Lemma proyectos_agregados_por_clave_testigo :
  let fila : FilaProyecto (N := B64) :=
    {| clave := Escenario.clave_sin_anio; etapa := Some "OBRA"%string;
       avance_fisico := of_Z 40 |} in
  exists r : ProyectosAgrupados (N := B64),
    filter (fun r => clave_proyectos r = Escenario.clave_sin_anio)
      (_agrupar_proyectos (Escenario.unico (N := B64)) id [fila]) = [r] /\
    conteo_activos r = 1 /\
    faltan_datos r = Some 0.
Proof.
  intros fila.
  destruct (proyectos_agregados_por_clave (N := B64) (Escenario.unico (N := B64)) id [fila]
              Escenario.clave_sin_anio) as (r & Hr & Hc & _ & _ & Hf).
  { vm_compute. left. }
  exists r. split; [exact Hr|]. split; [rewrite Hc; reflexivity|exact Hf].
Defined.

End ProyectosProps.

(** ** The UBIGEO code again: cleaning twice, and writing *)

Module UbigeoSalidaProps.
Import Ubigeo UbigeoProps Guardar.

Section Idempotencia.
Variable caracter : Type.
Variable es_digito : caracter -> bool.
Variable cero : caracter.
Hypothesis cero_es_digito : es_digito cero = true.

Lemma filter_todos {A} (p : A -> bool) (l : list A) :
  Forall (fun x => p x = true) l -> List.filter p l = l.
Proof. induction 1 as [|x l Hx _ IH]; [done|]. cbn. by rewrite Hx, IH. Qed.

(** Cleaning is idempotent on the codes it keeps: a code that
    [_sanear_ubigeo] returns is returned unchanged when cleaned again.
    It is not on the codes it drops: a missing value cleaned again
    becomes the code of six zeros. *)
Theorem sanear_ubigeo_dos_veces (v : option (list caracter)) :
  (forall s, _sanear_ubigeo caracter es_digito cero v = Some s ->
             _sanear_ubigeo caracter es_digito cero (Some s) = Some s) /\
  (_sanear_ubigeo caracter es_digito cero v = None ->
   _sanear_ubigeo caracter es_digito cero (_sanear_ubigeo caracter es_digito cero v)
   = Some (replicate 6 cero)).
Proof.
  split.
  - intros s. unfold _sanear_ubigeo at 1.
    destruct (fullmatch_d6 _ _ _) eqn:E; [|done]. intros [= <-].
    apply fullmatch_d6_spec in E as [Hl Hd].
    set (s := zfill caracter cero 6 _) in *.
    unfold _sanear_ubigeo, quitar_no_digitos.
    change (fillna_cadena caracter (Some s)) with s.
    rewrite (filter_todos es_digito s) by done.
    assert (Ez : zfill caracter cero 6 s = s).
    { unfold zfill. by rewrite Hl. }
    rewrite Ez.
    assert (Ef : fullmatch_d6 caracter es_digito s = true) by by apply fullmatch_d6_spec.
    by rewrite Ef.
  - intros ->. unfold _sanear_ubigeo, fillna_cadena, quitar_no_digitos, zfill. cbn.
    by rewrite !cero_es_digito.
Qed.

End Idempotencia.

(** ASCII text. *)
Lemma sanear_ubigeo_dos_veces_testigo :
  _sanear_ubigeo ascii es_digito_ascii "0"%char
    (Some (list_ascii_of_string "15-01")) = Some (list_ascii_of_string "001501") /\
  _sanear_ubigeo ascii es_digito_ascii "0"%char
    (Some (list_ascii_of_string "001501")) = Some (list_ascii_of_string "001501").
Proof.
  split; [reflexivity|].
  apply (sanear_ubigeo_dos_veces ascii es_digito_ascii "0"%char eq_refl
           (Some (list_ascii_of_string "15-01"))).
  reflexivity.
Defined.

(** *** Decimal digits *)







Section Escritura.
Variable a_int64 : string -> resultado Z.

(** [int] reads a string of at most 18 decimal digits as the number they
    write, and that number fits in 64 bits. *)
Hypothesis a_int64_digitos :
  forall s d, NilZero.uint_of_string s = Some d -> (String.length s <= 18)%nat ->
              a_int64 s = Ok (Z.of_uint d).


End Escritura.


End UbigeoSalidaProps.

(** ** The retries of the download *)

Module DescargaProps.
Import Descarga.

Section Props.
Context `{N : Num}.
Variable contenido : Type.
Variable respuestas : nat -> option contenido.
Variable reintentos : Z.
Variable espera_segundos : num.

(** The failed attempts [desde + 1, ..., desde + cuantos], each followed
    by its wait of [espera_segundos * intento] seconds. *)
Definition intentos_fallidos (desde cuantos : nat) : list (efecto contenido) :=
  flat_map (fun i => [Get contenido i;
                      Dormir contenido (nmul espera_segundos (of_Z (Z.of_nat i)))])
    (seq (S desde) cuantos).

Lemma intentos_fallidos_S (desde cuantos : nat) :
  intentos_fallidos desde (S cuantos)
  = Get contenido (S desde)
      :: Dormir contenido (nmul espera_segundos (of_Z (Z.of_nat (S desde))))
      :: intentos_fallidos (S desde) cuantos.
Proof. done. Qed.

(** The loop from [hechos] attempts on, when the next [fallidos] attempts
    fail below the bound and the one after them succeeds. *)
Lemma bucle_hasta_el_exito (fallidos combustible hechos : nat) (c : contenido) :
  (fallidos <= combustible)%nat ->
  (forall i, (hechos < i <= hechos + fallidos)%nat ->
             respuestas i = None /\ Z.of_nat i < reintentos) ->
  respuestas (S (hechos + fallidos)) = Some c ->
  bucle contenido respuestas reintentos espera_segundos combustible hechos
  = (Descargado, intentos_fallidos hechos fallidos
                 ++ [Get contenido (S (hechos + fallidos)); Escribir contenido c]).
Proof.
  revert combustible hechos. induction fallidos as [|fallidos IH]; intros combustible hechos Hc Hf Hs.
  - rewrite Nat.add_0_r in Hs. destruct combustible; cbn [bucle]; rewrite Hs, Nat.add_0_r; done.
  - destruct combustible as [|combustible]; [lia|]. cbn [bucle].
    destruct (Hf (S hechos) ltac:(lia)) as [-> Hr].
    destruct (reintentos <=? Z.of_nat (S hechos)) eqn:E; [apply Z.leb_le in E; lia|].
    rewrite (IH combustible (S hechos)); [| lia | |].
    + rewrite intentos_fallidos_S. cbn. by replace (hechos + S fallidos)%nat
        with (S (hechos + fallidos)) by lia.
    + intros i Hi. apply Hf. lia.
    + by replace (S hechos + fallidos)%nat with (hechos + S fallidos)%nat by lia.
Qed.

(** The loop when every attempt fails: it stops at the first attempt
    whose number reaches [reintentos]. *)
Lemma bucle_hasta_el_limite (fallidos combustible hechos : nat) :
  (fallidos <= combustible)%nat ->
  (forall i, (hechos < i <= S (hechos + fallidos))%nat -> respuestas i = None) ->
  (forall i, (hechos < i <= hechos + fallidos)%nat -> Z.of_nat i < reintentos) ->
  reintentos <= Z.of_nat (S (hechos + fallidos)) ->
  bucle contenido respuestas reintentos espera_segundos combustible hechos
  = (Relanzada, intentos_fallidos hechos fallidos ++ [Get contenido (S (hechos + fallidos))]).
Proof.
  revert combustible hechos.
  induction fallidos as [|fallidos IH]; intros combustible hechos Hc Hf Hr Hl.
  - rewrite Nat.add_0_r in *.
    destruct combustible; cbn [bucle]; rewrite (Hf (S hechos)) by lia;
      apply Z.leb_le in Hl; rewrite Hl; done.
  - destruct combustible as [|combustible]; [lia|]. cbn [bucle].
    rewrite (Hf (S hechos)) by lia.
    destruct (reintentos <=? Z.of_nat (S hechos)) eqn:E.
    { apply Z.leb_le in E. specialize (Hr (S hechos) ltac:(lia)). lia. }
    rewrite (IH combustible (S hechos)); [|lia| | |].
    + rewrite intentos_fallidos_S. cbn. by replace (hechos + S fallidos)%nat
        with (S (hechos + fallidos)) by lia.
    + intros i Hi. apply Hf. lia.
    + intros i Hi. apply Hr. lia.
    + by replace (S hechos + fallidos)%nat with (hechos + S fallidos)%nat by lia.
Qed.

(** The retry loop of [descargar_dataset], for any answers of the
    network.  It calls [sesion.get] at most [max(1, reintentos)] times.
    When the [k]-th call is the first that succeeds, [k] being within
    that bound, the function has waited [espera_segundos * i] seconds
    after each failed call [i < k], writes the content once and returns.
    When the first [max(1, reintentos)] calls all fail, it waits after
    each of them but the last and raises the last error again, without
    writing.  The loop always ends. *)
Theorem descargar_dataset_reintenta :
  let maximo := Nat.max 1 (Z.to_nat reintentos) in
  (forall k c,
      (1 <= k <= maximo)%nat ->
      (forall i, (1 <= i < k)%nat -> respuestas i = None) ->
      respuestas k = Some c ->
      descargar_dataset contenido respuestas reintentos espera_segundos
      = (Descargado, intentos_fallidos 0 (k - 1)
                     ++ [Get contenido k; Escribir contenido c])) /\
  ((forall i, (1 <= i <= maximo)%nat -> respuestas i = None) ->
   descargar_dataset contenido respuestas reintentos espera_segundos
   = (Relanzada, intentos_fallidos 0 (maximo - 1) ++ [Get contenido maximo])) /\
  fst (descargar_dataset contenido respuestas reintentos espera_segundos) <> SinCombustible.
Proof.
  intros maximo. unfold descargar_dataset.
  assert (Hexito : forall k c,
    (1 <= k <= maximo)%nat ->
    (forall i, (1 <= i < k)%nat -> respuestas i = None) ->
    respuestas k = Some c ->
    bucle contenido respuestas reintentos espera_segundos (Z.to_nat reintentos) 0
    = (Descargado, intentos_fallidos 0 (k - 1) ++ [Get contenido k; Escribir contenido c])).
  { intros k c Hk Hf Hs.
    rewrite (bucle_hasta_el_exito (k - 1) (Z.to_nat reintentos) 0 c).
    - by replace (S (0 + (k - 1))) with k by lia.
    - lia.
    - intros i Hi. split; [apply Hf; lia|]. lia.
    - by replace (S (0 + (k - 1))) with k by lia. }
  assert (Hfalla :
    (forall i, (1 <= i <= maximo)%nat -> respuestas i = None) ->
    bucle contenido respuestas reintentos espera_segundos (Z.to_nat reintentos) 0
    = (Relanzada, intentos_fallidos 0 (maximo - 1) ++ [Get contenido maximo])).
  { intros Hf.
    rewrite (bucle_hasta_el_limite (maximo - 1) (Z.to_nat reintentos) 0).
    - by replace (S (0 + (maximo - 1))) with maximo by lia.
    - lia.
    - intros i Hi. apply Hf. lia.
    - intros i Hi. lia.
    - lia. }
  split; [exact Hexito|]. split; [exact Hfalla|].
  (* Either some attempt within the bound succeeds, or they all fail. *)
  assert (Hcasos : (exists k c, (1 <= k <= maximo)%nat /\
                                (forall i, (1 <= i < k)%nat -> respuestas i = None) /\
                                respuestas k = Some c)
                   \/ (forall i, (1 <= i <= maximo)%nat -> respuestas i = None)).
  { clear Hexito Hfalla. generalize maximo as m. induction m as [|m IH].
    - right. intros i Hi. lia.
    - destruct IH as [(k & c & Hk & Hf & Hs)|Hnone].
      + left. exists k, c. split; [lia|done].
      + destruct (respuestas (S m)) as [c|] eqn:E.
        * left. exists (S m), c. split; [lia|]. split; [|done].
          intros i Hi. apply Hnone. lia.
        * right. intros i Hi. destruct (decide (i = S m)) as [->|]; [done|].
          apply Hnone. lia. }
  destruct Hcasos as [(k & c & Hk & Hf & Hs)|Hnone].
  - by rewrite (Hexito k c Hk Hf Hs).
  - by rewrite (Hfalla Hnone).
Qed.

End Props.

(** Witness: three retries, a failure and then a content. *)
Lemma descargar_dataset_reintenta_testigo :
  let respuestas := fun i : nat => if (i <? 2)%nat then None else Some "csv"%string in
  descargar_dataset (N := B64) string respuestas 3 (of_Z 3)
  = (Descargado, [Get string 1; Dormir string (of_Z 3); Get string 2; Escribir string "csv"%string]).
Proof.
  intros respuestas.
  destruct (descargar_dataset_reintenta (N := B64) string respuestas 3 (of_Z 3)) as [H _].
  rewrite (H 2%nat "csv"%string).
  - reflexivity.
  - cbn. lia.
  - intros i Hi. assert (i = 1%nat) as -> by lia. reflexivity.
  - reflexivity.
Defined.

End DescargaProps.

(** ** Missing mandatory columns *)

Module ValidacionProps.
Import Marco.

Section Props.
Variable valor : Type.
Variable calculos : Calculos valor.

(** The table with its columns renamed. *)
Definition renombrada (tabla : DataFrame valor) : DataFrame valor :=
  prod_map (normalizar_nombre valor calculos) id <$> tabla.

Lemma fresco_distinto (s : almacen valor) (r : ref) (tabla : DataFrame valor) :
  s !! r = Some tabla -> fresh (dom s) <> r.
Proof.
  intros Hs E. unfold almacen, ref in *. apply elem_of_dom_2 in Hs.
  rewrite <- E in Hs. exact (is_fresh _ Hs).
Qed.

Lemma forallb_falso {A} (p : A -> bool) (l : list A) (x : A) :
  x ∈ l -> p x = false -> forallb p l = false.
Proof.
  intros Hx Hp. apply not_true_iff_false. rewrite forallb_forall. intros H.
  rewrite (H x) in Hp; [done|]. by apply list_elem_of_In.
Qed.

Lemma ligar_ok {A B} (m : M valor A) (k : A -> M valor B)
    (s s' : almacen valor) (a : A) :
  m s = (Ok a, s') -> (m ≫= k) s = k a s'.
Proof. intros H. unfold mbind, M_bind, ligar. by rewrite H. Qed.

Lemma ligar_raise {A B} (m : M valor A) (k : A -> M valor B)
    (s s' : almacen valor) (e : excepcion) :
  m s = (Raise e, s') -> (m ≫= k) s = (Raise e, s').
Proof. intros H. unfold mbind, M_bind, ligar. by rewrite H. Qed.

Lemma leer_ok (s : almacen valor) (r : ref) (df : DataFrame valor) :
  s !! r = Some df -> leer valor r s = (Ok df, s).
Proof. intros H. unfold leer. by rewrite H. Qed.

(** [limpiar_conexiones] on a table that, once its column names are
    stripped and lowered, lacks one of the ten mandatory columns: it
    raises [ValueError], and the table of the caller is as it was. *)
Theorem limpiar_conexiones_sin_columna (s : almacen valor) (r : ref)
    (tabla : DataFrame valor) (columna : string) :
  s !! r = Some tabla ->
  columna ∈ COLUMNAS_OBLIGATORIAS ->
  tiene valor (renombrada tabla) columna = false ->
  fst (limpiar_conexiones valor calculos r s) = Raise ValueError /\
  snd (limpiar_conexiones valor calculos r s) !! r = Some tabla.
Proof.
  intros Hs Hc Ht. pose proof (fresco_distinto s r tabla Hs) as Hr.
  unfold limpiar_conexiones, copy, renombrar, validar_columnas, modificar, leer, nuevo.
  unfold mbind, M_bind, ligar, lanzar. rewrite Hs. cbv zeta. cbn [fst snd].
  unfold almacen, ref in *.
  rewrite lookup_insert_eq. cbn [fst snd]. rewrite lookup_insert_eq.
  fold (renombrada tabla). rewrite (forallb_falso _ _ columna Hc Ht). cbn [fst snd].
  split; [done|]. by rewrite !lookup_insert_ne.
Qed.

Lemma columnas_con_columna (df : DataFrame valor) (nueva c : string) (serie : Serie valor) :
  c ∈ (con_columna valor nueva serie df).*1 <-> c = nueva \/ c ∈ df.*1.
Proof.
  induction df as [|[c0 s0] df IH]; cbn [con_columna].
  - cbn. set_solver.
  - destruct (decide (c0 = nueva)) as [->|Hne0]; cbn [fmap list_fmap fst].
    + rewrite !elem_of_cons. tauto.
    + rewrite !elem_of_cons, IH. tauto.
Qed.

Lemma tiene_con_columna (df : DataFrame valor) (nueva c : string) (serie : Serie valor) :
  tiene valor (con_columna valor nueva serie df) c
  = bool_decide (c = nueva) || tiene valor df c.
Proof.
  unfold tiene. rewrite <- bool_decide_or. apply bool_decide_ext, columnas_con_columna.
Qed.

(** The step of [limpiar_proyectos] that adds a tolerated column when
    the table lacks it. *)
Definition con_tolerada (columna : string) (df : DataFrame valor) : DataFrame valor :=
  if tiene valor df columna then df
  else con_columna valor columna (columna_nula valor calculos df) df.

Lemma tiene_con_tolerada (df : DataFrame valor) (tolerada c : string) :
  c <> tolerada -> tiene valor (con_tolerada tolerada df) c = tiene valor df c.
Proof.
  intros Hc. unfold con_tolerada. destruct (tiene valor df tolerada); [done|].
  rewrite tiene_con_columna. by rewrite bool_decide_false.
Qed.

(** [limpiar_proyectos] tolerates a table without [gerencia_servicios]
    or [equipo_comercial], which it adds; on a table that, once its
    column names are stripped and lowered, lacks another of the mandatory
    columns, it raises [ValueError], and the table of the caller is as it
    was. *)
Theorem limpiar_proyectos_sin_columna (s : almacen valor) (r : ref)
    (tabla : DataFrame valor) (columna : string) :
  s !! r = Some tabla ->
  columna ∈ COLUMNAS_OBLIGATORIAS_PROYECTO ->
  columna <> "gerencia_servicios"%string ->
  columna <> "equipo_comercial"%string ->
  tiene valor (renombrada tabla) columna = false ->
  fst (limpiar_proyectos valor calculos r s) = Raise ValueError /\
  snd (limpiar_proyectos valor calculos r s) !! r = Some tabla.
Proof.
  intros Hs Hc Hg He Ht. pose proof (fresco_distinto s r tabla Hs) as Hr.
  set (r' := fresh (dom s)) in *.
  assert (Hpaso : forall (c : string) (s1 : almacen valor) (df : DataFrame valor),
    s1 !! r' = Some df -> s1 !! r = Some tabla ->
    exists s2,
      (contiene valor r' c ≫= fun presente : bool =>
         if presente then mret ()
         else leer valor r' ≫= fun tabla0 =>
              setitem valor r' c (columna_nula valor calculos tabla0)) s1 = (Ok (), s2) /\
      s2 !! r' = Some (con_tolerada c df) /\ s2 !! r = Some tabla).
  { intros c s1 df H1 H1r. unfold con_tolerada.
    rewrite (ligar_ok _ _ s1 s1 (tiene valor df c)).
    2:{ unfold contiene. rewrite (ligar_ok _ _ s1 s1 df); [done|].
        unfold leer. by rewrite H1. }
    destruct (tiene valor df c).
    - exists s1. done.
    - rewrite (ligar_ok _ _ s1 s1 df) by (unfold leer; by rewrite H1).
      unfold setitem, modificar. rewrite H1. eexists. split; [reflexivity|].
      unfold almacen, ref in *. rewrite lookup_insert_eq. by rewrite lookup_insert_ne. }
  unfold limpiar_proyectos.
  rewrite (ligar_ok _ _ s (<[r' := tabla]> s) r').
  2:{ unfold copy. rewrite (ligar_ok _ _ s s tabla); [done|]. unfold leer. by rewrite Hs. }
  assert (H1 : (<[r' := renombrada tabla]> (<[r' := tabla]> s) : almacen valor) !! r'
               = Some (renombrada tabla)).
  { unfold almacen, ref in *. by rewrite lookup_insert_eq. }
  assert (H1r : (<[r' := renombrada tabla]> (<[r' := tabla]> s) : almacen valor) !! r
                = Some tabla).
  { unfold almacen, ref in *. by rewrite !lookup_insert_ne. }
  rewrite (ligar_ok _ _ _ (<[r' := renombrada tabla]> (<[r' := tabla]> s)) ()).
  2:{ unfold renombrar, modificar. unfold almacen, ref in *. by rewrite lookup_insert_eq. }
  destruct (Hpaso "gerencia_servicios"%string _ _ H1 H1r) as (s2 & E2 & H2 & H2r).
  destruct (Hpaso "equipo_comercial"%string _ _ H2 H2r) as (s3 & E3 & H3 & H3r).
  rewrite (ligar_ok _ _ _ s3 ()).
  2:{ cbn [para_cada]. rewrite (ligar_ok _ _ _ s2 ()) by exact E2.
      rewrite (ligar_ok _ _ _ s3 ()) by exact E3. done. }
  assert (Hfalta : tiene valor (con_tolerada "equipo_comercial"
                     (con_tolerada "gerencia_servicios" (renombrada tabla))) columna = false).
  { by rewrite !tiene_con_tolerada. }
  rewrite (ligar_raise _ _ s3 s3 ValueError).
  2:{ unfold validar_columnas. rewrite (ligar_ok _ _ s3 s3 _ (leer_ok _ _ _ H3)).
      by rewrite (forallb_falso _ _ columna Hc Hfalta). }
  split; [reflexivity|exact H3r].
Qed.

End Props.

(** Witnesses: the table with the single column [ubigeo]. *)
Lemma limpiar_conexiones_sin_columna_testigo :
  let s : almacen Z := {[ 0%nat := tabla_de_prueba ]} in
  fst (limpiar_conexiones Z calculos_identidad 0%nat s) = Raise ValueError /\
  snd (limpiar_conexiones Z calculos_identidad 0%nat s) !! 0%nat = Some tabla_de_prueba.
Proof.
  intros s.
  apply (limpiar_conexiones_sin_columna Z calculos_identidad s 0%nat tabla_de_prueba
           "tarifa"%string).
  - reflexivity.
  - unfold COLUMNAS_OBLIGATORIAS. by repeat constructor.
  - reflexivity.
Defined.

Lemma limpiar_proyectos_sin_columna_testigo :
  let s : almacen Z := {[ 0%nat := tabla_de_prueba ]} in
  fst (limpiar_proyectos Z calculos_identidad 0%nat s) = Raise ValueError /\
  snd (limpiar_proyectos Z calculos_identidad 0%nat s) !! 0%nat = Some tabla_de_prueba.
Proof.
  intros s.
  apply (limpiar_proyectos_sin_columna Z calculos_identidad s 0%nat tabla_de_prueba
           "etapa"%string).
  - reflexivity.
  - unfold COLUMNAS_OBLIGATORIAS_PROYECTO. by repeat constructor.
  - done.
  - done.
  - reflexivity.
Defined.

End ValidacionProps.

(** ** The totals of the lengths summary *)

Module LongitudesProps.
Import Pandas PandasProps Longitudes.

#[local] Existing Instance Longitudes.clase_eq_dec.
#[local] Existing Instance Longitudes.par_le_dec.

Section Props.
Context `{N : Num}.
Variable suma_flotante : list num -> num.
Variable media : list num -> num.

(** The mean of a single value is the value. *)
Hypothesis media_de_uno : forall x, media [x] = x.

(** The rows of a key and a class. *)
Definition filas_de (df : list FilaLongitud) (k : Clave) (c : Clase) : list FilaLongitud :=
  filter (fun f => clave_y_clase f = (k, Some c)) df.

(** Some row of the class has a key without missing component. *)
Definition clase_presente (df : list FilaLongitud) (c : Clase) : bool :=
  existsb (fun f => bool_decide (clase f = Some c) && negb (con_nulo (clave f))) df.

(** The total of a class for a key, from the rows of the table. *)
Definition total_de (df : list FilaLongitud) (k : Clave) (c : Clase) : num :=
  if clase_presente df c then
    match filas_de df k c with
    | [] => nadd (of_Z 0) (of_Z 0)
    | filas => nadd (suma_flotante (red_primaria <$> filas))
                    (suma_flotante (red_secundaria <$> filas))
    end
  else of_Z 0.

Lemma filter_de_filtrados {A} (P : A -> Prop) `{forall x, Decision (P x)}
    (q : A -> bool) (l : list A) :
  (forall x, P x -> q x = true) -> filter P (List.filter q l) = filter P l.
Proof.
  intros Hq. induction l as [|x l IH]; [done|]. cbn [List.filter].
  destruct (decide (P x)) as [Hp|Hp].
  - rewrite (Hq x Hp). rewrite !filter_cons_True by done. by rewrite IH.
  - rewrite (filter_cons_False _ x l) by done.
    destruct (q x); [rewrite filter_cons_False by done|]; apply IH.
Qed.

(** The row of a pair in the table grouped by key and class. *)
Lemma agrupado_de_un_par (df : list FilaLongitud) (k : Clave) (c : Clase) :
  filas_de df k c <> [] ->
  filter (fun f => clave_y_clase f = (k, Some c)) (agrupar_con_clase suma_flotante df)
  = [{| clave := k; clase := Some c;
        red_primaria := suma_flotante (red_primaria <$> filas_de df k c);
        red_secundaria := suma_flotante (red_secundaria <$> filas_de df k c) |}].
Proof.
  intros Hne.
  set (x := {| clave := k; clase := Some c;
               red_primaria := suma_flotante (red_primaria <$> filas_de df k c);
               red_secundaria := suma_flotante (red_secundaria <$> filas_de df k c) |}).
  change (k, Some c) with (clave_y_clase x).
  apply (filter_clave_presente clave_y_clase).
  - rewrite (EtlProps.agrupado_claves suma_flotante).
    apply (groupby_NoDup par_le par_con_nulo clave_y_clase false df).
  - unfold agrupar_con_clase, groupby. rewrite <- list_fmap_compose.
    apply list_elem_of_fmap. exists (k, Some c). split; [done|].
    rewrite merge_sort_Permutation. apply elem_of_remove_dups.
    destruct (filas_de df k c) as [|f l] eqn:E; [done|].
    assert (Hf : f ∈ filas_de df k c) by (rewrite E; left).
    apply list_elem_of_filter in Hf as [Hf1 Hf2]. rewrite <- Hf1.
    by apply list_elem_of_fmap_2.
Qed.

Lemma find_ninguno {A} (p : A -> bool) (l : list A) :
  (forall x, x ∈ l -> p x = false) -> List.find p l = None.
Proof.
  induction l as [|y l IH]; intros Hl; [done|]. cbn [List.find].
  rewrite (Hl y) by left. apply IH. intros x Hx. apply Hl. by right.
Qed.

(** The value of the pivot at a pair without missing component: the sums
    of the rows of the pair, or the fill value when it has no row. *)
Lemma valor_pivot_de_las_filas (df : list FilaLongitud) (k : Clave) (c : Clase) :
  con_nulo k = false ->
  valor_pivot k c (celdas_pivot media (agrupar_con_clase suma_flotante df))
  = match filas_de df k c with
    | [] => (of_Z 0, of_Z 0)
    | filas => (suma_flotante (red_primaria <$> filas),
                suma_flotante (red_secundaria <$> filas))
    end.
Proof.
  intros Hk. unfold valor_pivot.
  destruct (List.find _ _) as [x|] eqn:E.
  - apply find_some in E as [Hx Ex]. apply bool_decide_eq_true in Ex.
    apply list_elem_of_In in Hx. unfold celdas_pivot in Hx.
    apply list_elem_of_fmap in Hx as (g & -> & Hg). cbn [fst snd] in *.
    pose proof (groupby_grupo _ _ _ _ _ _ Hg) as Hs. rewrite Ex in Hs.
    unfold filas_agrupadas in Hs.
    rewrite (filter_de_filtrados _ _ _) in Hs.
    2:{ intros f Hf. rewrite Hf. unfold par_con_nulo. cbn [fst snd presente].
        by rewrite Hk. }
    assert (Hne : filas_de df k c <> []).
    { assert (Hp : (k, Some c) ∈ fst <$> celdas_pivot media
                                          (agrupar_con_clase suma_flotante df)).
      { rewrite (EtlProps.celdas_claves media). rewrite <- Ex.
        by apply list_elem_of_fmap_2. }
      apply (EtlProps.celdas_pares suma_flotante media) in Hp as [_ Hp].
      apply list_elem_of_fmap in Hp as (f & Ef & Hf).
      intros Hnil. assert (Hin : f ∈ filas_de df k c).
      { apply list_elem_of_filter. done. }
      rewrite Hnil in Hin. by apply elem_of_nil in Hin. }
    rewrite (agrupado_de_un_par df k c Hne) in Hs. rewrite Hs. cbn [fmap list_fmap].
    rewrite !media_de_uno. cbn [red_primaria red_secundaria].
    by destruct (filas_de df k c).
  - destruct (filas_de df k c) as [|f l] eqn:Ef; [done|]. exfalso.
    assert (Hf : f ∈ filas_de df k c) by (rewrite Ef; left).
    apply list_elem_of_filter in Hf as [Hf1 Hf2].
    assert (Hp : (k, Some c) ∈ fst <$> celdas_pivot media
                                        (agrupar_con_clase suma_flotante df)).
    { apply (EtlProps.celdas_pares suma_flotante media). split.
      - unfold par_con_nulo. cbn [fst snd presente]. by rewrite Hk.
      - rewrite <- Hf1. by apply list_elem_of_fmap_2. }
    apply list_elem_of_fmap in Hp as (x & Ex & Hx).
    apply list_elem_of_In in Hx.
    pose proof (find_none _ _ E x Hx) as Hnone.
    apply bool_decide_eq_false in Hnone. by rewrite <- Ex in Hnone.
Qed.

(** The pivot has the columns of a class when a row of the class has a
    key without missing component. *)
Lemma tiene_clase_presente (df : list FilaLongitud) (c : Clase) :
  tiene_clase c (celdas_pivot media (agrupar_con_clase suma_flotante df))
  = clase_presente df c.
Proof.
  unfold tiene_clase, clase_presente.
  apply eq_true_iff_eq. rewrite bool_decide_eq_true, existsb_exists. split.
  - intros Hc. rewrite list_fmap_compose in Hc.
    apply list_elem_of_fmap in Hc as ([k c'] & Ec & Hp). cbn in Ec. subst c'.
    apply (EtlProps.celdas_pares suma_flotante media) in Hp as [Hn Hp].
    apply list_elem_of_fmap in Hp as (f & [= Ek Ec] & Hf).
    exists f. split; [by apply list_elem_of_In|].
    unfold par_con_nulo in Hn. cbn [fst snd] in Hn.
    apply orb_false_iff in Hn as [Hn _].
    rewrite <- Ec, <- Ek, Hn. by rewrite bool_decide_true.
  - intros (f & Hf & Hb). apply list_elem_of_In in Hf.
    apply andb_true_iff in Hb as [Hc Hn]. apply bool_decide_eq_true in Hc.
    apply negb_true_iff in Hn.
    rewrite list_fmap_compose. apply list_elem_of_fmap.
    exists (clave f, Some c). split; [done|].
    apply (EtlProps.celdas_pares suma_flotante media). split.
    + unfold par_con_nulo. cbn [fst snd presente]. by rewrite Hn.
    + apply list_elem_of_fmap. exists f. split; [|done].
      unfold clave_y_clase. by rewrite Hc.
Qed.

(** In every row of the lengths summary, the total length of a class is
    the sum of the primary lengths plus the sum of the secondary lengths
    of the rows of the table that have the key of the row and the class;
    [0 + 0] when the key has no row of the class, and [0] when no row of
    the class has a complete key. *)
Theorem totales_del_resumen (df : list FilaLongitud) (r : Resumen) :
  r ∈ _construir_resumen suma_flotante media df ->
  longitud_total_agua r = total_de df (clave_microzona r) AGUA /\
  longitud_total_desague r = total_de df (clave_microzona r) DESAGUE.
Proof.
  intros Hr. unfold _construir_resumen in Hr.
  apply list_elem_of_fmap in Hr as (k & -> & Hk).
  cbn [longitud_total_agua longitud_total_desague clave_microzona].
  assert (Hn : con_nulo k = false).
  { rewrite elem_of_remove_dups, list_fmap_compose in Hk.
    apply list_elem_of_fmap in Hk as ([k' c] & -> & Hp).
    apply (EtlProps.celdas_pares suma_flotante media) in Hp as [Hn _].
    unfold par_con_nulo in Hn. cbn [fst snd] in Hn.
    by apply orb_false_iff in Hn as [Hn _]. }
  unfold total_de. rewrite !tiene_clase_presente.
  split.
  - destruct (clase_presente df AGUA); [|done].
    rewrite (valor_pivot_de_las_filas df k AGUA Hn). by destruct (filas_de df k AGUA).
  - destruct (clase_presente df DESAGUE); [|done].
    rewrite (valor_pivot_de_las_filas df k DESAGUE Hn). by destruct (filas_de df k DESAGUE).
Qed.

End Props.

(** Witness: two water rows of one microzone, in binary64. *)
Lemma totales_del_resumen_testigo :
  let suma := foldr (nadd (Num := B64)) (of_Z 0) in
  let df := [Escenario.longitud_con_anio (N := B64); Escenario.longitud_con_anio] in
  let r := {| clave_microzona := Escenario.clave_con_anio;
              red_agua := Some (of_Z 40, of_Z 16);
              red_desague := None;
              longitud_total_agua := of_Z 56;
              longitud_total_desague := of_Z 0 |} in
  longitud_total_agua r = total_de suma df Escenario.clave_con_anio AGUA /\
  longitud_total_desague r = total_de suma df Escenario.clave_con_anio DESAGUE.
Proof.
  intros suma df r.
  apply (totales_del_resumen suma Escenario.unico (fun x => eq_refl) df r).
  assert (E : _construir_resumen suma Escenario.unico df = [r]) by reflexivity.
  rewrite E. left.
Defined.

End LongitudesProps.
